(** * Sign-Bridge gesture engine: the signal-fusion pipeline

    A shallow embedding of the five closures of the gesture engine
    (GeometricAnalyzer, OnlineLearner, TemporalSmoother, ConflictResolver,
    GestureEngine) and the properties the specification states about them.

    Numbers.  Every JavaScript number of the engine is modelled as a real
    number: arithmetic is exact and there is no infinity.  NaN arises in
    the engine where a name is read that every object inherits; the results
    it reaches are of type [Num].
    [Math.sqrt], [Math.acos], [Math.PI], [Math.abs], [Math.min] and
    [Math.max] are the functions of the same name of the real-number library.
    Integer counters (observation counts, window positions) are natural
    numbers.  Rounding changes one statement of the specification, the one
    on the moving average of the learner; module [Binary64] has that update
    in the binary64 arithmetic the engine runs on.

    Objects.  A plain object used as a dictionary ([stats], [votes],
    [confAcc]) is a finite map from names to values: [stats], which is only
    read by key, is a [gmap]; [votes], which is iterated, is an association
    list kept in property order.  These maps hold the own properties; a
    read by a name that is none of them finds what the object inherits
    (see [inherited]).

    Absent values.  [null] and [undefined] are [None]. *)

From Stdlib Require Import Floats.
From Stdlib Require Import Reals Lra Lia Ascii String.
From stdpp Require Import gmap strings list.

Local Open Scope R_scope.

(** ** Numeric tests

    The comparisons of the source, as boolean functions on reals. *)

Definition Rltb (a b : R) : bool := if Rlt_dec a b then true else false.
Definition Rleb (a b : R) : bool := if Rle_dec a b then true else false.
Definition Rgtb (a b : R) : bool := Rltb b a.
Definition Rgeb (a b : R) : bool := Rleb b a.
Definition Reqb (a b : R) : bool := if Req_dec_T a b then true else false.

Infix "<?" := Rltb (at level 70, no associativity) : R_scope.
Infix "<=?" := Rleb (at level 70, no associativity) : R_scope.
Infix ">?" := Rgtb (at level 70, no associativity) : R_scope.
Infix ">=?" := Rgeb (at level 70, no associativity) : R_scope.

(** [Math.sign]: -1, 0 or 1. *)
Definition sign (a : R) : R :=
  if 0 <? a then 1 else if a <? 0 then -1 else 0.

(** A block of the source that either returns a value or falls through to
    the statement after it: [first <|> rest] is the value [first] returned,
    and [rest] when [first] fell through. *)
Definition orElse {A : Type} (first rest : option A) : option A :=
  match first with
  | Some r => Some r
  | None => rest
  end.

Notation "a <|> b" := (orElse a b) (at level 65, right associativity).

(** [if (c) return v;] *)
Definition returnIf {A : Type} (c : bool) (v : A) : option A :=
  if c then Some v else None.

(** [if (c) { body }] where [body] may return. *)
Definition when {A : Type} (c : bool) (body : option A) : option A :=
  if c then body else None.

(** ** Data model *)

(** One landmark [{x, y, z}]. *)
Module Landmark.
Record t : Type := mk { x : R; y : R; z : R }.
End Landmark.

(** The landmark array of one hand.  The source reads indices 0 to 20 and
    only after it has checked that the array has at least 21 entries; the
    value at an index beyond the end is therefore never observed. *)
Abbreviation Hand := (list Landmark.t).

Definition origin : Landmark.t := Landmark.mk 0 0 0.

(** [lm[i]] *)
Definition pt (lm : Hand) (i : nat) : Landmark.t := nth i lm origin.

(** An object [{name, confidence}]: the opinion of the geometric analyser,
    an entry of the smoothing window, the result of [best]. *)
Module Opinion.
Record t : Type := mk { name : string; confidence : R }.
End Opinion.

(** An object [{name, score}]: a candidate of the gesture bank, the result
    of the conflict resolver. *)
Module Candidate.
Record t : Type := mk { name : string; score : R }.
End Candidate.

(** A number that may be NaN.  The numbers the engine is given are finite;
    NaN arises inside it where arithmetic meets [undefined], and is written
    out where it does. *)
Inductive Num : Type :=
| Fin (r : R)
| NaN.

(** ** What every plain object inherits

    [stats], [votes], [confAcc] and [session.signs] are plain objects
    [{}]: a property read [obj[k]] whose key is not an own property finds
    the member of [Object.prototype] of that name, when there is one.
    These are the names of its members; each is a function, but [__proto__],
    an accessor that reads as [Object.prototype] itself and, assigned a
    value that is not an object, does nothing.  All of them are truthy. *)
Definition inherited (k : string) : bool :=
  existsb (String.eqb k)
    ["constructor"; "__defineGetter__"; "__defineSetter__"; "hasOwnProperty";
     "__lookupGetter__"; "__lookupSetter__"; "isPrototypeOf";
     "propertyIsEnumerable"; "toString"; "valueOf"; "__proto__";
     "toLocaleString"].

(** ** Section 2: GeometricAnalyzer *)

Module GeometricAnalyzer.
Import Landmark.

(** Euclidean distance between two landmarks. *)
Definition dist (a b : Landmark.t) : R :=
  sqrt ((x a - x b) ^ 2 + (y a - y b) ^ 2 + (z a - z b) ^ 2).

(** Normalised hand size: wrist to middle MCP, at least 0.01. *)
Definition handScale (lm : Hand) : R :=
  Rmax 0.01 (dist (pt lm 0) (pt lm 9)).

Definition isExtended (lm : Hand) (tip mcp : nat) (threshold : R) : bool :=
  let sc := handScale lm in
  let tipD := dist (pt lm 0) (pt lm tip) / sc in
  let mcpD := dist (pt lm 0) (pt lm mcp) / sc in
  tipD >? mcpD * threshold.

(** Angle in degrees at vertex [b], between the rays to [a] and to [c]. *)
Definition angleDeg (a b c : Landmark.t) : R :=
  let abx := x a - x b in
  let aby := y a - y b in
  let abz := z a - z b in
  let cbx := x c - x b in
  let cby := y c - y b in
  let cbz := z c - z b in
  let dot := abx * cbx + aby * cby + abz * cbz in
  let mag := sqrt (abx ^ 2 + aby ^ 2 + abz ^ 2) *
             sqrt (cbx ^ 2 + cby ^ 2 + cbz ^ 2) in
  if mag <? 1e-8 then 0
  else acos (Rmin 1 (Rmax (-1) (dot / mag))) * (180 / PI).

(** Extension state of the five fingers. *)
Record FingerStates : Type := mkFingerStates {
  thumb : bool; index : bool; middle : bool; ring : bool; pinky : bool
}.

Definition fingerStates (lm : Hand) : FingerStates :=
  {| thumb  := isExtended lm 4 2 1.30;
     index  := isExtended lm 8 5 1.60;
     middle := isExtended lm 12 9 1.60;
     ring   := isExtended lm 16 13 1.55;
     pinky  := isExtended lm 20 17 1.45 |}.

Definition thumbUp (lm : Hand) : bool := y (pt lm 4) <? y (pt lm 5).
Definition thumbDown (lm : Hand) : bool := y (pt lm 4) >? y (pt lm 9).

(** The decision table of [classify], for an array that passed the
    guard. *)
Definition classifyHand (lm : Hand) : option Opinion.t :=
  let fs := fingerStates lm in
  let sc := handScale lm in
  let ext := [thumb fs; index fs; middle fs; ring fs; pinky fs] in
  let extCount := length (List.filter (fun b : bool => b) ext) in
  (* THUMBS UP / DOWN *)
  when (thumb fs && negb (index fs) && negb (middle fs) && negb (ring fs)
          && negb (pinky fs))
    (returnIf (thumbUp lm) (Opinion.mk "THUMBS UP" 0.95) <|>
     returnIf (thumbDown lm) (Opinion.mk "THUMBS DOWN" 0.95)) <|>
  (* L (thumb + index only, perpendicular) *)
  when (thumb fs && index fs && negb (middle fs) && negb (ring fs)
          && negb (pinky fs))
    (let angle := angleDeg (pt lm 4) (pt lm 2) (pt lm 5) in
     returnIf (angle >? 58) (Opinion.mk "L" 0.90)) <|>
  (* I LOVE YOU (thumb + index + pinky) *)
  returnIf (thumb fs && index fs && negb (middle fs) && negb (ring fs)
              && pinky fs)
    (Opinion.mk "I LOVE YOU" 0.92) <|>
  (* Y (thumb + pinky only) *)
  returnIf (thumb fs && negb (index fs) && negb (middle fs) && negb (ring fs)
              && pinky fs)
    (Opinion.mk "Y" 0.88) <|>
  (* CALL ME (thumb + pinky horizontal) *)
  when (thumb fs && negb (index fs) && negb (middle fs) && negb (ring fs)
          && pinky fs)
    (let pinkyVecX := x (pt lm 20) - x (pt lm 17) in
     let pinkyVecY := y (pt lm 20) - y (pt lm 17) in
     let isHoriz := Rabs pinkyVecX >? Rabs pinkyVecY * 1.4 in
     returnIf isHoriz (Opinion.mk "CALL ME" 0.85)) <|>
  (* ALL 5 EXTENDED *)
  when (extCount =? 5)%nat
    (let spread := dist (pt lm 8) (pt lm 20) / sc in
     let idxUp := (y (pt lm 8) - y (pt lm 5)) <? -0.05 in
     returnIf (idxUp && (spread >? 1.2)) (Opinion.mk "STOP" 0.85) <|>
     returnIf (idxUp && (spread <=? 1.2)) (Opinion.mk "HELLO" 0.80)) <|>
  (* D (index only, others curl around thumb) *)
  when (index fs && negb (middle fs) && negb (ring fs) && negb (pinky fs))
    (let thumbToMid := dist (pt lm 4) (pt lm 12) / sc in
     let conf := if thumbToMid <? 0.6 then 0.84 else 0.72 in
     Some (Opinion.mk "D" conf)) <|>
  (* W (index + middle + ring extended, no thumb/pinky) *)
  returnIf (negb (thumb fs) && index fs && middle fs && ring fs
              && negb (pinky fs))
    (Opinion.mk "W" 0.86) <|>
  (* U vs V (index + middle, no others) *)
  when (negb (thumb fs) && index fs && middle fs && negb (ring fs)
          && negb (pinky fs))
    (let spread := dist (pt lm 8) (pt lm 12) / sc in
     returnIf (spread >? 0.70) (Opinion.mk "V" 0.88) <|>
     Some (Opinion.mk "U" 0.84)) <|>
  (* OK (index+thumb pinch, 3 up) *)
  when ((extCount =? 3)%nat && middle fs && ring fs && pinky fs)
    (let pinch := dist (pt lm 4) (pt lm 8) / sc in
     returnIf (pinch <? 0.40) (Opinion.mk "OK" 0.86)) <|>
  (* EAT (all fingers curled, by thumb direction) *)
  when (extCount =? 0)%nat
    (let thumbVecY := y (pt lm 4) - y (pt lm 3) in
     returnIf (thumbVecY <? -0.05) (Opinion.mk "EAT" 0.70)) <|>
  None.

(** [classify(lm)]: [None] is both the absent array and the [null] the
    source returns. *)
Definition classify (lm : option Hand) : option Opinion.t :=
  match lm with
  | None => None
  | Some lm =>
      if (length lm <? 21)%nat then None else classifyHand lm
  end.

End GeometricAnalyzer.

(** ** Section 3: OnlineLearner *)

Module OnlineLearner.

Definition EMA_ALPHA : R := 0.12.
Definition MAX_OFFSET : R := 2.5.
Definition MIN_CONFIRM : nat := 8.
Definition TARGET_SCORE : R := 8.5.

(** Per-sign statistics [{ema, count}]. *)
Record Stat : Type := mkStat { ema : R; count : nat }.

(** The object [stats], keyed by sign name. *)
Abbreviation Stats := (gmap string Stat).

(** [stats[name]]: the own property, the inherited member, or
    [undefined]. *)
Inductive Found : Type :=
| Own (s : Stat)
| Member
| Absent.

Definition find (stats : Stats) (name : string) : Found :=
  match stats !! name with
  | Some s => Own s
  | None => if inherited name then Member else Absent
  end.

(** [observe(name, rawScore)]: a sign seen for the first time starts at
    [{ema: rawScore, count: 0}]; then the count is incremented and the
    average moved.  For the name of an inherited member [!stats[name]] is
    false: no property is created, and the count and the average are
    written on the member itself, where both are NaN from then on, as the
    arithmetic on its missing properties is: no read of the engine tells
    the difference, and [stats] is as it was. *)
Definition observe (stats : Stats) (name : string) (rawScore : R) : Stats :=
  match find stats name with
  | Member => stats
  | found =>
      let s := match found with
               | Own s => s
               | _ => mkStat rawScore 0
               end in
      <[name := mkStat (EMA_ALPHA * rawScore + (1 - EMA_ALPHA) * ema s)
                       (count s + 1)]> stats
  end.

(** The offset [adjust] adds once a sign has enough observations. *)
Definition offset (s : Stat) : R :=
  Rmax (- MAX_OFFSET) (Rmin MAX_OFFSET (TARGET_SCORE - ema s)).

(** [adjust(name, rawScore)].  For the name of an inherited member [s] is
    the member: [!s] is false, [s.count < MIN_CONFIRM] compares [undefined]
    (or NaN) and is false, and the offset, computed from [s.ema], is NaN. *)
Definition adjust (stats : Stats) (name : string) (rawScore : R) : Num :=
  match find stats name with
  | Absent => Fin rawScore
  | Own s =>
      if (count s <? MIN_CONFIRM)%nat then Fin rawScore
      else Fin (rawScore + offset s)
  | Member => NaN
  end.

(** [getCount(name)]: [stats[name]?.count || 0]; the count of an inherited
    member is [undefined] or NaN. *)
Definition getCount (stats : Stats) (name : string) : nat :=
  match find stats name with
  | Own s => count s
  | _ => 0%nat
  end.

(** [reset()] deletes every key. *)
Definition reset (stats : Stats) : Stats := ∅.


End OnlineLearner.

(** ** The moving average in binary64

    The assignment [s.ema = EMA_ALPHA * rawScore + (1 - EMA_ALPHA) * s.ema]
    of [observe], in IEEE 754 double precision with rounding to nearest.
    The literal 0.12 stands for the nearest double, as it does in the
    source. *)

Module Binary64.

#[warnings="-inexact-float"]
Definition EMA_ALPHA : float := 0.12%float.

Definition emaUpdate (rawScore ema : float) : float :=
  (EMA_ALPHA * rawScore + (1 - EMA_ALPHA) * ema)%float.

(** The average of a sign first observed with [rawScore]: it starts at
    [rawScore] and is updated at once. *)
Definition emaFirst (rawScore : float) : float := emaUpdate rawScore rawScore.


Definition between (lo x hi : float) : bool :=
  ((lo <=? x) && (x <=? hi))%float%bool.

(** An observation of 8.5 leaves each of the [k] doubles from [ema]
    downwards between where it was and 8.5. *)
Fixpoint staysBelow (k : nat) (ema : float) : bool :=
  match k with
  | O => true
  | S k' =>
      between ema (emaUpdate 8.5 ema) 8.5 && staysBelow k' (next_down ema)
  end.

(** The same for the [k] doubles from [ema] upwards. *)
Fixpoint staysAbove (k : nat) (ema : float) : bool :=
  match k with
  | O => true
  | S k' =>
      between 8.5 (emaUpdate 8.5 ema) ema && staysAbove k' (next_up ema)
  end.

End Binary64.

(** ** Plain objects that are iterated

    [votes] and [confAcc] map names to numbers.  The association list keeps
    the keys in the order they were created; [entries] gives them in the
    order [Object.entries] does. *)

Module Obj.

Abbreviation t := (list (string * R)).

(** The own property [k]. *)
Fixpoint get (obj : t) (k : string) : option R :=
  match obj with
  | [] => None
  | (k', v) :: rest => if String.eqb k' k then Some v else get rest k
  end.

(** [obj[k] = v]: an existing key keeps its place, a new key goes last. *)
Fixpoint set (obj : t) (k : string) (v : R) : t :=
  match obj with
  | [] => [(k, v)]
  | (k', v') :: rest =>
      if String.eqb k' k then (k', v) :: rest else (k', v') :: set rest k v
  end.

(** [obj[k] || 0] for a key that is no inherited member's name: an absent
    property and a zero both give 0. *)
Definition getOr0 (obj : t) (k : string) : R :=
  match get obj k with
  | Some v => v
  | None => 0
  end.

(** No key occurs twice. *)
Fixpoint distinctKeys (obj : t) : Prop :=
  match obj with
  | [] => True
  | (k, _) :: rest => get rest k = None /\ distinctKeys rest
  end.

(** The value of a string of decimal digits, [None] when another
    character occurs. *)
Fixpoint digits (s : string) (acc : N) : option N :=
  match s with
  | EmptyString => Some acc
  | String c s' =>
      let n := N_of_ascii c in
      if ((48 <=? n) && (n <=? 57))%N
      then digits s' (10 * acc + (n - 48))%N
      else None
  end.

(** A key is an array index when it is the canonical decimal form of an
    integer from 0 to 2^32 - 2. *)
Definition arrayIndex (s : string) : option N :=
  match s with
  | EmptyString => None
  | String "0"%char EmptyString => Some 0%N
  | String "0"%char _ => None
  | _ => match digits s 0%N with
         | Some n => if (n <? 2 ^ 32 - 1)%N then Some n else None
         | None => None
         end
  end.

Definition isIndex (e : string * R) : bool :=
  match arrayIndex e.1 with Some _ => true | None => false end.

Definition indexOf (e : string * R) : N :=
  match arrayIndex e.1 with Some n => n | None => 0%N end.

Fixpoint insertByIndex (e : string * R) (l : list (string * R))
  : list (string * R) :=
  match l with
  | [] => [e]
  | e' :: rest =>
      if (indexOf e <? indexOf e')%N then e :: l
      else e' :: insertByIndex e rest
  end.

(** [Object.entries(obj)]: the array-index keys in ascending numeric
    order, then the other keys in creation order. *)
Definition entries (obj : t) : list (string * R) :=
  foldr insertByIndex [] (List.filter isIndex obj)
    ++ List.filter (fun e => negb (isIndex e)) obj.

End Obj.

(** ** Section 4: TemporalSmoother *)

Module TemporalSmoother.

Definition WINDOW : nat := 9.
Definition MIN_PCT : R := 0.48.

(** The array [history], oldest entry first. *)
Abbreviation History := (list Opinion.t).

(** [push(name, confidence)]: append, then drop the oldest entry when the
    array is longer than the window. *)
Definition push (history : History) (name : string) (confidence : R)
  : History :=
  let h := history ++ [Opinion.mk name confidence] in
  if (WINDOW <? length h)%nat then tail h else h.

Definition reset (history : History) : History := [].

(** One [push] for every entry of the list, in order. *)
Definition pushAll (history : History) (entries : list Opinion.t)
  : History :=
  fold_left (fun h e => push h (Opinion.name e) (Opinion.confidence e))
    entries history.

(** One [push(name, c)] for every confidence [c] of the list, in order. *)
Definition pushEach (history : History) (name : string)
    (confidences : list R) : History :=
  fold_left (fun h c => push h name c) confidences history.

(** The body of the [forEach]: entry [h] at index [i] adds its weight
    [i + 1] to [votes] and its weighted confidence to [confAcc].

    For the name of an inherited member, [votes[h.name] || 0] is the
    member, and the member plus a number is text (the member's source
    followed by the digits of the number): text is what is stored under the
    name in [votes] and in [confAcc] and what later entries of that name
    append to; for [__proto__] nothing is stored.  Text divided by
    [totalW] is NaN and fails [fraction >= MIN_PCT], so the loop of [best]
    passes over such a property.  [votes] and [confAcc] of the model hold
    the numbers only: the entry leaves them as they are. *)
Definition tallyEntry (acc : Obj.t * Obj.t) (h : Opinion.t) (i : nat)
  : Obj.t * Obj.t :=
  if inherited (Opinion.name h) then acc else
  let '(votes, confAcc) := acc in
  let w := INR i + 1 in
  (Obj.set votes (Opinion.name h) (Obj.getOr0 votes (Opinion.name h) + w),
   Obj.set confAcc (Opinion.name h)
     (Obj.getOr0 confAcc (Opinion.name h) + Opinion.confidence h * w)).

(** [history.forEach], from index [i] on. *)
Fixpoint tally (history : History) (i : nat) (acc : Obj.t * Obj.t)
  : Obj.t * Obj.t :=
  match history with
  | [] => acc
  | h :: rest => tally rest (S i) (tallyEntry acc h i)
  end.

(** One turn of the loop over [Object.entries(votes)]; the state is
    [(topName, topVote)]. *)
Definition pick (totalW : R) (top : option string * R) (e : string * R)
  : option string * R :=
  let '(name, voteSum) := e in
  let fraction := voteSum / totalW in
  if (fraction >=? MIN_PCT) && (voteSum >? top.2) then (Some name, voteSum)
  else top.

(** [!topName]: true for [null] and for the empty string. *)
Definition falsy (topName : option string) : bool :=
  match topName with
  | None => true
  | Some s => String.eqb s ""
  end.

(** [best()].  The two properties read for the result exist: [topName] is
    a key of [votes], and every key of [votes] is a key of [confAcc]. *)
Definition best (history : History) : option Opinion.t :=
  let n := length history in
  if (n <? 2)%nat then None else
  let '(votes, confAcc) := tally history 0 ([], []) in
  let totalW := (INR n * (INR n + 1)) / 2 in
  let '(topName, topVote) :=
    fold_left (pick totalW) (Obj.entries votes) (None, 0) in
  match topName with
  | Some top =>
      if falsy topName then None
      else Some (Opinion.mk top
                   (Rmin 1 (Obj.getOr0 confAcc top / Obj.getOr0 votes top)))
  | None => None
  end.

End TemporalSmoother.

(** ** Section 5: ConflictResolver *)

Module ConflictResolver.
Import Landmark.

(** [names.includes(n)] *)
Definition includes (names : list string) (n : string) : bool :=
  existsb (String.eqb n) names.

(** The rules of [resolve], for a top candidate and an array that passed
    the guards. *)
Definition resolveTop (top : Candidate.t) (lm : Hand) : option Candidate.t :=
  let topName := Candidate.name top in
  let topScore := Candidate.score top in
  let geo := GeometricAnalyzer.classify (Some lm) in
  let sc := GeometricAnalyzer.handScale lm in
  (* Geo engine strong agreement: boost *)
  match geo with
  | Some g =>
      returnIf (String.eqb (Opinion.name g) topName
                  && (Opinion.confidence g >? 0.80))
        (Candidate.mk topName (Rmin 10 (topScore * 1.12)))
  | None => None
  end <|>
  (* Geo engine strong override *)
  match geo with
  | Some g =>
      returnIf ((Opinion.confidence g >? 0.87)
                  && negb (String.eqb (Opinion.name g) topName))
        (Candidate.mk (Opinion.name g) (Opinion.confidence g * 10))
  | None => None
  end <|>
  (* A vs S *)
  when (String.eqb topName "A" || String.eqb topName "S")
    (let thumbOverFingers := y (pt lm 4) >? y (pt lm 6) in
     Some (Candidate.mk (if thumbOverFingers then "S" else "A") topScore)) <|>
  (* M vs N vs S vs T (all fist-like) *)
  when (includes ["M"; "N"; "S"; "T"] topName)
    (let fs := GeometricAnalyzer.fingerStates lm in
     let allCurled :=
       negb (GeometricAnalyzer.index fs) && negb (GeometricAnalyzer.middle fs)
       && negb (GeometricAnalyzer.ring fs) && negb (GeometricAnalyzer.pinky fs) in
     let thumbX := x (pt lm 4) in
     let thumbY := y (pt lm 4) in
     let midPalmX := x (pt lm 9) in
     let indexKnY := y (pt lm 5) in
     let thumbAcross := Rabs (thumbX - midPalmX) <? 0.13 in
     when allCurled
       (returnIf ((thumbY <? indexKnY) && negb thumbAcross)
          (Candidate.mk "T" topScore) <|>
        returnIf thumbAcross (Candidate.mk "S" topScore) <|>
        (let indexOverThumb := y (pt lm 8) >? y (pt lm 4) in
         let middleOverThumb := y (pt lm 12) >? y (pt lm 4) in
         let ringOverThumb := y (pt lm 16) >? y (pt lm 4) in
         let fingersOver :=
           length (List.filter (fun b : bool => b)
                     [indexOverThumb; middleOverThumb; ringOverThumb]) in
         Some (Candidate.mk (if (3 <=? fingersOver)%nat then "M" else "N")
                 topScore))) <|>
     Some (Candidate.mk topName topScore)) <|>
  (* U vs R *)
  when (String.eqb topName "U" || String.eqb topName "R")
    (let idxLean := x (pt lm 8) - x (pt lm 5) in
     let midLean := x (pt lm 12) - x (pt lm 9) in
     let crossed := negb (Reqb (sign idxLean) (sign midLean)) in
     Some (Candidate.mk (if crossed then "R" else "U") topScore)) <|>
  (* V vs PEACE *)
  when (String.eqb topName "V" || String.eqb topName "PEACE")
    (let thumbDist := GeometricAnalyzer.dist (pt lm 4) (pt lm 0) / sc in
     Some (Candidate.mk (if thumbDist >? 1.18 then "PEACE" else "V")
             topScore)) <|>
  (* F vs OK *)
  when (String.eqb topName "F" || String.eqb topName "OK")
    (let pinch := GeometricAnalyzer.dist (pt lm 4) (pt lm 8) / sc in
     Some (Candidate.mk (if pinch <? 0.36 then "OK" else "F") topScore)) <|>
  (* GOOD vs THANKS *)
  when (String.eqb topName "GOOD" || String.eqb topName "THANKS")
    (let midVecX := x (pt lm 12) - x (pt lm 9) in
     Some (Candidate.mk (if midVecX >? 0.08 then "THANKS" else "GOOD")
             topScore)) <|>
  (* BAD vs PLEASE vs WAIT *)
  when (String.eqb topName "BAD" || String.eqb topName "PLEASE"
          || String.eqb topName "WAIT")
    (let midVecY := y (pt lm 12) - y (pt lm 9) in
     returnIf (midVecY >? 0.06) (Candidate.mk "BAD" topScore) <|>
     Some (Candidate.mk (if String.eqb topName "WAIT" then "WAIT"
                         else "PLEASE") topScore)) <|>
  (* C vs O vs EAT vs HOT *)
  when (includes ["C"; "O"; "EAT"; "HOT"; "DRINK"] topName)
    (let tipSpread := GeometricAnalyzer.dist (pt lm 8) (pt lm 4) / sc in
     let midVecY := y (pt lm 12) - y (pt lm 9) in
     returnIf (tipSpread <? 0.28) (Candidate.mk "O" topScore) <|>
     returnIf (midVecY <? -0.06) (Candidate.mk "EAT" topScore) <|>
     returnIf (midVecY >? 0.08) (Candidate.mk "HOT" topScore) <|>
     Some (Candidate.mk "C" topScore)) <|>
  (* CALL ME vs Y *)
  when (String.eqb topName "CALL ME" || String.eqb topName "Y")
    (let pinkyVecX := x (pt lm 20) - x (pt lm 17) in
     let pinkyVecY := y (pt lm 20) - y (pt lm 17) in
     let isHoriz := Rabs pinkyVecX >? Rabs pinkyVecY * 1.3 in
     Some (Candidate.mk (if isHoriz then "CALL ME" else "Y") topScore)) <|>
  (* SLOW vs HELLO *)
  when (String.eqb topName "SLOW" || String.eqb topName "HELLO")
    (let spread := GeometricAnalyzer.dist (pt lm 8) (pt lm 20) / sc in
     Some (Candidate.mk (if spread <? 0.9 then "SLOW" else "HELLO")
             topScore)) <|>
  Some (Candidate.mk topName topScore).

(** [resolve(candidates, lm)]: [None] is an absent argument on the way in
    and [null] on the way out. *)
Definition resolve (candidates : option (list Candidate.t))
    (lm : option Hand) : option Candidate.t :=
  match candidates with
  | None | Some [] => None
  | Some (top :: _) =>
      match lm with
      | None => None
      | Some lm =>
          if (length lm <? 21)%nat then None else resolveTop top lm
      end
  end.

End ConflictResolver.

(** ** Section 6: GestureEngine

    The engine works on the window of the smoother and the statistics of the
    learner; both are the state here.  The gesture bank is outside the
    engine: [detect] takes what [estimator.estimate] gave for the frame. *)

Module GestureEngine.

Record State : Type := mkState {
  ready : bool;
  history : list Opinion.t;
  stats : gmap string OnlineLearner.Stat
}.

(** Stable insertion of [c] into a list sorted by descending score. *)
Fixpoint insertByScore (c : Candidate.t) (l : list Candidate.t)
  : list Candidate.t :=
  match l with
  | [] => [c]
  | c' :: rest =>
      if Candidate.score c' >=? Candidate.score c
      then c' :: insertByScore c rest
      else c :: l
  end.

(** [[...gestures].sort((a, b) => b.score - a.score)] *)
Definition sortByScore (l : list Candidate.t) : list Candidate.t :=
  fold_left (fun acc c => insertByScore c acc) l [].

(** [Math.round] *)
Definition round (v : R) : R := IZR (Int_part (v + 0.5)).

(** [detect(landmarks, w, h, threshold)].  [gestures] is the array
    [fpResult.gestures], [None] when the estimator threw or gave none.

    The adjusted score is NaN when the name is an inherited member's, and
    so is the confidence pushed.  The window of the model holds finite
    confidences and keeps 0 in that entry: the confidence of an entry of
    such a name is only ever appended to the text the name stands for in
    [confAcc] (see [TemporalSmoother.tallyEntry]), so that no answer of
    [best] depends on it. *)
Definition detect (st : State) (landmarks : option Hand)
    (gestures : option (list Candidate.t)) : State * option Opinion.t :=
  match landmarks with
  | None => (st, None)
  | Some lm =>
      if negb (ready st) || (length lm <? 21)%nat then (st, None) else
      let candidates :=
        match gestures with
        | Some g => take 4 (sortByScore g)
        | None => []
        end in
      let resolved := ConflictResolver.resolve (Some candidates) landmarks in
      let finalResult :=
        match resolved with
        | Some r => Some r
        | None =>
            match GeometricAnalyzer.classify landmarks with
            | Some geo =>
                Some (Candidate.mk (Opinion.name geo)
                        (Opinion.confidence geo * 10))
            | None => None
            end
        end in
      match finalResult with
      | None =>
          (mkState (ready st) (TemporalSmoother.reset (history st))
             (stats st), None)
      | Some final =>
          let adjustedScore :=
            OnlineLearner.adjust (stats st) (Candidate.name final)
              (Candidate.score final) in
          let rawConf :=
            match adjustedScore with
            | Fin a => Rmin 1.0 (Rmax 0 (a / 10))
            | NaN => 0
            end in
          let history' :=
            TemporalSmoother.push (history st) (Candidate.name final)
              rawConf in
          let st' := mkState (ready st) history' (stats st) in
          match TemporalSmoother.best history' with
          | None => (st', None)
          | Some smoothed =>
              (st', Some (Opinion.mk (Opinion.name smoothed)
                            (round (Opinion.confidence smoothed * 100))))
          end
      end
  end.

Definition confirmSign (st : State) (name : string) (rawFpScore : R)
  : State :=
  mkState (ready st) (history st)
    (OnlineLearner.observe (stats st) name rawFpScore).

Definition reset (st : State) : State :=
  mkState (ready st) (TemporalSmoother.reset (history st)) (stats st).

Definition resetSession (st : State) : State :=
  mkState (ready st) (TemporalSmoother.reset (history st))
    (OnlineLearner.reset (stats st)).

(** The state the module is loaded in: no estimator, an empty window, no
    statistics. *)
Definition start : State := mkState false [] ∅.

(** [init()]: [built] tells whether [buildGestureEstimator] gave an
    estimator; [ready] is false when it threw or gave [null]. *)
Definition init (st : State) (built : bool) : State :=
  mkState built (history st) (stats st).

(** The calls of the public interface that touch the state. *)
Inductive Call : Type :=
| Init (built : bool)
| Detect (landmarks : option Hand) (gestures : option (list Candidate.t))
| ConfirmSign (name : string) (rawFpScore : R)
| Reset
| ResetSession.

Definition step (st : State) (c : Call) : State :=
  match c with
  | Init built => init st built
  | Detect landmarks gestures => (detect st landmarks gestures).1
  | ConfirmSign name rawFpScore => confirmSign st name rawFpScore
  | Reset => reset st
  | ResetSession => resetSession st
  end.

(** A sequence of calls, first to last. *)
Definition run (st : State) (calls : list Call) : State :=
  fold_left step calls st.

End GestureEngine.

(** ** The specification's own words

    Definitions that follow the text of the specification, to be compared
    with the code above. *)

Module Spec.

(** [clamp(v, lo, hi)] *)
Definition clamp (v lo hi : R) : R :=
  if v <? lo then lo else if hi <? v then hi else v.

(** The weighted votes of [name] in a window whose first entry has
    position [i]: the entry at position [j] weighs [j + 1]. *)
Fixpoint votesFrom (i : nat) (window : list Opinion.t) (name : string) : R :=
  match window with
  | [] => 0
  | h :: rest =>
      (if String.eqb (Opinion.name h) name then INR i + 1 else 0)
      + votesFrom (S i) rest name
  end.

(** The sum of confidence times weight over the entries of [name]. *)
Fixpoint confFrom (i : nat) (window : list Opinion.t) (name : string) : R :=
  match window with
  | [] => 0
  | h :: rest =>
      (if String.eqb (Opinion.name h) name
       then Opinion.confidence h * (INR i + 1) else 0)
      + confFrom (S i) rest name
  end.

(** Oldest entry weight 1, newest weight [n]. *)
Definition votes (window : list Opinion.t) (name : string) : R :=
  votesFrom 0 window name.

Definition confSum (window : list Opinion.t) (name : string) : R :=
  confFrom 0 window name.

(** The triangular number [n (n + 1) / 2]. *)
Definition totalWeight (window : list Opinion.t) : R :=
  INR (length window) * (INR (length window) + 1) / 2.

(** A name is eligible when its share of the total weight is at least
    0.48. *)
Definition eligible (window : list Opinion.t) (name : string) : Prop :=
  0.48 <= votes window name / totalWeight window.

(** The names of the five-way cluster and the names its rule can give. *)
Definition clusterNames : list string := ["C"; "O"; "EAT"; "HOT"; "DRINK"].
Definition clusterOutputs : list string := ["O"; "EAT"; "HOT"; "C"].

End Spec.

(** The squared distance between two landmarks, which spares the square
    root when two distances are compared. *)
Definition sqDist (a b : Landmark.t) : R :=
  (Landmark.x a - Landmark.x b) ^ 2 + (Landmark.y a - Landmark.y b) ^ 2
  + (Landmark.z a - Landmark.z b) ^ 2.

(** ** Sample hands

    Hands in image coordinates ([y] grows downwards), all in the plane
    [z = 0], with the wrist at (0.5, 0.9) and the middle knuckle at
    (0.5, 0.6). *)

Definition flat (a b : R) : Landmark.t := Landmark.mk a b 0.

(** All five fingers extended and spread, fingers up. *)
Definition openPalm : Hand :=
  [ flat 0.5 0.9;
    flat 0.45 0.85; flat 0.4 0.8;   flat 0.3 0.7;  flat 0.2 0.6;
    flat 0.42 0.6;  flat 0.41 0.45; flat 0.4 0.3;  flat 0.4 0.2;
    flat 0.5 0.6;   flat 0.5 0.45;  flat 0.5 0.3;  flat 0.5 0.15;
    flat 0.58 0.6;  flat 0.59 0.45; flat 0.6 0.3;  flat 0.6 0.2;
    flat 0.65 0.62; flat 0.7 0.5;   flat 0.75 0.4; flat 0.8 0.3 ].

(** Thumb and pinky extended, the pinky pointing sideways. *)
Definition shaka : Hand :=
  [ flat 0.5 0.9;
    flat 0.45 0.85; flat 0.4 0.8;   flat 0.3 0.7;   flat 0.2 0.6;
    flat 0.42 0.6;  flat 0.43 0.62; flat 0.44 0.66; flat 0.45 0.7;
    flat 0.5 0.6;   flat 0.5 0.62;  flat 0.5 0.66;  flat 0.5 0.7;
    flat 0.58 0.6;  flat 0.58 0.62; flat 0.57 0.66; flat 0.57 0.7;
    flat 0.65 0.62; flat 0.75 0.61; flat 0.85 0.6;  flat 0.95 0.6 ].

(** Every finger curled, the thumb lying flat. *)
Definition curledHand : Hand :=
  [ flat 0.5 0.9;
    flat 0.45 0.85; flat 0.4 0.8;   flat 0.42 0.75; flat 0.45 0.74;
    flat 0.42 0.6;  flat 0.43 0.62; flat 0.44 0.66; flat 0.45 0.7;
    flat 0.5 0.6;   flat 0.5 0.62;  flat 0.5 0.66;  flat 0.5 0.7;
    flat 0.58 0.6;  flat 0.58 0.62; flat 0.57 0.66; flat 0.57 0.7;
    flat 0.65 0.62; flat 0.64 0.64; flat 0.63 0.68; flat 0.63 0.72 ].

(** Thumb and index extended, the other fingers curled; the thumb tip is at
    angle [theta] (radians) from the ray that leaves the thumb base towards
    the index knuckle. *)
Definition pointing (theta : R) : Hand :=
  [ flat 0.5 0.9;
    flat 0.45 0.85; flat 0.4 0.8;   flat 0.4 0.8;
    flat (0.4 + 0.5 * cos theta) (0.8 - 0.5 * sin theta);
    flat 0.6 0.8;   flat 0.6 0.6;   flat 0.6 0.4;   flat 0.6 0.2;
    flat 0.5 0.6;   flat 0.5 0.62;  flat 0.5 0.66;  flat 0.5 0.7;
    flat 0.58 0.6;  flat 0.58 0.62; flat 0.57 0.66; flat 0.57 0.7;
    flat 0.65 0.62; flat 0.64 0.64; flat 0.63 0.68; flat 0.63 0.72 ].

(** 70 and 40 degrees in radians. *)
Definition deg70 : R := 7 * PI / 18.
Definition deg40 : R := 2 * PI / 9.

(** ** Notions the further properties speak of *)

(** The names in the [return] statements of [classify], except the one of
    the CALL ME block. *)
Definition geometricNames : list string :=
  ["THUMBS UP"; "THUMBS DOWN"; "L"; "I LOVE YOU"; "Y"; "STOP"; "HELLO"; "D";
   "W"; "V"; "U"; "OK"; "EAT"].

(** Every value a block of [resolve] can return satisfies [Q]. *)
Definition returnsOnly (Q : Candidate.t -> Prop) (o : option Candidate.t)
  : Prop :=
  forall r, o = Some r -> Q r.

(** [observe(name, s)] for every score [s] of the list, in order. *)
Definition observeAll (stats : gmap string OnlineLearner.Stat) (name : string)
    (scores : list R) : gmap string OnlineLearner.Stat :=
  fold_left (fun st s => OnlineLearner.observe st name s) scores stats.

(** A list of candidates in descending order of score. *)
Fixpoint descending (l : list Candidate.t) : Prop :=
  match l with
  | [] => True
  | c :: rest =>
      Forall (fun c' => Candidate.score c' <= Candidate.score c) rest
      /\ descending rest
  end.

(** Every confidence of the window is between 0 and 1. *)
Definition confidencesOk (history : list Opinion.t) : Prop :=
  Forall (fun e => 0 <= Opinion.confidence e <= 1) history.

(** ** The calibration module (calibration.js)

    The state of the closure [Calibration].  The browser's storage and the
    two callbacks are the outside of the module: [load] takes what reading
    the storage gave, and what the module writes or announces is the list
    of events a call returns.  Whether a callback was given is part of the
    state; what a callback does is not modelled.  An exception the source
    would raise is [None]. *)

Module Calibration.

(** The guided sequence: sign and hint. *)
Definition CALIB_SEQUENCE : list (string * string) :=
  [ ("A", "Make a fist. Thumb rests beside index finger.");
    ("B", "4 fingers straight up, thumb tucked across palm.");
    ("L", "Index finger up, thumb pointing sideways. L-shape.");
    ("THUMBS UP", "Fist with thumb pointing straight up.");
    ("PEACE", "Index and middle finger up, spread in a V.");
    ("I LOVE YOU", "Thumb, index, and pinky extended.");
    ("HELLO", "Open palm, all fingers spread, facing camera.");
    ("STOP", "All five fingers straight up, flat open palm.");
    ("OK", "Thumb and index finger form a circle.");
    ("Y", "Thumb and pinky extended, other fingers curled.") ].

Definition SAMPLES_NEEDED : nat := 15.

(** An entry [{bonus, avg, samples}] of [data]. *)
Record Entry : Type := mkEntry { bonus : R; avg : R; samples : nat }.

Abbreviation Data := (gmap string Entry).

Record State : Type := mkState {
  data : Data;
  isRunning : bool;
  stepIndex : nat;
  sampleBuf : list R;
  onUpdate : bool;
  onComplete : bool
}.

(** What [localStorage.getItem] and [JSON.parse] gave: no item, the data a
    [save] wrote (a dictionary of entries), or an exception.  Text that
    parses to another JSON value ([null], a number, a string, an array, a
    dictionary of other values) is not written by [save] and is outside
    this type. *)
Inductive Stored : Type :=
| Missing
| Parsed (d : Data)
| Broken.

(** The argument of [onUpdate]. *)
Record Progress : Type := mkProgress {
  p_stepIndex : nat;
  p_total : nat;
  p_sign : option string;
  p_hint : option string;
  p_samples : nat;
  p_needed : nat;
  p_done : bool
}.

Inductive Event : Type :=
| Updated (p : Progress)
| Saved (d : Data)
| Completed (d : Data)
| Removed.

(** [load()] *)
Definition load (st : State) (read : Stored) : State :=
  match read with
  | Missing => st
  | Parsed d =>
      mkState d (isRunning st) (stepIndex st) (sampleBuf st) (onUpdate st)
        (onComplete st)
  | Broken =>
      mkState ∅ (isRunning st) (stepIndex st) (sampleBuf st) (onUpdate st)
        (onComplete st)
  end.

(** [_notifyUpdate()] *)
Definition notifyUpdate (st : State) : list Event :=
  if negb (onUpdate st) then []
  else
    let step := nth_error CALIB_SEQUENCE (stepIndex st) in
    [Updated
       (mkProgress (stepIndex st) (length CALIB_SEQUENCE)
          (option_map fst step) (option_map snd step)
          (length (sampleBuf st)) SAMPLES_NEEDED
          (negb (isRunning st)
           && (length CALIB_SEQUENCE <=? stepIndex st)%nat))].

(** [startCalibration(updateCb, completeCb)]; the two booleans tell whether
    the callbacks were given. *)
Definition startCalibration (st : State) (read : Stored)
    (updateCb completeCb : bool) : State * list Event :=
  if isRunning st then (st, [])
  else
    let st1 := load st read in
    let st2 := mkState (data st1) true 0 [] updateCb completeCb in
    (st2, notifyUpdate st2).

Definition stopCalibration (st : State) : State :=
  mkState (data st) false 0 [] (onUpdate st) (onComplete st).

(** [sampleBuf.reduce((a, b) => a + b, 0)] *)
Definition total (buf : list R) : R := fold_left Rplus buf 0.

(** [_commitStep()] *)
Definition commitStep (st : State) : option (State * list Event) :=
  match nth_error CALIB_SEQUENCE (stepIndex st) with
  | None => None
  | Some (sign, _) =>
      let avg := total (sampleBuf st) / INR (length (sampleBuf st)) in
      let bonus := Rmax (-1.5) (Rmin 1.5 (8.5 - avg)) in
      let data' :=
        <[sign := mkEntry bonus avg (length (sampleBuf st))]> (data st) in
      let stepIndex' := S (stepIndex st) in
      if (length CALIB_SEQUENCE <=? stepIndex')%nat then
        Some (mkState data' false stepIndex' [] (onUpdate st) (onComplete st),
              Saved data'
              :: (if onComplete st then [Completed data'] else []))
      else
        let st' := mkState data' (isRunning st) stepIndex' [] (onUpdate st)
                     (onComplete st) in
        Some (st', notifyUpdate st')
  end.

(** [feedSample(detectedName, rawScore)] *)
Definition feedSample (st : State) (detectedName : string) (rawScore : R)
  : option (State * list Event) :=
  if negb (isRunning st) then Some (st, [])
  else
    match nth_error CALIB_SEQUENCE (stepIndex st) with
    | None => None
    | Some (expected, _) =>
        if String.eqb detectedName expected && (rawScore >? 5) then
          let st1 := mkState (data st) (isRunning st) (stepIndex st)
                       (sampleBuf st ++ [rawScore]) (onUpdate st)
                       (onComplete st) in
          let events := notifyUpdate st1 in
          if (SAMPLES_NEEDED <=? length (sampleBuf st1))%nat then
            match commitStep st1 with
            | Some (st2, events2) => Some (st2, events ++ events2)
            | None => None
            end
          else Some (st1, events)
        else Some (st, [])
    end.

(** [getBonusFor(sign)]: [data[sign]?.bonus || 0] *)
Definition getBonusFor (st : State) (sign : string) : R :=
  match data st !! sign with
  | Some e => bonus e
  | None => 0
  end.

Definition applyBonus (st : State) (sign : string) (rawScore : R) : R :=
  rawScore + getBonusFor st sign.

Definition reset (st : State) : State * list Event :=
  (mkState ∅ (isRunning st) (stepIndex st) (sampleBuf st) (onUpdate st)
     (onComplete st),
   [Removed]).


Definition calibratedCount (st : State) : nat := size (data st).

Definition running (st : State) : bool := isRunning st.

Definition currentSign (st : State) : option string :=
  if isRunning st
  then option_map fst (nth_error CALIB_SEQUENCE (stepIndex st))
  else None.

(** The state after the module is loaded: everything at its initial value,
    then [load()]. *)
Definition initial (read : Stored) : State :=
  load (mkState ∅ false 0 [] false false) read.

(** The calls that change the state. *)
Inductive Call : Type :=
| Start (read : Stored) (updateCb completeCb : bool)
| Stop
| Feed (detectedName : string) (rawScore : R)
| Reset.

Definition step (st : State) (c : Call) : option (State * list Event) :=
  match c with
  | Start read updateCb completeCb =>
      Some (startCalibration st read updateCb completeCb)
  | Stop => Some (stopCalibration st, [])
  | Feed detectedName rawScore => feedSample st detectedName rawScore
  | Reset => Some (reset st)
  end.

(** A sequence of calls; [None] as soon as one raises. *)
Fixpoint run (st : State) (calls : list Call) : option State :=
  match calls with
  | [] => Some st
  | c :: rest =>
      match step st c with
      | Some (st', _) => run st' rest
      | None => None
      end
  end.

(** What the module keeps true between calls: while the sequence runs the
    step is one of the ten, fewer than fifteen samples are buffered, and
    every buffered sample is above 5. *)
Definition invariant (st : State) : Prop :=
  (isRunning st = true -> (stepIndex st < length CALIB_SEQUENCE)%nat)
  /\ (length (sampleBuf st) < SAMPLES_NEEDED)%nat
  /\ Forall (fun s => 5 < s) (sampleBuf st).

(** The number of accepted samples so far: fifteen for every finished
    step plus the buffered ones. *)
Definition progress (st : State) : nat :=
  (SAMPLES_NEEDED * stepIndex st + length (sampleBuf st))%nat.

End Calibration.

(** ** Notions the calibration properties speak of *)

(** Every stored bonus lies in the range [_commitStep] clamps to. *)
Definition boundedData (d : Calibration.Data) : Prop :=
  forall sign e, d !! sign = Some e -> -1.5 <= Calibration.bonus e <= 1.5.

(** What was read from the storage was written by [save] of a state with
    bounded bonuses. *)
Definition boundedStored (read : Calibration.Stored) : Prop :=
  match read with
  | Calibration.Parsed d => boundedData d
  | _ => True
  end.

Definition boundedCall (c : Calibration.Call) : Prop :=
  match c with
  | Calibration.Start read _ _ => boundedStored read
  | _ => True
  end.



(** ** The analytics module (speech.js, [Analytics])

    [session.signs] is an object used as a dictionary whose values are
    records; as for [votes], it is an association list of the own
    properties in creation order, and [Object.entries] lists the
    array-index keys first.  [Date.now()] is an argument of the calls that
    read the clock. *)

Module Dict.

Section Values.
Context {V : Type}.

(** The own property [k]. *)
Fixpoint get (obj : list (string * V)) (k : string) : option V :=
  match obj with
  | [] => None
  | (k', v) :: rest => if String.eqb k' k then Some v else get rest k
  end.

(** [obj[k] = v]: an existing key keeps its place, a new key goes last. *)
Fixpoint set (obj : list (string * V)) (k : string) (v : V)
  : list (string * V) :=
  match obj with
  | [] => [(k, v)]
  | (k', v') :: rest =>
      if String.eqb k' k then (k', v) :: rest else (k', v') :: set rest k v
  end.

Definition isIndex (e : string * V) : bool :=
  match Obj.arrayIndex e.1 with Some _ => true | None => false end.

Definition indexOf (e : string * V) : N :=
  match Obj.arrayIndex e.1 with Some n => n | None => 0%N end.

Fixpoint insertByIndex (e : string * V) (l : list (string * V))
  : list (string * V) :=
  match l with
  | [] => [e]
  | e' :: rest =>
      if (indexOf e <? indexOf e')%N then e :: l
      else e' :: insertByIndex e rest
  end.

(** [Object.entries(obj)] *)
Definition entries (obj : list (string * V)) : list (string * V) :=
  foldr insertByIndex [] (List.filter isIndex obj)
    ++ List.filter (fun e => negb (isIndex e)) obj.

End Values.

End Dict.

(** The record kept for a sign. *)
Module Sign.

Record t : Type := mk {
  count : nat;
  totalConf : R;
  bestConf : R;
  streak : nat;
  firstSeen : Z
}.

End Sign.

(** An element of [getTopSigns] and [getLeaderboard]; the leaderboard's
    elements have no [streak]. *)
Module Row.

Record t : Type := mk {
  name : string;
  count : nat;
  avgConf : R;
  bestConf : R;
  streak : option nat
}.

End Row.

Module Analytics.

Inductive Event : Type :=
| SignEvent (ts : Z) (name : string) (confidence : R)
| SpeechEvent (ts : Z) (sentence : string).

Record Session : Type := mkSession {
  startTime : Z;
  events : list Event;
  signs : list (string * Sign.t);
  totalDetected : nat;
  totalConf : R;
  wpmSamples : list Z;
  confusionLog : list (string * string)
}.

(** The session the module is loaded with. *)
Definition initial (now : Z) : Session := mkSession now [] [] 0 0 [] [].

(** [recordSign(name, confidence)]; [ts] is [Date.now()].  For the name of
    an inherited member [!session.signs[name]] is false: no entry is
    created, and the count, the total, the best and the streak are written
    on the member itself, where they are NaN from then on and read as no
    entry does; the streaks of all entries are reset and the totals of the
    session count the detection. *)
Definition recordSign (session : Session) (name : string) (confidence : R)
    (ts : Z) : Session :=
  let signs1 :=
    match Dict.get (signs session) name with
    | Some _ => signs session
    | None =>
        if inherited name then signs session
        else Dict.set (signs session) name (Sign.mk 0 0 0 0 ts)
    end in
  let signs2 :=
    match Dict.get signs1 name with
    | Some s =>
        Dict.set signs1 name
          (Sign.mk (S (Sign.count s)) (Sign.totalConf s + confidence)
             (Rmax (Sign.bestConf s) confidence) (S (Sign.streak s))
             (Sign.firstSeen s))
    | None => signs1
    end in
  let signs3 :=
    map (fun e : string * Sign.t =>
           if String.eqb e.1 name then e
           else (e.1, Sign.mk (Sign.count e.2) (Sign.totalConf e.2)
                        (Sign.bestConf e.2) 0 (Sign.firstSeen e.2)))
      signs2 in
  let cutoff := (ts - 60000)%Z in
  mkSession (startTime session)
    (events session ++ [SignEvent ts name confidence])
    signs3
    (S (totalDetected session))
    (totalConf session + confidence)
    (List.filter (fun t => (cutoff <? t)%Z) (wpmSamples session ++ [ts]))
    (confusionLog session).

(** [sentence.join(' ')] *)
Fixpoint join (words : list string) : string :=
  match words with
  | [] => ""
  | [w] => w
  | w :: rest => w ++ " " ++ join rest
  end.

(** [recordSpeech(sentence)]; [ts] is [Date.now()]. *)
Definition recordSpeech (session : Session) (sentence : list string)
    (ts : Z) : Session :=
  mkSession (startTime session)
    (events session ++ [SpeechEvent ts (join sentence)])
    (signs session) (totalDetected session) (totalConf session)
    (wpmSamples session) (confusionLog session).


(** [getDuration()]: [Math.floor((Date.now() - startTime) / 1000)] *)
Definition getDuration (session : Session) (now : Z) : Z :=
  ((now - startTime session) / 1000)%Z.

Definition getAvgConfidence (session : Session) : R :=
  if (totalDetected session =? 0)%nat then 0
  else GestureEngine.round
         (totalConf session / INR (totalDetected session)).

(** [getMostUsed()]: the loop's state is [(top, topCount)]. *)
Definition getMostUsed (session : Session) : option string :=
  (fold_left
     (fun (acc : option string * nat) (e : string * Sign.t) =>
        if (acc.2 <? Sign.count e.2)%nat then (Some e.1, Sign.count e.2)
        else acc)
     (Dict.entries (signs session)) (None, 0%nat)).1.

(** Stable insertion into a list sorted by descending count. *)
Fixpoint insertByCount {A : Type} (count : A -> nat) (x : A) (l : list A)
  : list A :=
  match l with
  | [] => [x]
  | y :: rest =>
      if (count x <=? count y)%nat then y :: insertByCount count x rest
      else x :: l
  end.

(** [.sort((a, b) => b.count - a.count)] *)
Definition sortByCount {A : Type} (count : A -> nat) (l : list A) : list A :=
  fold_left (fun acc x => insertByCount count x acc) l [].

(** [getTopSigns(n)] *)
Definition getTopSigns (session : Session) (n : nat) : list Row.t :=
  map (fun e : string * Sign.t =>
         Row.mk e.1 (Sign.count e.2)
           (GestureEngine.round (Sign.totalConf e.2 / INR (Sign.count e.2)))
           (Sign.bestConf e.2) (Some (Sign.streak e.2)))
    (take n
       (sortByCount (fun e : string * Sign.t => Sign.count e.2)
          (Dict.entries (signs session)))).

(** [getStreak(name)]: [signs[name]?.streak || 0]; the streak of an
    inherited member is [undefined] or NaN. *)
Definition getStreak (session : Session) (name : string) : nat :=
  match Dict.get (signs session) name with
  | Some s => Sign.streak s
  | None => 0
  end.

(** [getLeaderboard()] *)
Definition getLeaderboard (session : Session) : list Row.t :=
  sortByCount Row.count
    (map (fun e : string * Sign.t =>
            Row.mk e.1 (Sign.count e.2)
              (GestureEngine.round
                 (Sign.totalConf e.2 / INR (Sign.count e.2)))
              (Sign.bestConf e.2) None)
       (Dict.entries (signs session))).

(** [resetSession()]; [now] is [Date.now()]. *)
Definition resetSession (session : Session) (now : Z) : Session :=
  mkSession now [] [] 0 0 [] [].

(** The calls that change the session. *)
Inductive Call : Type :=
| RecordSign (name : string) (confidence : R) (ts : Z)
| RecordSpeech (sentence : list string) (ts : Z)
| ResetSession (now : Z).

Definition step (session : Session) (c : Call) : Session :=
  match c with
  | RecordSign name confidence ts => recordSign session name confidence ts
  | RecordSpeech sentence ts => recordSpeech session sentence ts
  | ResetSession now => resetSession session now
  end.

Definition run (session : Session) (calls : list Call) : Session :=
  fold_left step calls session.

End Analytics.

(** ** Notions the analytics properties speak of *)

(** The sum of a field over the recorded signs. *)
Definition countSum (signs : list (string * Sign.t)) : nat :=
  fold_right (fun e acc => (Sign.count e.2 + acc)%nat) 0%nat signs.

Definition confSumOf (signs : list (string * Sign.t)) : R :=
  fold_right (fun e acc => Sign.totalConf e.2 + acc) 0 signs.

(** The number of sign events of a timeline. *)
Definition signEvents (events : list Analytics.Event) : nat :=
  length (List.filter
            (fun e => match e with
                      | Analytics.SignEvent _ _ _ => true
                      | _ => false
                      end) events).

(** How many times in a row [name] was recorded most recently: the
    reading of a sequence of calls from its first call on, [acc] being the
    run so far. *)
Fixpoint recentRun (name : string) (calls : list Analytics.Call)
    (acc : nat) : nat :=
  match calls with
  | [] => acc
  | Analytics.RecordSign n _ _ :: rest =>
      recentRun name rest (if String.eqb n name then S acc else 0%nat)
  | Analytics.RecordSpeech _ _ :: rest => recentRun name rest acc
  | Analytics.ResetSession _ :: rest => recentRun name rest 0%nat
  end.

(** How many times [name] was recorded since the last reset. *)
Fixpoint recorded (name : string) (calls : list Analytics.Call)
    (acc : nat) : nat :=
  match calls with
  | [] => acc
  | Analytics.RecordSign n _ _ :: rest =>
      recorded name rest (if String.eqb n name then S acc else acc)
  | Analytics.RecordSpeech _ _ :: rest => recorded name rest acc
  | Analytics.ResetSession _ :: rest => recorded name rest 0%nat
  end.

(** The call records no name of an inherited member. *)
Definition recordsOwnName (c : Analytics.Call) : Prop :=
  match c with
  | Analytics.RecordSign name _ _ => inherited name = false
  | _ => True
  end.

(** The count kept for a sign, 0 when the sign has no entry. *)
Definition countOf (session : Analytics.Session) (name : string) : nat :=
  match Dict.get (Analytics.signs session) name with
  | Some s => Sign.count s
  | None => 0%nat
  end.

(** A row without its streak. *)
Definition withoutStreak (r : Row.t) : Row.t :=
  Row.mk (Row.name r) (Row.count r) (Row.avgConf r) (Row.bestConf r) None.

(** Counts in descending order. *)
Fixpoint descendingCounts (l : list nat) : Prop :=
  match l with
  | [] => True
  | n :: rest => Forall (fun m => (m <= n)%nat) rest /\ descendingCounts rest
  end.

(** What every session reached by calls satisfies: no sign has two
    entries, every entry was counted at least once, and the session's
    totals are the sums over the entries. *)
Definition consistent (session : Analytics.Session) : Prop :=
  NoDup (map fst (Analytics.signs session))
  /\ Forall (fun e : string * Sign.t => (1 <= Sign.count e.2)%nat)
       (Analytics.signs session)
  /\ Analytics.totalDetected session = countSum (Analytics.signs session)
  /\ Analytics.totalConf session = confSumOf (Analytics.signs session)
  /\ signEvents (Analytics.events session) = Analytics.totalDetected session
  /\ (length (Analytics.wpmSamples session)
      <= Analytics.totalDetected session)%nat.

(** ** The detection pipeline of the application (app.js)

    The fields of [AppState] the pipeline reads or writes, with the two
    module-level variables [recentSigns] and [lastDetectionTs] and the
    state of the three modules the pipeline calls; [addCooldownMs], which
    nothing writes, is a constant.  Every [Date.now()] is an argument.  What is written to the page
    is computed from the state and not read back; the sign display and the
    calls of the speech engine are the outputs of a call. *)

Module App.

Definition addCooldownMs : Z := 1400.
Definition MAX_CHIPS : nat := 6.
Definition DETECTION_INTERVAL : Z := 80.

Record State : Type := mkState {
  engine : GestureEngine.State;
  calibration : Calibration.State;
  analytics : Analytics.Session;
  pendingSign : string;
  pendingSignTime : Z;
  lastConfirmedSign : string;
  lastConfirmedTime : Z;
  lastRawFpScore : R;
  currentDisplaySign : string;
  autoSpeak : bool;
  calibrating : bool;
  sentence : list string;
  recentSigns : list string;
  lastDetectionTs : Z;
  debounceMs : Z
}.

Inductive Output : Type :=
| Shown (sign : string) (confidence : R) (isConfirmed : bool)
| Speak (text : string)
| Calib (e : Calibration.Event).

(** The state the script starts in. *)
Definition initial (read : Calibration.Stored) (now : Z) : State :=
  mkState GestureEngine.start (Calibration.initial read)
    (Analytics.initial now) "" 0 "" 0 0 "" true false [] [] 0 380.

Definition setEngine (st : State) (v : GestureEngine.State) : State :=
  mkState v (calibration st) (analytics st) (pendingSign st)
    (pendingSignTime st) (lastConfirmedSign st) (lastConfirmedTime st)
    (lastRawFpScore st) (currentDisplaySign st) (autoSpeak st)
    (calibrating st) (sentence st) (recentSigns st) (lastDetectionTs st)
    (debounceMs st).

Definition setCalibration (st : State) (v : Calibration.State)
    (stillCalibrating : bool) : State :=
  mkState (engine st) v (analytics st) (pendingSign st)
    (pendingSignTime st) (lastConfirmedSign st) (lastConfirmedTime st)
    (lastRawFpScore st) (currentDisplaySign st) (autoSpeak st)
    stillCalibrating (sentence st) (recentSigns st) (lastDetectionTs st)
    (debounceMs st).

Definition setAnalytics (st : State) (v : Analytics.Session) : State :=
  mkState (engine st) (calibration st) v (pendingSign st)
    (pendingSignTime st) (lastConfirmedSign st) (lastConfirmedTime st)
    (lastRawFpScore st) (currentDisplaySign st) (autoSpeak st)
    (calibrating st) (sentence st) (recentSigns st) (lastDetectionTs st)
    (debounceMs st).

Definition setPending (st : State) (sign : string) (time : Z) : State :=
  mkState (engine st) (calibration st) (analytics st) sign time
    (lastConfirmedSign st) (lastConfirmedTime st)
    (lastRawFpScore st) (currentDisplaySign st) (autoSpeak st)
    (calibrating st) (sentence st) (recentSigns st) (lastDetectionTs st)
    (debounceMs st).

Definition setLastConfirmed (st : State) (sign : string) (time : Z)
  : State :=
  mkState (engine st) (calibration st) (analytics st) (pendingSign st)
    (pendingSignTime st) sign time
    (lastRawFpScore st) (currentDisplaySign st) (autoSpeak st)
    (calibrating st) (sentence st) (recentSigns st) (lastDetectionTs st)
    (debounceMs st).

Definition setLastRawFpScore (st : State) (v : R) : State :=
  mkState (engine st) (calibration st) (analytics st) (pendingSign st)
    (pendingSignTime st) (lastConfirmedSign st) (lastConfirmedTime st)
    v (currentDisplaySign st) (autoSpeak st)
    (calibrating st) (sentence st) (recentSigns st) (lastDetectionTs st)
    (debounceMs st).

Definition setCurrentDisplaySign (st : State) (v : string) : State :=
  mkState (engine st) (calibration st) (analytics st) (pendingSign st)
    (pendingSignTime st) (lastConfirmedSign st) (lastConfirmedTime st)
    (lastRawFpScore st) v (autoSpeak st)
    (calibrating st) (sentence st) (recentSigns st) (lastDetectionTs st)
    (debounceMs st).

Definition setSentence (st : State) (v : list string) : State :=
  mkState (engine st) (calibration st) (analytics st) (pendingSign st)
    (pendingSignTime st) (lastConfirmedSign st) (lastConfirmedTime st)
    (lastRawFpScore st) (currentDisplaySign st) (autoSpeak st)
    (calibrating st) v (recentSigns st) (lastDetectionTs st)
    (debounceMs st).

Definition setRecentSigns (st : State) (v : list string) : State :=
  mkState (engine st) (calibration st) (analytics st) (pendingSign st)
    (pendingSignTime st) (lastConfirmedSign st) (lastConfirmedTime st)
    (lastRawFpScore st) (currentDisplaySign st) (autoSpeak st)
    (calibrating st) (sentence st) v (lastDetectionTs st)
    (debounceMs st).

Definition setLastDetectionTs (st : State) (v : Z) : State :=
  mkState (engine st) (calibration st) (analytics st) (pendingSign st)
    (pendingSignTime st) (lastConfirmedSign st) (lastConfirmedTime st)
    (lastRawFpScore st) (currentDisplaySign st) (autoSpeak st)
    (calibrating st) (sentence st) (recentSigns st) v (debounceMs st).

(** The debounce slider: [AppState.debounceMs = parseInt(this.value, 10)],
    the value of a range input being a whole number. *)
Definition setDebounceMs (st : State) (v : Z) : State :=
  mkState (engine st) (calibration st) (analytics st) (pendingSign st)
    (pendingSignTime st) (lastConfirmedSign st) (lastConfirmedTime st)
    (lastRawFpScore st) (currentDisplaySign st) (autoSpeak st)
    (calibrating st) (sentence st) (recentSigns st) (lastDetectionTs st) v.

(** [addWord(word)] on the array [AppState.sentence]. *)
Definition addWord (sentence : list string) (word : string) : list string :=
  if String.eqb word "" || String.eqb word "—" then sentence
  else sentence ++ [word].

(** [backspaceWord()]: [sentence.pop()] *)
Definition backspaceWord (sentence : list string) : list string :=
  removelast sentence.

Definition clearSentence (sentence : list string) : list string := [].

(** [addSpace()] *)
Definition addSpace (sentence : list string) : list string :=
  if (0 <? length sentence)%nat
     && negb (String.eqb (List.last sentence "") "·")
  then sentence ++ ["·"]
  else sentence.

(** [addChip(sign)] on the array [recentSigns]. *)
Definition addChip (recent : list string) (sign : string) : list string :=
  let recent' := sign :: recent in
  if (MAX_CHIPS <? length recent')%nat then removelast recent' else recent'.

(** [updateSignDisplay(sign, confidence, isConfirmed)] *)
Definition updateSignDisplay (st : State) (sign : string) (confidence : R)
    (isConfirmed : bool) : State * list Output :=
  (setCurrentDisplaySign st (if isConfirmed then sign else ""),
   [Shown sign confidence isConfirmed]).

(** [onSignConfirmed(signName, confidence, isManual)]; [now] is its
    [Date.now()] and [ts] the one of [Analytics.recordSign]. *)
Definition onSignConfirmed (st : State) (signName : string) (confidence : R)
    (isManual : bool) (now ts : Z) : State * list Output :=
  if String.eqb signName (lastConfirmedSign st)
     && (now - lastConfirmedTime st <? addCooldownMs)%Z
  then (st, [])
  else
    let st1 := setLastConfirmed st signName now in
    let st2 :=
      if negb isManual
      then setEngine st1
             (GestureEngine.confirmSign (engine st1) signName
                (lastRawFpScore st1))
      else st1 in
    let st3 :=
      setAnalytics st2
        (Analytics.recordSign (analytics st2) signName confidence ts) in
    let st4 := setSentence st3 (addWord (sentence st3) signName) in
    let st5 := setRecentSigns st4 (addChip (recentSigns st4) signName) in
    (st5,
     if autoSpeak st5 && negb (String.eqb signName "·")
     then [Speak signName] else []).

(** The completion callback given to [startCalibration] was called. *)
Definition completed (events : list Calibration.Event) : bool :=
  existsb (fun e => match e with
                    | Calibration.Completed _ => true
                    | _ => false
                    end) events.

(** [runDetection(landmarks)]; [gestures] is what the estimator gives for
    the landmarks, [now] the function's [Date.now()], [confirmedAt] and
    [recordedAt] the ones of [onSignConfirmed] and [Analytics.recordSign].
    [None] when [Calibration.feedSample] raises. *)
Definition runDetection (st : State) (landmarks : option Hand)
    (gestures : option (list Candidate.t)) (now confirmedAt recordedAt : Z)
  : option (State * list Output) :=
  if (now - lastDetectionTs st <? DETECTION_INTERVAL)%Z then Some (st, [])
  else
    let st0 := setLastDetectionTs st now in
    let (engine', result) :=
      GestureEngine.detect (engine st0) landmarks gestures in
    let st1 := setEngine st0 engine' in
    match result with
    | None =>
        let (st2, out) := updateSignDisplay st1 "—" 0 false in
        Some (setPending st2 "" (pendingSignTime st2), out)
    | Some r =>
        let fed :=
          if calibrating st1 then
            match Calibration.feedSample (calibration st1) (Opinion.name r)
                    (Opinion.confidence r / 10) with
            | Some (c, events) =>
                Some (setCalibration st1 c
                        (calibrating st1 && negb (completed events)),
                      map Calib events)
            | None => None
            end
          else Some (st1, []) in
        match fed with
        | None => None
        | Some (st2, out2) =>
            let calibBonus :=
              Calibration.getBonusFor (calibration st2) (Opinion.name r) in
            let adjConf :=
              Rmin 100
                (Opinion.confidence r + GestureEngine.round (calibBonus * 10))
            in
            let st3 := setLastRawFpScore st2 (Opinion.confidence r / 10) in
            let (st4, out4) :=
              updateSignDisplay st3 (Opinion.name r) adjConf false in
            if String.eqb (Opinion.name r) (pendingSign st4) then
              if (debounceMs st4 <=? now - pendingSignTime st4)%Z then
                let (st5, out5) :=
                  updateSignDisplay st4 (Opinion.name r) adjConf true in
                let (st6, out6) :=
                  onSignConfirmed st5 (Opinion.name r) adjConf false
                    confirmedAt recordedAt in
                Some (setPending st6 "" 0, out2 ++ out4 ++ out5 ++ out6)
              else Some (st4, out2 ++ out4)
            else
              Some (setPending st4 (Opinion.name r) now, out2 ++ out4)
        end
    end.

(** The keys and buttons that edit the sentence. *)
Inductive Edit : Type :=
| AddWord (word : string)
| AddSpace
| Backspace
| Clear.

Definition edit (sentence : list string) (e : Edit) : list string :=
  match e with
  | AddWord word => addWord sentence word
  | AddSpace => addSpace sentence
  | Backspace => backspaceWord sentence
  | Clear => clearSentence sentence
  end.

End App.

(** ** Notions the pipeline properties speak of *)

(** A sentence as the builder keeps it: no empty word, no dash, no
    separator at the start and no two separators in a row. *)
Fixpoint wellFormed (previousIsWord : bool) (sentence : list string)
  : Prop :=
  match sentence with
  | [] => True
  | w :: rest =>
      w <> "" /\ w <> "—"
      /\ (w = "·" -> previousIsWord = true)
      /\ wellFormed (negb (String.eqb w "·")) rest
  end.


(** The frame reports the pending sign [r], held for the debounce time,
    and no confirmation of the same sign is within the cooldown. *)
Definition held (st : App.State) (r : Opinion.t) (now confirmedAt : Z)
  : Prop :=
  Opinion.name r = App.pendingSign st
  /\ (App.DETECTION_INTERVAL <= now - App.lastDetectionTs st)%Z
  /\ (App.debounceMs st <= now - App.pendingSignTime st)%Z
  /\ (Opinion.name r = App.lastConfirmedSign st ->
      (App.addCooldownMs <= confirmedAt - App.lastConfirmedTime st)%Z).

(** The frame left the sentence, the chips, the analytics session and the
    learner's statistics as they were. *)
Definition untouched (st st' : App.State) : Prop :=
  App.sentence st' = App.sentence st
  /\ App.recentSigns st' = App.recentSigns st
  /\ App.analytics st' = App.analytics st
  /\ GestureEngine.stats (App.engine st')
     = GestureEngine.stats (App.engine st).

(** The frame confirmed the sign [r]. *)
Definition confirmed (st st' : App.State) (r : Opinion.t) (confirmedAt : Z)
  : Prop :=
  App.sentence st' = App.addWord (App.sentence st) (Opinion.name r)
  /\ App.recentSigns st' = App.addChip (App.recentSigns st) (Opinion.name r)
  /\ GestureEngine.stats (App.engine st')
     = OnlineLearner.observe (GestureEngine.stats (App.engine st))
         (Opinion.name r) (Opinion.confidence r / 10)
  /\ Analytics.totalDetected (App.analytics st')
     = S (Analytics.totalDetected (App.analytics st))
  /\ App.pendingSign st' = ""
  /\ App.lastConfirmedSign st' = Opinion.name r
  /\ App.lastConfirmedTime st' = confirmedAt.

(** ** A sample frame

    The engine after [init] and eight frames that show the curled hand
    while the bank says Z with score 9; the application 400 ms after Z
    became the pending sign; and what the ninth such frame leaves. *)
Definition heldEngine : GestureEngine.State :=
  GestureEngine.run GestureEngine.start
    (GestureEngine.Init true
     :: replicate 8
          (GestureEngine.Detect (Some curledHand)
             (Some [Candidate.mk "Z" 9.0]))).

Definition heldState : App.State :=
  App.mkState heldEngine (Calibration.initial Calibration.Missing)
    (Analytics.initial 0) "Z" 1000 "" 0 9 "" true false [] [] 1000 380.

Definition heldResult : App.State :=
  App.mkState
    (GestureEngine.mkState true
       (TemporalSmoother.pushEach [] "Z" (replicate 9 0.9))
       (OnlineLearner.observe ∅ "Z" (90 / 10)))
    (Calibration.initial Calibration.Missing)
    (Analytics.recordSign (Analytics.initial 0) "Z" 90 1400)
    "" 0 "Z" 1400 (90 / 10) "Z" true false ["Z"] ["Z"] 1400 380.

Definition heldOutput : list App.Output :=
  [App.Shown "Z" 90 false; App.Shown "Z" 90 true; App.Speak "Z"].

(** * Properties *)

(** ** Comparisons *)

Lemma Rltb_true a b : a < b -> (a <? b) = true.
Proof.
  intros H. unfold Rltb. destruct (Rlt_dec a b); [reflexivity | contradiction].
Qed.

Lemma Rltb_false a b : b <= a -> (a <? b) = false.
Proof. intros H. unfold Rltb. destruct (Rlt_dec a b); [lra | reflexivity]. Qed.

Lemma Rleb_true a b : a <= b -> (a <=? b) = true.
Proof.
  intros H. unfold Rleb. destruct (Rle_dec a b); [reflexivity | contradiction].
Qed.

Lemma Rleb_false a b : b < a -> (a <=? b) = false.
Proof. intros H. unfold Rleb. destruct (Rle_dec a b); [lra | reflexivity]. Qed.

(** ** Geometry *)

Section Geometry.
Import Landmark GeometricAnalyzer.

Lemma sqDist_nonneg a b : 0 <= sqDist a b.
Proof.
  unfold sqDist.
  pose proof (pow2_ge_0 (x a - x b)).
  pose proof (pow2_ge_0 (y a - y b)).
  pose proof (pow2_ge_0 (z a - z b)). lra.
Qed.

Lemma dist_sqDist a b : dist a b = sqrt (sqDist a b).
Proof. reflexivity. Qed.

Lemma dist_eq a b c : 0 <= c -> sqDist a b = c * c -> dist a b = c.
Proof.
  intros Hc H. rewrite dist_sqDist, H. apply sqrt_square; exact Hc.
Qed.

Lemma dist_gt a b c : 0 <= c -> c * c < sqDist a b -> c < dist a b.
Proof.
  intros Hc H. rewrite dist_sqDist.
  rewrite <- (sqrt_square c) at 1 by exact Hc.
  apply sqrt_lt_1_alt. split; nra.
Qed.

Lemma dist_lt a b c : 0 <= c -> sqDist a b < c * c -> dist a b < c.
Proof.
  intros Hc H. rewrite dist_sqDist.
  rewrite <- (sqrt_square c) by exact Hc.
  apply sqrt_lt_1_alt. split; [apply sqDist_nonneg | exact H].
Qed.

Lemma handScale_pos lm : 0 < handScale lm.
Proof.
  unfold handScale. pose proof (Rmax_l 0.01 (dist (pt lm 0) (pt lm 9))). lra.
Qed.

(** The scale cancels in [isExtended]: the tip is extended when its
    squared distance to the wrist exceeds that of the knuckle times the
    squared threshold. *)
Lemma isExtended_sq lm tip mcp t :
  0 < t ->
  isExtended lm tip mcp t
  = (t ^ 2 * sqDist (pt lm 0) (pt lm mcp) <? sqDist (pt lm 0) (pt lm tip)).
Proof.
  intros Ht. unfold isExtended, Rgtb. rewrite !dist_sqDist.
  pose proof (handScale_pos lm) as Hsc.
  pose proof (sqDist_nonneg (pt lm 0) (pt lm tip)) as HA.
  pose proof (sqDist_nonneg (pt lm 0) (pt lm mcp)) as HB.
  set (A := sqDist (pt lm 0) (pt lm tip)) in *.
  set (B := sqDist (pt lm 0) (pt lm mcp)) in *.
  set (sc := handScale lm) in *.
  assert (Ht2 : sqrt (t ^ 2 * B) = sqrt B * t).
  { rewrite sqrt_mult by nra. replace (t ^ 2) with (t * t) by ring.
    rewrite sqrt_square by lra. ring. }
  assert (Hinv : 0 < / sc) by (apply Rinv_0_lt_compat; exact Hsc).
  destruct (Rlt_dec (t ^ 2 * B) A) as [H | H].
  - rewrite (Rltb_true (t ^ 2 * B) A H). apply Rltb_true.
    assert (H' : sqrt (t ^ 2 * B) < sqrt A)
      by (apply sqrt_lt_1_alt; split; nra).
    rewrite Ht2 in H'. unfold Rdiv. nra.
  - rewrite (Rltb_false (t ^ 2 * B) A) by lra. apply Rltb_false.
    assert (H' : sqrt A <= sqrt B * t)
      by (rewrite <- Ht2; apply sqrt_le_1_alt; lra).
    unfold Rdiv. nra.
Qed.

End Geometry.

(** ** The sample hands, evaluated *)

(** Reads the landmarks of a sample hand and their coordinates. *)
Ltac points h :=
  unfold h; cbn [pt nth]; unfold sqDist, flat;
  cbn [Landmark.x Landmark.y Landmark.z].

(** Settles every comparison of the goal that linear arithmetic decides. *)
Ltac compare :=
  repeat match goal with
    | |- context [Rltb ?a ?b] =>
        first [ rewrite (Rltb_true a b) by lra
              | rewrite (Rltb_false a b) by lra ]
    | |- context [Rleb ?a ?b] =>
        first [ rewrite (Rleb_true a b) by lra
              | rewrite (Rleb_false a b) by lra ]
    end.

(** The finger states of a sample hand. *)
Ltac fingers h :=
  unfold GeometricAnalyzer.fingerStates; rewrite !isExtended_sq by lra;
  points h; compare; reflexivity.

(** The scale of a sample hand, whose wrist is 0.3 from the middle knuckle. *)
Ltac scale h :=
  unfold GeometricAnalyzer.handScale; rewrite (dist_eq _ _ 0.3);
  [| lra | points h; lra];
  unfold Rmax; destruct (Rle_dec _ _); lra.

(** Bounds the distance in the goal from below (above) by [c]. *)
Ltac dist_above c :=
  match goal with
  | |- context [GeometricAnalyzer.dist ?a ?b] =>
      let H := fresh "Hdist" in
      assert (H : c < GeometricAnalyzer.dist a b)
        by (apply dist_gt;
            [lra | unfold sqDist; cbn [Landmark.x Landmark.y Landmark.z]; lra])
  end.

Ltac dist_below c :=
  match goal with
  | |- context [GeometricAnalyzer.dist ?a ?b] =>
      let H := fresh "Hdist" in
      assert (H : GeometricAnalyzer.dist a b < c)
        by (apply dist_lt;
            [lra | unfold sqDist; cbn [Landmark.x Landmark.y Landmark.z]; lra])
  end.

(** Enters the decision table of [classify] with the finger states [fs] and
    the scale [sc] of the hand. *)
Ltac table fs sc :=
  unfold GeometricAnalyzer.classify; cbn [length Nat.ltb Nat.leb];
  unfold GeometricAnalyzer.classifyHand; rewrite fs, sc;
  cbn [GeometricAnalyzer.thumb GeometricAnalyzer.index GeometricAnalyzer.middle
       GeometricAnalyzer.ring GeometricAnalyzer.pinky
       negb andb when returnIf orElse List.filter length Nat.eqb];
  unfold GeometricAnalyzer.thumbUp, GeometricAnalyzer.thumbDown, Rgtb.

Section SampleHands.
Import Landmark GeometricAnalyzer.

Lemma openPalm_fingers :
  fingerStates openPalm = mkFingerStates true true true true true.
Proof. fingers openPalm. Qed.

Lemma openPalm_scale : handScale openPalm = 0.3.
Proof. scale openPalm. Qed.

Lemma openPalm_classify :
  classify (Some openPalm) = Some (Opinion.mk "STOP" 0.85).
Proof.
  table openPalm_fingers openPalm_scale. points openPalm.
  dist_above 0.4. compare. reflexivity.
Qed.

Lemma shaka_fingers :
  fingerStates shaka = mkFingerStates true false false false true.
Proof. fingers shaka. Qed.

Lemma shaka_scale : handScale shaka = 0.3.
Proof. scale shaka. Qed.

Lemma shaka_classify : classify (Some shaka) = Some (Opinion.mk "Y" 0.88).
Proof. table shaka_fingers shaka_scale. reflexivity. Qed.

Lemma curledHand_fingers :
  fingerStates curledHand = mkFingerStates false false false false false.
Proof. fingers curledHand. Qed.

Lemma curledHand_scale : handScale curledHand = 0.3.
Proof. scale curledHand. Qed.

Lemma curledHand_classify : classify (Some curledHand) = None.
Proof.
  table curledHand_fingers curledHand_scale. points curledHand.
  compare. reflexivity.
Qed.

(** The trigonometric facts the pointing hand needs. *)
Lemma cos_sin_facts theta :
  cos theta ^ 2 + sin theta ^ 2 = 1
  /\ -1 <= cos theta <= 1 /\ -1 <= sin theta <= 1.
Proof.
  pose proof (sin2_cos2 theta) as H. unfold Rsqr in H.
  pose proof (COS_bound theta). pose proof (SIN_bound theta).
  repeat split; lra.
Qed.

Lemma pointing_fingers theta :
  fingerStates (pointing theta) = mkFingerStates true true false false false.
Proof.
  destruct (cos_sin_facts theta) as (Hcs & Hc & Hs).
  unfold fingerStates. rewrite !isExtended_sq by lra. points pointing.
  rewrite (Rltb_true (1.30 ^ 2 * _)) by nra.
  compare. reflexivity.
Qed.

Lemma pointing_scale theta : handScale (pointing theta) = 0.3.
Proof. scale pointing. Qed.

Lemma pointing_angle theta :
  0 <= theta <= PI ->
  angleDeg (pt (pointing theta) 4) (pt (pointing theta) 2)
    (pt (pointing theta) 5) = theta * (180 / PI).
Proof.
  intros Htheta. destruct (cos_sin_facts theta) as (Hcs & Hc & Hs).
  unfold angleDeg. points pointing.
  replace ((0.4 + 0.5 * cos theta - 0.4) ^ 2
           + (0.8 - 0.5 * sin theta - 0.8) ^ 2 + (0 - 0) ^ 2)
    with (0.5 * 0.5) by nra.
  replace ((0.6 - 0.4) ^ 2 + (0.8 - 0.8) ^ 2 + (0 - 0) ^ 2)
    with (0.2 * 0.2) by lra.
  rewrite !sqrt_square by lra.
  rewrite Rltb_false by lra.
  replace (((0.4 + 0.5 * cos theta - 0.4) * (0.6 - 0.4)
            + (0.8 - 0.5 * sin theta - 0.8) * (0.8 - 0.8)
            + (0 - 0) * (0 - 0)) / (0.5 * 0.2))
    with (cos theta) by lra.
  rewrite Rmax_right by lra. rewrite Rmin_right by lra.
  rewrite acos_cos by exact Htheta. reflexivity.
Qed.

Lemma deg70_angle : 0 <= deg70 <= PI /\ deg70 * (180 / PI) = 70.
Proof.
  pose proof PI_RGT_0. unfold deg70. split; [lra |]. field. lra.
Qed.

Lemma deg40_angle : 0 <= deg40 <= PI /\ deg40 * (180 / PI) = 40.
Proof.
  pose proof PI_RGT_0. unfold deg40. split; [lra |]. field. lra.
Qed.

(** Above 58 degrees the pointing hand is an L ... *)
Lemma pointing_classify_wide theta :
  0 <= theta <= PI -> 58 < theta * (180 / PI) ->
  classify (Some (pointing theta)) = Some (Opinion.mk "L" 0.90).
Proof.
  intros Htheta Hwide.
  table (pointing_fingers theta) (pointing_scale theta).
  rewrite (pointing_angle theta Htheta).
  rewrite Rltb_true by exact Hwide. reflexivity.
Qed.

(** ... and at 58 degrees or less it is a D. *)
Lemma pointing_classify_narrow theta :
  0 <= theta <= PI -> theta * (180 / PI) <= 58 ->
  classify (Some (pointing theta)) = Some (Opinion.mk "D" 0.72).
Proof.
  intros Htheta Hnarrow. destruct (cos_sin_facts theta) as (Hcs & Hc & Hs).
  table (pointing_fingers theta) (pointing_scale theta).
  rewrite (pointing_angle theta Htheta).
  rewrite Rltb_false by exact Hnarrow. cbn [orElse].
  points pointing.
  assert (Hdist : 0.18 < dist (mk (0.4 + 0.5 * cos theta)
                                  (0.8 - 0.5 * sin theta) 0) (mk 0.5 0.7 0))
    by (apply dist_gt; [lra | unfold sqDist; cbn [x y z]; nra]).
  rewrite Rltb_false by lra. reflexivity.
Qed.

End SampleHands.

(** Evaluates the comparisons of closed strings in the goal. *)
Ltac strings :=
  repeat match goal with
    | |- context [String.eqb ?a ?b] =>
        let v := eval vm_compute in (String.eqb a b) in
        change (String.eqb a b) with v
    | |- context [ConflictResolver.includes ?l ?n] =>
        let v := eval vm_compute in (ConflictResolver.includes l n) in
        change (ConflictResolver.includes l n) with v
    end.

(** ** GeometricAnalyzer and ConflictResolver: the guards *)

Section Guards.
Import Landmark GeometricAnalyzer ConflictResolver.

(** The decision table reads the landmarks 0 to 20 and nothing else. *)
Lemma classifyHand_ext (lm lm' : Hand) :
  (forall i, (i <= 20)%nat -> pt lm i = pt lm' i) ->
  classifyHand lm = classifyHand lm'.
Proof.
  intros H.
  unfold classifyHand, fingerStates, isExtended, handScale, thumbUp,
    thumbDown.
  rewrite !H by lia. reflexivity.
Qed.

Lemma pt_app (lm extra : Hand) i :
  (i < length lm)%nat -> pt (lm ++ extra) i = pt lm i.
Proof. intros H. unfold pt. apply app_nth1. exact H. Qed.

(** Landmarks after the 21st are ignored. *)
Lemma classify_app (lm extra : Hand) :
  length lm = 21%nat -> classify (Some (lm ++ extra)) = classify (Some lm).
Proof.
  intros Hlen. unfold classify. rewrite length_app, Hlen.
  cbn [Nat.ltb Nat.leb Nat.add]. apply classifyHand_ext.
  intros i Hi. apply pt_app. lia.
Qed.

(** Past the guards, [resolve] is the rule table on the top candidate. *)
Lemma resolve_guarded (top : Candidate.t) (rest : list Candidate.t)
    (lm : Hand) :
  (21 <= length lm)%nat ->
  resolve (Some (top :: rest)) (Some lm) = resolveTop top lm.
Proof.
  intros Hlen. unfold resolve.
  replace (length lm <? 21)%nat with false
    by (symmetry; apply Nat.ltb_ge; exact Hlen).
  reflexivity.
Qed.

Lemma classify_guarded (lm : Hand) :
  (21 <= length lm)%nat -> classify (Some lm) = classifyHand lm.
Proof.
  intros Hlen. unfold classify.
  replace (length lm <? 21)%nat with false
    by (symmetry; apply Nat.ltb_ge; exact Hlen).
  reflexivity.
Qed.

(** C4, as amended: for every hand that is absent or has fewer than 21
    landmarks, [GeometricAnalyzer.classify] returns none, and
    [ConflictResolver.resolve] returns none whatever the candidate list. *)
Theorem short_hand_is_rejected (lm : option Hand)
    (candidates : option (list Candidate.t)) :
  (lm = None \/ exists h, lm = Some h /\ (length h < 21)%nat) ->
  classify lm = None /\ resolve candidates lm = None.
Proof.
  intros [-> | (h & -> & Hlen)].
  - split; [reflexivity |].
    destruct candidates as [[| top rest] |]; reflexivity.
  - apply Nat.ltb_lt in Hlen. split.
    + unfold classify. rewrite Hlen. reflexivity.
    + unfold resolve. rewrite Hlen.
      destruct candidates as [[| top rest] |]; reflexivity.
Qed.

Lemma short_hand_is_rejected_witness :
  classify (Some (take 20 openPalm)) = None
  /\ resolve (Some [Candidate.mk "STOP" 8.0]) (Some (take 20 openPalm))
     = None.
Proof.
  apply (short_hand_is_rejected (Some (take 20 openPalm))
           (Some [Candidate.mk "STOP" 8.0])).
  right. exists (take 20 openPalm). split; [reflexivity |].
  cbn [openPalm take length]. lia.
Defined.

(** C4 fails for hands with more than 21 landmarks: the guard only
    rejects fewer.  The open palm with a 22nd landmark is classified, and
    resolved, like the open palm. *)
Lemma long_hand_is_accepted :
  length (openPalm ++ [flat 0.5 0.95]) = 22%nat
  /\ classify (Some (openPalm ++ [flat 0.5 0.95]))
     = Some (Opinion.mk "STOP" 0.85)
  /\ resolve (Some [Candidate.mk "STOP" 8.0])
       (Some (openPalm ++ [flat 0.5 0.95]))
     <> None.
Proof.
  assert (Hc : classify (Some (openPalm ++ [flat 0.5 0.95]))
               = Some (Opinion.mk "STOP" 0.85)).
  { rewrite classify_app by reflexivity. apply openPalm_classify. }
  split; [reflexivity |]. split; [exact Hc |].
  rewrite resolve_guarded by (rewrite length_app; cbn; lia).
  unfold resolveTop. rewrite Hc.
  cbn [Opinion.name Opinion.confidence Candidate.name].
  strings. unfold Rgtb. rewrite Rltb_true by lra. discriminate.
Qed.

End Guards.


(** ** GeometricAnalyzer: the decision table *)

Section DecisionTable.
Import Landmark GeometricAnalyzer.

(** Thumb and pinky alone: the first of the two blocks with that condition
    returns, whatever the pinky does. *)
Lemma classify_thumb_pinky (lm : Hand) :
  (21 <= length lm)%nat ->
  fingerStates lm = mkFingerStates true false false false true ->
  classify (Some lm) = Some (Opinion.mk "Y" 0.88).
Proof.
  intros Hlen Hfs. rewrite classify_guarded by exact Hlen.
  unfold classifyHand. rewrite Hfs. reflexivity.
Qed.

(** No hand is classified as CALL ME. *)
Lemma classify_never_call_me (lm : option Hand) (g : Opinion.t) :
  classify lm = Some g -> Opinion.name g <> "CALL ME".
Proof.
  destruct lm as [lm |]; [| discriminate]. unfold classify.
  destruct (length lm <? 21)%nat; [discriminate |].
  unfold classifyHand.
  destruct (fingerStates lm) as [[] [] [] [] []];
    cbn [thumb index middle ring pinky negb andb when returnIf orElse
         List.filter length Nat.eqb];
    repeat match goal with
      | |- context [if ?c then _ else _] => destruct c
      | |- context [returnIf ?c _] => destruct c; cbn [returnIf orElse]
      end;
    intros H; inversion H; subst; cbn; discriminate.
Qed.

(** C7 on the code: the shaka hand has thumb and pinky extended and the
    other fingers not, its pinky vector (landmark 17 to 20) is
    predominantly horizontal, and [classify] returns Y with confidence 0.88
    instead of CALL ME. *)
Theorem horizontal_pinky_is_classified_Y :
  length shaka = 21%nat
  /\ fingerStates shaka = mkFingerStates true false false false true
  /\ Rabs (x (pt shaka 20) - x (pt shaka 17))
     > Rabs (y (pt shaka 20) - y (pt shaka 17)) * 1.4
  /\ classify (Some shaka) = Some (Opinion.mk "Y" 0.88).
Proof.
  split; [reflexivity |]. split; [apply shaka_fingers |].
  split; [| apply shaka_classify].
  points shaka. unfold Rabs. repeat destruct (Rcase_abs _); lra.
Qed.

(** Thumb and index alone, wide angle: the L block returns. *)
Lemma classify_thumb_index_wide (lm : Hand) :
  (21 <= length lm)%nat ->
  fingerStates lm = mkFingerStates true true false false false ->
  58 < angleDeg (pt lm 4) (pt lm 2) (pt lm 5) ->
  classify (Some lm) = Some (Opinion.mk "L" 0.90).
Proof.
  intros Hlen Hfs Hangle. rewrite classify_guarded by exact Hlen.
  unfold classifyHand. rewrite Hfs.
  cbn [thumb index middle ring pinky negb andb when returnIf orElse].
  unfold Rgtb. rewrite Rltb_true by exact Hangle. reflexivity.
Qed.

(** Thumb and index alone, narrow angle: the L block falls through and the
    D block, which does not look at the thumb, returns. *)
Lemma classify_thumb_index_narrow (lm : Hand) :
  (21 <= length lm)%nat ->
  fingerStates lm = mkFingerStates true true false false false ->
  angleDeg (pt lm 4) (pt lm 2) (pt lm 5) <= 58 ->
  classify (Some lm)
  = Some (Opinion.mk "D"
            (if dist (pt lm 4) (pt lm 12) / handScale lm <? 0.6
             then 0.84 else 0.72)).
Proof.
  intros Hlen Hfs Hangle. rewrite classify_guarded by exact Hlen.
  unfold classifyHand. rewrite Hfs.
  cbn [thumb index middle ring pinky negb andb when returnIf orElse
       List.filter length Nat.eqb].
  unfold Rgtb. rewrite Rltb_false by exact Hangle. reflexivity.
Qed.

(** C5, as amended: for a 21-landmark hand with thumb and index extended
    and middle, ring, pinky not: if the angle at the thumb base (landmark
    2) between the thumb tip (4) and the index base (5) is 70 degrees,
    [classify] returns L with confidence 0.90; if that angle is 40 degrees,
    [classify] returns D, with confidence 0.84 when the thumb tip is closer
    than 0.6 hand scales to the middle tip and 0.72 otherwise. *)
Theorem thumb_index_by_angle (lm : Hand) :
  length lm = 21%nat ->
  fingerStates lm = mkFingerStates true true false false false ->
  (angleDeg (pt lm 4) (pt lm 2) (pt lm 5) = 70 ->
   classify (Some lm) = Some (Opinion.mk "L" 0.90))
  /\ (angleDeg (pt lm 4) (pt lm 2) (pt lm 5) = 40 ->
      classify (Some lm)
      = Some (Opinion.mk "D"
                (if dist (pt lm 4) (pt lm 12) / handScale lm <? 0.6
                 then 0.84 else 0.72))).
Proof.
  intros Hlen Hfs. split; intros Hangle.
  - apply classify_thumb_index_wide; [lia | exact Hfs | lra].
  - apply classify_thumb_index_narrow; [lia | exact Hfs | lra].
Qed.

Lemma thumb_index_by_angle_witness :
  classify (Some (pointing deg70)) = Some (Opinion.mk "L" 0.90)
  /\ classify (Some (pointing deg40))
     = Some (Opinion.mk "D"
               (if dist (pt (pointing deg40) 4) (pt (pointing deg40) 12)
                   / handScale (pointing deg40) <? 0.6
                then 0.84 else 0.72)).
Proof.
  split.
  - apply (thumb_index_by_angle (pointing deg70)).
    + reflexivity.
    + apply pointing_fingers.
    + rewrite pointing_angle; apply deg70_angle.
  - apply (thumb_index_by_angle (pointing deg40)).
    + reflexivity.
    + apply pointing_fingers.
    + rewrite pointing_angle; apply deg40_angle.
Defined.

(** C5 fails at 40 degrees: the pointing hand with its thumb at 40 degrees
    has 21 landmarks and thumb and index alone extended, and [classify]
    returns D with confidence 0.72, not none. *)
Lemma narrow_angle_is_not_deferred :
  length (pointing deg40) = 21%nat
  /\ fingerStates (pointing deg40) = mkFingerStates true true false false false
  /\ angleDeg (pt (pointing deg40) 4) (pt (pointing deg40) 2)
       (pt (pointing deg40) 5) = 40
  /\ classify (Some (pointing deg40)) = Some (Opinion.mk "D" 0.72)
  /\ classify (Some (pointing deg40)) <> None.
Proof.
  destruct deg40_angle as [Hrange Hdeg].
  assert (Hc : classify (Some (pointing deg40)) = Some (Opinion.mk "D" 0.72))
    by (apply pointing_classify_narrow; [exact Hrange | lra]).
  split; [reflexivity |]. split; [apply pointing_fingers |].
  split; [rewrite pointing_angle by exact Hrange; exact Hdeg |].
  split; [exact Hc |]. rewrite Hc. discriminate.
Qed.

End DecisionTable.


(** ** ConflictResolver *)

Section Resolver.
Import Landmark GeometricAnalyzer ConflictResolver.

(** C1: for every candidate list whose top candidate has some name X and
    every 21-landmark hand on which [classify] returns the same name X with
    confidence greater than 0.80, [resolve] returns
    [{name: X, score: min(10, top score * 1.12)}]; in particular with
    geometric confidence 0.85 and bank score 8.0 the returned score is
    8.96. *)
Theorem agreement_boosts_score (top : Candidate.t) (rest : list Candidate.t)
    (lm : Hand) (g : Opinion.t) :
  length lm = 21%nat ->
  classify (Some lm) = Some g ->
  Opinion.name g = Candidate.name top ->
  0.80 < Opinion.confidence g ->
  resolve (Some (top :: rest)) (Some lm)
  = Some (Candidate.mk (Candidate.name top)
            (Rmin 10 (Candidate.score top * 1.12)))
  /\ (Opinion.confidence g = 0.85 -> Candidate.score top = 8.0 ->
      resolve (Some (top :: rest)) (Some lm)
      = Some (Candidate.mk (Candidate.name top) 8.96)).
Proof.
  intros Hlen Hgeo Hname Hconf.
  assert (Hres : resolve (Some (top :: rest)) (Some lm)
                 = Some (Candidate.mk (Candidate.name top)
                           (Rmin 10 (Candidate.score top * 1.12)))).
  { rewrite resolve_guarded by lia. unfold resolveTop. rewrite Hgeo, Hname.
    rewrite String.eqb_refl. unfold Rgtb. rewrite Rltb_true by exact Hconf.
    reflexivity. }
  split; [exact Hres |]. intros _ Hscore. rewrite Hres, Hscore.
  rewrite Rmin_right by lra. do 2 f_equal. lra.
Qed.

Lemma agreement_boosts_score_witness :
  resolve (Some [Candidate.mk "STOP" 8.0]) (Some openPalm)
  = Some (Candidate.mk "STOP" 8.96).
Proof.
  apply (agreement_boosts_score (Candidate.mk "STOP" 8.0) [] openPalm
           (Opinion.mk "STOP" 0.85)).
  - reflexivity.
  - apply openPalm_classify.
  - reflexivity.
  - cbn [Opinion.confidence]. lra.
  - reflexivity.
  - reflexivity.
Defined.

(** The boosted score of the scenario is the double 8.96 in the arithmetic
    of the engine as well. *)
#[warnings="-inexact-float"]
Lemma boosted_score_in_binary64 :
  (8.0 * 1.12 =? 8.96)%float = true /\ (8.0 * 1.12 <? 10)%float = true.
Proof. vm_compute. split; reflexivity. Qed.

(** C10: for every candidate list and 21-landmark hand on which [classify]
    returns an opinion with confidence greater than 0.87 whose name differs
    from the top candidate's name, [resolve] returns the geometric name with
    score equal to the geometric confidence multiplied by 10; the bank
    candidate's own score has no influence on the returned score. *)
Theorem confident_geometry_overrides (top : Candidate.t)
    (rest : list Candidate.t) (lm : Hand) (g : Opinion.t) :
  length lm = 21%nat ->
  classify (Some lm) = Some g ->
  0.87 < Opinion.confidence g ->
  Opinion.name g <> Candidate.name top ->
  forall bankScore : R,
    resolve (Some (Candidate.mk (Candidate.name top) bankScore :: rest))
      (Some lm)
    = Some (Candidate.mk (Opinion.name g) (Opinion.confidence g * 10))
    /\ resolve (Some (top :: rest)) (Some lm)
       = Some (Candidate.mk (Opinion.name g) (Opinion.confidence g * 10)).
Proof.
  intros Hlen Hgeo Hconf Hname.
  assert (Hany : forall c : Candidate.t,
             Candidate.name c = Candidate.name top ->
             resolve (Some (c :: rest)) (Some lm)
             = Some (Candidate.mk (Opinion.name g)
                       (Opinion.confidence g * 10))).
  { intros c Hc. rewrite resolve_guarded by lia. unfold resolveTop.
    rewrite Hgeo, Hc.
    replace (Opinion.name g =? Candidate.name top)%string with false
      by (symmetry; apply String.eqb_neq; exact Hname).
    unfold Rgtb. rewrite (Rltb_true 0.87) by exact Hconf. reflexivity. }
  intros bankScore. split; apply Hany; reflexivity.
Qed.

Lemma confident_geometry_overrides_witness :
  resolve (Some [Candidate.mk "A" 3.0]) (Some shaka)
  = Some (Candidate.mk "Y" (0.88 * 10))
  /\ resolve (Some [Candidate.mk "A" 7.5]) (Some shaka)
     = Some (Candidate.mk "Y" (0.88 * 10)).
Proof.
  apply (confident_geometry_overrides (Candidate.mk "A" 7.5) [] shaka
           (Opinion.mk "Y" 0.88)).
  - reflexivity.
  - apply shaka_classify.
  - cbn [Opinion.confidence]. lra.
  - discriminate.
Defined.

(** C6: whenever the top bank candidate's name is one of C, O, EAT, HOT,
    DRINK and neither the agreement boost nor the geometric override fires,
    [resolve] returns a name in {O, EAT, HOT, C}, chosen in that order by
    the pinch tightness and the vertical lean, with the bank's score; DRINK
    is never produced. *)
Theorem cluster_never_gives_drink (top : Candidate.t)
    (rest : list Candidate.t) (lm : Hand) :
  length lm = 21%nat ->
  In (Candidate.name top) Spec.clusterNames ->
  (forall g, classify (Some lm) = Some g ->
     ~ (Opinion.name g = Candidate.name top /\ 0.80 < Opinion.confidence g)
     /\ ~ (0.87 < Opinion.confidence g
           /\ Opinion.name g <> Candidate.name top)) ->
  exists r,
    resolve (Some (top :: rest)) (Some lm) = Some r
    /\ In (Candidate.name r) Spec.clusterOutputs
    /\ Candidate.name r <> "DRINK"
    /\ Candidate.score r = Candidate.score top
    /\ Candidate.name r
       = (if dist (pt lm 8) (pt lm 4) / handScale lm <? 0.28 then "O"
          else if y (pt lm 12) - y (pt lm 9) <? -0.06 then "EAT"
          else if 0.08 <? y (pt lm 12) - y (pt lm 9) then "HOT"
          else "C").
Proof.
  intros Hlen Hin Hquiet.
  rewrite resolve_guarded by lia. unfold resolveTop.
  assert (Hboost :
    match classify (Some lm) with
    | Some g =>
        returnIf ((Opinion.name g =? Candidate.name top)%string
                  && (Opinion.confidence g >? 0.80))
          (Candidate.mk (Candidate.name top)
             (Rmin 10 (Candidate.score top * 1.12)))
    | None => None
    end = None).
  { destruct (classify (Some lm)) as [g |]; [| reflexivity].
    destruct (Hquiet g eq_refl) as [Hno _].
    destruct (String.eqb_spec (Opinion.name g) (Candidate.name top)) as [He | He];
      [| reflexivity].
    unfold Rgtb. destruct (Rlt_dec 0.80 (Opinion.confidence g)) as [Hc | Hc].
    - exfalso. apply Hno. split; assumption.
    - rewrite Rltb_false by lra. reflexivity. }
  assert (Hover :
    match classify (Some lm) with
    | Some g =>
        returnIf ((Opinion.confidence g >? 0.87)
                  && negb (Opinion.name g =? Candidate.name top)%string)
          (Candidate.mk (Opinion.name g) (Opinion.confidence g * 10))
    | None => None
    end = None).
  { destruct (classify (Some lm)) as [g |]; [| reflexivity].
    destruct (Hquiet g eq_refl) as [_ Hno].
    unfold Rgtb. destruct (Rlt_dec 0.87 (Opinion.confidence g)) as [Hc | Hc].
    - destruct (String.eqb_spec (Opinion.name g) (Candidate.name top)) as [He | He].
      + rewrite andb_false_r. reflexivity.
      + exfalso. apply Hno. split; assumption.
    - rewrite Rltb_false by lra. reflexivity. }
  rewrite Hboost, Hover. clear Hboost Hover Hquiet.
  destruct top as [topName topScore]. cbn [Candidate.name Candidate.score] in *.
  unfold Spec.clusterNames in Hin. cbn [In] in Hin.
  unfold Rgtb.
  destruct Hin as [<- | [<- | [<- | [<- | [<- | []]]]]]; strings;
    cbn [orb when orElse];
    destruct (dist (pt lm 8) (pt lm 4) / handScale lm <? 0.28);
    destruct (y (pt lm 12) - y (pt lm 9) <? -0.06);
    destruct (0.08 <? y (pt lm 12) - y (pt lm 9));
    cbn [returnIf orElse]; eexists; (split; [reflexivity |]);
    cbn [Candidate.name Candidate.score Spec.clusterOutputs In];
    (split; [tauto |]); (split; [discriminate |]); split; reflexivity.
Qed.

Lemma cluster_never_gives_drink_witness :
  exists r,
    resolve (Some [Candidate.mk "DRINK" 7.5]) (Some (pointing deg40)) = Some r
    /\ In (Candidate.name r) Spec.clusterOutputs
    /\ Candidate.name r <> "DRINK"
    /\ Candidate.score r = 7.5
    /\ Candidate.name r
       = (if dist (pt (pointing deg40) 8) (pt (pointing deg40) 4)
             / handScale (pointing deg40) <? 0.28 then "O"
          else if y (pt (pointing deg40) 12) - y (pt (pointing deg40) 9)
                  <? -0.06 then "EAT"
          else if 0.08 <? y (pt (pointing deg40) 12)
                          - y (pt (pointing deg40) 9) then "HOT"
          else "C").
Proof.
  apply (cluster_never_gives_drink (Candidate.mk "DRINK" 7.5) []
           (pointing deg40)).
  - reflexivity.
  - cbn. tauto.
  - intros g Hg. destruct deg40_angle as [Hrange Hdeg].
    rewrite pointing_classify_narrow in Hg; [| exact Hrange | lra].
    injection Hg as <-. cbn [Opinion.name Opinion.confidence Candidate.name].
    split; intros [H1 H2]; [discriminate H1 | lra].
Defined.

(** On the curled hand the bank's DRINK comes out as O. *)
Lemma curledHand_drink :
  resolve (Some [Candidate.mk "DRINK" 7.5]) (Some curledHand)
  = Some (Candidate.mk "O" 7.5).
Proof.
  rewrite resolve_guarded by (cbn; lia). unfold resolveTop.
  rewrite curledHand_classify, curledHand_scale.
  cbn [Candidate.name Candidate.score]. strings.
  cbn [orb when orElse]. points curledHand. dist_below 0.05.
  rewrite Rltb_true by lra. reflexivity.
Qed.

End Resolver.


(** ** OnlineLearner *)

Section Learner.
Import OnlineLearner.

(** The nested [Math.max] and [Math.min] of [adjust] are the clamp of the
    specification. *)
Lemma offset_is_clamp (s : Stat) :
  offset s = Spec.clamp (TARGET_SCORE - ema s) (- MAX_OFFSET) MAX_OFFSET.
Proof.
  unfold offset, Spec.clamp.
  assert (HM : MAX_OFFSET = 2.5) by reflexivity.
  destruct (Rlt_dec (TARGET_SCORE - ema s) (- MAX_OFFSET)) as [Hlow | Hlow].
  - rewrite (Rltb_true _ _ Hlow).
    rewrite Rmin_right by lra. rewrite Rmax_left by lra. reflexivity.
  - rewrite (Rltb_false (TARGET_SCORE - ema s)) by lra.
    destruct (Rlt_dec MAX_OFFSET (TARGET_SCORE - ema s)) as [Hhigh | Hhigh].
    + rewrite (Rltb_true _ _ Hhigh).
      rewrite Rmin_left by lra. rewrite Rmax_right by lra. reflexivity.
    + rewrite Rltb_false by lra.
      rewrite Rmin_right by lra. rewrite Rmax_right by lra. reflexivity.
Qed.

Lemma offset_bounds (s : Stat) : -2.5 <= offset s <= 2.5.
Proof.
  unfold offset. assert (HM : MAX_OFFSET = 2.5) by reflexivity.
  pose proof (Rmax_l (- MAX_OFFSET) (Rmin MAX_OFFSET (TARGET_SCORE - ema s))).
  pose proof (Rmin_l MAX_OFFSET (TARGET_SCORE - ema s)).
  split; [lra |]. apply Rmax_lub; lra.
Qed.

(** The three answers of [stats[name]]. *)
Lemma find_own (stats : gmap string Stat) (name : string) (s : Stat) :
  stats !! name = Some s -> find stats name = Own s.
Proof. intros H. unfold find. rewrite H. reflexivity. Qed.

Lemma find_absent (stats : gmap string Stat) (name : string) :
  stats !! name = None -> inherited name = false -> find stats name = Absent.
Proof. intros H Hn. unfold find. rewrite H, Hn. reflexivity. Qed.

Lemma find_member (stats : gmap string Stat) (name : string) :
  stats !! name = None -> inherited name = true -> find stats name = Member.
Proof. intros H Hn. unfold find. rewrite H, Hn. reflexivity. Qed.

(** What [adjust] does with every name that has statistics of its own or
    is not the name of an inherited member: the score comes back as it is
    for a sign never observed or observed fewer than 8 times, and with the
    clamped offset added from the eighth observation on. *)
Lemma adjust_is_guarded_and_bounded (stats : gmap string Stat)
    (name : string) (rawScore : R) :
  (stats !! name = None -> inherited name = false ->
   adjust stats name rawScore = Fin rawScore)
  /\ (forall s, stats !! name = Some s -> (count s < 8)%nat ->
        adjust stats name rawScore = Fin rawScore)
  /\ (forall s, stats !! name = Some s -> (8 <= count s)%nat ->
        adjust stats name rawScore
        = Fin (rawScore + Spec.clamp (8.5 - ema s) (-2.5) 2.5)
        /\ -2.5 <= Spec.clamp (8.5 - ema s) (-2.5) 2.5 <= 2.5).
Proof.
  unfold adjust. split; [| split].
  - intros Hs Hn. rewrite (find_absent _ _ Hs Hn). reflexivity.
  - intros s Hs Hcount. rewrite (find_own _ _ _ Hs). unfold MIN_CONFIRM.
    replace (count s <? 8)%nat with true
      by (symmetry; apply Nat.ltb_lt; exact Hcount).
    reflexivity.
  - intros s Hs Hcount. rewrite (find_own _ _ _ Hs). unfold MIN_CONFIRM.
    replace (count s <? 8)%nat with false
      by (symmetry; apply Nat.ltb_ge; exact Hcount).
    pose proof (offset_is_clamp s) as Hclamp.
    replace (- MAX_OFFSET) with (-2.5) in Hclamp by (unfold MAX_OFFSET; lra).
    change MAX_OFFSET with 2.5 in Hclamp.
    change TARGET_SCORE with 8.5 in Hclamp.
    rewrite <- Hclamp. split; [reflexivity | apply offset_bounds].
Qed.

(** C3: the claim fails for the names of the members every object
    inherits.  [stats] is a plain object, and for the name [constructor]
    [stats[name]] is the inherited function: the guard [!s] does not catch
    it, and [adjust('constructor', 7)] is NaN, not 7, on a learner that has
    observed nothing; it stays NaN after the sign was observed, and the
    observation leaves no statistics behind. *)
Theorem adjust_of_inherited_name_is_nan :
  adjust ∅ "constructor" 7 = NaN
  /\ adjust ∅ "constructor" 7 <> Fin 7
  /\ observe ∅ "constructor" 7 = ∅
  /\ adjust (observe ∅ "constructor" 7) "constructor" 7 = NaN
  /\ getCount (observe ∅ "constructor" 7) "constructor" = 0%nat.
Proof.
  assert (Hf : find ∅ "constructor" = Member)
    by (apply find_member; [apply lookup_empty | reflexivity]).
  assert (Ho : observe ∅ "constructor" 7 = ∅)
    by (unfold observe; rewrite Hf; reflexivity).
  rewrite Ho. unfold adjust, getCount. rewrite Hf.
  repeat split. discriminate.
Qed.

(** One observation, on a sign that has statistics, on one that has none,
    and on the name of an inherited member. *)
Lemma observe_lookup (stats : gmap string Stat) (name : string) (raw : R) :
  observe stats name raw !! name
  = match find stats name with
    | Own s => Some (mkStat (0.12 * raw + (1 - 0.12) * ema s) (count s + 1))
    | Absent => Some (mkStat (0.12 * raw + (1 - 0.12) * raw) 1)
    | Member => None
    end.
Proof.
  unfold observe, find. unfold EMA_ALPHA.
  destruct (stats !! name) as [s |] eqn:Hs.
  - rewrite lookup_insert_eq. reflexivity.
  - destruct (inherited name).
    + exact Hs.
    + rewrite lookup_insert_eq. reflexivity.
Qed.

Lemma observe_other (stats : gmap string Stat) (name other : string)
    (raw : R) :
  name <> other -> observe stats name raw !! other = stats !! other.
Proof.
  intros Hne. unfold observe.
  destruct (find stats name); [| reflexivity |];
    apply lookup_insert_ne; exact Hne.
Qed.





(** In that arithmetic a first observation of 8.5 gives the average 8.5,
    and an average of 8.5 stays there. *)
Lemma target_is_fixed_in_binary64 :
  (Binary64.emaFirst 8.5 =? 8.5)%float = true
  /\ (Binary64.emaUpdate 8.5 8.5 =? 8.5)%float = true.
Proof. vm_compute. split; reflexivity. Qed.

(** In that arithmetic an observation of 8.5 moves none of the thousand
    doubles next to 8.5 on either side, and none of the thousand next to
    7.0 and to 10, away from 8.5 or across it. *)
Lemma neighbours_never_move_away :
  Binary64.staysBelow 1000 8.5 = true
  /\ Binary64.staysAbove 1000 8.5 = true
  /\ Binary64.staysBelow 1000 7.0 = true
  /\ Binary64.staysAbove 1000 10 = true.
Proof. vm_compute. repeat split. Qed.

End Learner.


(** ** Plain objects *)

Section Objects.
Import Obj.

Lemma get_set_eq (obj : list (string * R)) (k : string) (v : R) :
  get (set obj k v) k = Some v.
Proof.
  induction obj as [| [k' v'] rest IH]; cbn [set get].
  - rewrite String.eqb_refl. reflexivity.
  - destruct (String.eqb_spec k' k) as [-> | Hne]; cbn [get].
    + rewrite String.eqb_refl. reflexivity.
    + destruct (String.eqb_spec k' k); [contradiction | exact IH].
Qed.

Lemma get_set_ne (obj : list (string * R)) (k k' : string) (v : R) :
  k <> k' -> get (set obj k v) k' = get obj k'.
Proof.
  intros Hne. induction obj as [| [a b] rest IH]; cbn [set get].
  - destruct (String.eqb_spec k k'); [contradiction | reflexivity].
  - destruct (String.eqb_spec a k) as [-> | Hak]; cbn [get].
    + destruct (String.eqb_spec k k'); [contradiction | reflexivity].
    + rewrite IH. reflexivity.
Qed.

Lemma getOr0_set (obj : list (string * R)) (k k' : string) (v : R) :
  getOr0 (set obj k v) k' = if String.eqb k k' then v else getOr0 obj k'.
Proof.
  unfold getOr0. destruct (String.eqb_spec k k') as [<- | Hne].
  - rewrite get_set_eq. reflexivity.
  - rewrite get_set_ne by exact Hne. reflexivity.
Qed.

Lemma distinctKeys_set (obj : list (string * R)) (k : string) (v : R) :
  distinctKeys obj -> distinctKeys (set obj k v).
Proof.
  induction obj as [| [a b] rest IH]; cbn [set distinctKeys].
  - intros _. split; [reflexivity | exact I].
  - intros [Hfresh Hrest].
    destruct (String.eqb_spec a k) as [-> | Hak]; cbn [distinctKeys].
    + split; assumption.
    + split; [| apply IH; exact Hrest].
      rewrite get_set_ne by (intros ->; contradiction). exact Hfresh.
Qed.

Lemma get_In (obj : list (string * R)) (k : string) (v : R) :
  get obj k = Some v -> In (k, v) obj.
Proof.
  induction obj as [| [a b] rest IH]; cbn [get]; [discriminate |].
  destruct (String.eqb_spec a k) as [-> | Hak].
  - intros [= ->]. left. reflexivity.
  - intros H. right. apply IH. exact H.
Qed.

Lemma In_get (obj : list (string * R)) (k : string) (v : R) :
  distinctKeys obj -> In (k, v) obj -> get obj k = Some v.
Proof.
  induction obj as [| [a b] rest IH]; cbn [distinctKeys get In]; [tauto |].
  intros [Hfresh Hrest] [[= -> ->] | Hin].
  - rewrite String.eqb_refl. reflexivity.
  - specialize (IH Hrest Hin).
    destruct (String.eqb_spec a k) as [-> | Hak]; [congruence | exact IH].
Qed.

Lemma In_insertByIndex (e a : string * R) (l : list (string * R)) :
  In e (insertByIndex a l) <-> e = a \/ In e l.
Proof.
  induction l as [| b rest IH]; cbn [insertByIndex In].
  - intuition congruence.
  - destruct (indexOf a <? indexOf b)%N; cbn [In]; [intuition congruence |].
    rewrite IH. intuition congruence.
Qed.

Lemma In_sorted (e : string * R) (l : list (string * R)) :
  In e (foldr insertByIndex [] l) <-> In e l.
Proof.
  induction l as [| a rest IH]; cbn [foldr In]; [tauto |].
  rewrite In_insertByIndex, IH. intuition congruence.
Qed.

(** [Object.entries] lists every property once: it is a rearrangement. *)
Lemma In_entries (e : string * R) (obj : list (string * R)) :
  In e (entries obj) <-> In e obj.
Proof.
  unfold entries. rewrite in_app_iff, In_sorted, !filter_In.
  destruct (isIndex e); cbn [negb]; intuition congruence.
Qed.

End Objects.


(** ** TemporalSmoother *)

Section Smoother.
Import TemporalSmoother.

(** Two names of which one only is an inherited member's differ. *)
Lemma inherited_differs (a b : string) :
  inherited a = true -> inherited b = false -> (a =? b)%string = false.
Proof.
  intros Ha Hb. destruct (String.eqb_spec a b) as [-> | _]; [| reflexivity].
  congruence.
Qed.

(** The two objects the [forEach] fills hold, for every name that is not
    an inherited member's, the weighted sums of the specification. *)
Lemma tally_sums (history : list Opinion.t) :
  forall (i : nat) (votes confAcc : list (string * R)) (name : string),
    inherited name = false ->
    Obj.getOr0 (tally history i (votes, confAcc)).1 name
    = Obj.getOr0 votes name + Spec.votesFrom i history name
    /\ Obj.getOr0 (tally history i (votes, confAcc)).2 name
       = Obj.getOr0 confAcc name + Spec.confFrom i history name.
Proof.
  induction history as [| h rest IH]; intros i votes confAcc name Hname;
    cbn [tally Spec.votesFrom Spec.confFrom].
  - cbn. split; lra.
  - unfold tallyEntry. destruct (inherited (Opinion.name h)) eqn:Hh.
    + destruct (IH (S i) votes confAcc name Hname) as [Hv Hc].
      rewrite Hv, Hc, (inherited_differs _ _ Hh Hname). split; lra.
    + destruct (IH (S i)
        (Obj.set votes (Opinion.name h)
           (Obj.getOr0 votes (Opinion.name h) + (INR i + 1)))
        (Obj.set confAcc (Opinion.name h)
           (Obj.getOr0 confAcc (Opinion.name h)
            + Opinion.confidence h * (INR i + 1)))
        name Hname) as [Hv Hc].
      rewrite Hv, Hc, !getOr0_set.
      destruct (String.eqb_spec (Opinion.name h) name) as [<- | Hne];
        split; lra.
Qed.

(** The name of an inherited member gets no property. *)
Lemma tally_inherited (history : list Opinion.t) :
  forall (i : nat) (votes confAcc : list (string * R)) (name : string),
    inherited name = true ->
    Obj.get (tally history i (votes, confAcc)).1 name = Obj.get votes name.
Proof.
  induction history as [| h rest IH]; intros i votes confAcc name Hname;
    cbn [tally]; [reflexivity |].
  unfold tallyEntry. destruct (inherited (Opinion.name h)) eqn:Hh.
  - apply IH. exact Hname.
  - rewrite IH by exact Hname. apply get_set_ne.
    intros He. rewrite He in Hh. congruence.
Qed.

Lemma tally_distinct (history : list Opinion.t) :
  forall (i : nat) (votes confAcc : list (string * R)),
    Obj.distinctKeys votes ->
    Obj.distinctKeys (tally history i (votes, confAcc)).1.
Proof.
  induction history as [| h rest IH]; intros i votes confAcc Hd;
    cbn [tally]; [exact Hd |].
  unfold tallyEntry. destruct (inherited (Opinion.name h)).
  - apply IH. exact Hd.
  - apply IH. apply distinctKeys_set. exact Hd.
Qed.

(** A share of at least 0.48 of a positive total is positive. *)
Lemma share_positive (T v : R) : 0 < T -> 0.48 <= v / T -> 0 < v.
Proof.
  intros HT Hshare. replace v with (v / T * T) by (field; lra). nra.
Qed.

(** The loop over the entries keeps the first entry of largest vote sum
    among those whose share is at least 0.48, if there is one. *)
Lemma pick_fold (T : R) (l : list (string * R)) :
  0 < T ->
  match fold_left (pick T) l (None, 0) with
  | (None, v) => v = 0 /\ forall n x, In (n, x) l -> ~ 0.48 <= x / T
  | (Some n, v) =>
      In (n, v) l /\ 0.48 <= v / T
      /\ forall n' x, In (n', x) l -> 0.48 <= x / T -> x <= v
  end.
Proof.
  intros HT. induction l as [| [k x] l IH] using rev_ind.
  - cbn. split; [reflexivity | tauto].
  - rewrite fold_left_app. cbn [fold_left].
    destruct (fold_left (pick T) l (None, 0)) as [[n |] v];
      unfold pick, Rgeb, Rgtb, MIN_PCT; cbn [fst snd].
    + destruct IH as (Hin & Hshare & Hmax).
      destruct (Rle_dec 0.48 (x / T)) as [Hx | Hx];
        [rewrite (Rleb_true _ _ Hx) | rewrite Rleb_false by lra];
        (destruct (Rlt_dec v x) as [Hv | Hv];
         [rewrite (Rltb_true _ _ Hv) | rewrite Rltb_false by lra]);
        cbn [andb].
      * split; [apply in_or_app; right; left; reflexivity |].
        split; [exact Hx |]. intros n' x' [Hl | [[= <- <-] | []]]%in_app_or He.
        -- specialize (Hmax n' x' Hl He). lra.
        -- lra.
      * split; [apply in_or_app; left; exact Hin |].
        split; [exact Hshare |].
        intros n' x' [Hl | [[= <- <-] | []]]%in_app_or He.
        -- exact (Hmax n' x' Hl He).
        -- lra.
      * split; [apply in_or_app; left; exact Hin |].
        split; [exact Hshare |].
        intros n' x' [Hl | [[= <- <-] | []]]%in_app_or He.
        -- exact (Hmax n' x' Hl He).
        -- lra.
      * split; [apply in_or_app; left; exact Hin |].
        split; [exact Hshare |].
        intros n' x' [Hl | [[= <- <-] | []]]%in_app_or He.
        -- exact (Hmax n' x' Hl He).
        -- lra.
    + destruct IH as (-> & Hnone).
      destruct (Rle_dec 0.48 (x / T)) as [Hx | Hx].
      * pose proof (share_positive T x HT Hx) as Hpos.
        rewrite (Rleb_true _ _ Hx), (Rltb_true _ _ Hpos). cbn [andb].
        split; [apply in_or_app; right; left; reflexivity |].
        split; [exact Hx |].
        intros n' x' [Hl | [[= <- <-] | []]]%in_app_or He.
        -- exfalso. exact (Hnone n' x' Hl He).
        -- lra.
      * rewrite Rleb_false by lra. cbn [andb]. split; [reflexivity |].
        intros n' x' [Hl | [[= <- <-] | []]]%in_app_or.
        -- exact (Hnone n' x' Hl).
        -- exact Hx.
Qed.

Lemma totalWeight_pos (history : list Opinion.t) :
  (2 <= length history)%nat -> 0 < Spec.totalWeight history.
Proof.
  intros Hlen. unfold Spec.totalWeight.
  assert (2 <= INR (length history)) by (apply (le_INR 2); exact Hlen).
  nra.
Qed.

(** What the tally of a whole window holds. *)
Lemma tally_window (history : list Opinion.t) (name : string) :
  inherited name = false ->
  Obj.getOr0 (tally history 0 ([], [])).1 name = Spec.votes history name
  /\ Obj.getOr0 (tally history 0 ([], [])).2 name
     = Spec.confSum history name
  /\ Obj.distinctKeys (tally history 0 ([], [])).1.
Proof.
  intros Hname. destruct (tally_sums history 0 [] [] name Hname) as [Hv Hc].
  split; [| split].
  - rewrite Hv. unfold Spec.votes. cbn. lra.
  - rewrite Hc. unfold Spec.confSum. cbn. lra.
  - apply tally_distinct. exact I.
Qed.

(** Every entry of [votes] carries the vote sum of its name, which is not
    an inherited member's. *)
Lemma entries_votes (history : list Opinion.t) (name : string) (v : R) :
  In (name, v) (Obj.entries (tally history 0 ([], [])).1) ->
  inherited name = false /\ v = Spec.votes history name.
Proof.
  intros Hin. apply (proj1 (In_entries _ _)) in Hin.
  apply (In_get _ _ _ (tally_distinct history 0 [] [] I)) in Hin.
  destruct (inherited name) eqn:Hname.
  - rewrite tally_inherited in Hin by exact Hname. discriminate.
  - split; [reflexivity |].
    destruct (tally_window history name Hname) as (Hv & _ & _).
    unfold Obj.getOr0 in Hv. rewrite Hin in Hv. exact Hv.
Qed.

(** A name with a non-zero vote sum has an entry in [votes], unless it is
    an inherited member's. *)
Lemma votes_entries (history : list Opinion.t) (name : string) :
  inherited name = false ->
  Spec.votes history name <> 0 ->
  In (name, Spec.votes history name)
    (Obj.entries (tally history 0 ([], [])).1).
Proof.
  intros Hname Hne. apply In_entries.
  destruct (tally_window history name Hname) as (Hv & _ & _).
  unfold Obj.getOr0 in Hv.
  destruct (Obj.get (tally history 0 ([], [])).1 name) as [v |] eqn:Hget.
  - apply get_In. rewrite Hget, Hv. reflexivity.
  - congruence.
Qed.

(** [best] in terms of the loop over the entries. *)
Lemma best_unfold (history : list Opinion.t) :
  (2 <= length history)%nat ->
  best history
  = match fold_left (pick (Spec.totalWeight history))
            (Obj.entries (tally history 0 ([], [])).1) (None, 0) with
    | (Some top, _) =>
        if String.eqb top "" then None
        else Some (Opinion.mk top
                     (Rmin 1 (Spec.confSum history top
                              / Spec.votes history top)))
    | (None, _) => None
    end.
Proof.
  intros Hlen. unfold best.
  replace (length history <? 2)%nat with false
    by (symmetry; apply Nat.ltb_ge; exact Hlen).
  pose proof (tally_window history) as Hw.
  pose proof (entries_votes history) as He.
  pose proof (pick_fold (Spec.totalWeight history)
                (Obj.entries (tally history 0 ([], [])).1)
                (totalWeight_pos history Hlen)) as Hfold.
  destruct (tally history 0 ([], [])) as [votes confAcc]. cbn [fst snd] in *.
  fold (Spec.totalWeight history).
  destruct (fold_left (pick (Spec.totalWeight history)) (Obj.entries votes)
              (None, 0)) as [[top |] topVote]; [| reflexivity].
  cbn [falsy]. destruct (String.eqb top ""); [reflexivity |].
  destruct Hfold as (Hin & _). destruct (He top topVote Hin) as [Htop _].
  destruct (Hw top Htop) as (-> & -> & _). reflexivity.
Qed.

(** What a result of [best] says about the window. *)
Lemma best_Some (history : list Opinion.t) (r : Opinion.t) :
  best history = Some r ->
  (2 <= length history)%nat
  /\ Opinion.name r <> ""
  /\ inherited (Opinion.name r) = false
  /\ Spec.eligible history (Opinion.name r)
  /\ (forall other, inherited other = false ->
        Spec.eligible history other ->
        Spec.votes history other <= Spec.votes history (Opinion.name r))
  /\ Opinion.confidence r
     = Rmin 1 (Spec.confSum history (Opinion.name r)
               / Spec.votes history (Opinion.name r)).
Proof.
  intros Hbest.
  assert (Hlen : (2 <= length history)%nat).
  { unfold best in Hbest.
    destruct (Nat.ltb_spec (length history) 2); [discriminate | assumption]. }
  split; [exact Hlen |].
  rewrite best_unfold in Hbest by exact Hlen.
  pose proof (pick_fold (Spec.totalWeight history)
                (Obj.entries (tally history 0 ([], [])).1)
                (totalWeight_pos history Hlen)) as Hfold.
  destruct (fold_left _ _ _) as [[top |] topVote]; [| discriminate].
  destruct Hfold as (Hin & Hshare & Hmax).
  destruct (String.eqb_spec top "") as [| Hname]; [discriminate |].
  injection Hbest as <-. cbn [Opinion.name Opinion.confidence].
  destruct (entries_votes history top topVote Hin) as [Htop ->].
  split; [exact Hname |]. split; [exact Htop |].
  split; [exact Hshare |]. split; [| reflexivity].
  intros other Hown Hother. apply (Hmax other); [| exact Hother].
  apply votes_entries; [exact Hown |]. intros Hzero.
  unfold Spec.eligible in Hother.
  pose proof (share_positive _ _ (totalWeight_pos history Hlen) Hother). lra.
Qed.

(** A name that no entry of the window carries has no votes. *)
Lemma votesFrom_absent (history : list Opinion.t) (name : string) :
  forall i : nat,
    (forall h, In h history -> Opinion.name h <> name) ->
    Spec.votesFrom i history name = 0.
Proof.
  induction history as [| h rest IH]; intros i Habsent;
    cbn [Spec.votesFrom]; [reflexivity |].
  rewrite IH by (intros h' Hin; apply Habsent; right; exact Hin).
  destruct (String.eqb_spec (Opinion.name h) name) as [He | He]; [| lra].
  exfalso. apply (Habsent h); [left; reflexivity | exact He].
Qed.

(** When every entry carries the same name, that name has all the votes. *)
Lemma votesFrom_uniform (history : list Opinion.t) (name : string) :
  forall i : nat,
    (forall h, In h history -> Opinion.name h = name) ->
    Spec.votesFrom i history name
    = INR (length history) * INR i + Spec.totalWeight history.
Proof.
  unfold Spec.totalWeight.
  induction history as [| h rest IH]; intros i Hall;
    cbn [Spec.votesFrom length].
  - cbn. lra.
  - rewrite IH by (intros h' Hin; apply Hall; right; exact Hin).
    rewrite (Hall h) by (left; reflexivity). rewrite String.eqb_refl.
    rewrite !S_INR. lra.
Qed.

(** [best] on a window in which every entry carries the same name: none
    for the empty name and for the name of an inherited member. *)
Lemma best_uniform (history : list Opinion.t) (name : string) :
  (2 <= length history)%nat ->
  (forall h, In h history -> Opinion.name h = name) ->
  best history
  = if String.eqb name "" || inherited name then None
    else Some (Opinion.mk name
                 (Rmin 1 (Spec.confSum history name
                          / Spec.votes history name))).
Proof.
  intros Hlen Hall. rewrite best_unfold by exact Hlen.
  pose proof (totalWeight_pos history Hlen) as HT.
  assert (Hvotes : Spec.votes history name = Spec.totalWeight history).
  { unfold Spec.votes. rewrite votesFrom_uniform by exact Hall. cbn. lra. }
  pose proof (pick_fold (Spec.totalWeight history)
                (Obj.entries (tally history 0 ([], [])).1) HT) as Hfold.
  destruct (fold_left _ _ _) as [[top |] topVote].
  - destruct Hfold as (Hin & Hshare & _).
    destruct (entries_votes history top topVote Hin) as [Htop ->].
    pose proof (share_positive _ _ HT Hshare) as Hpos.
    destruct (String.eqb_spec top name) as [-> | Hne].
    { rewrite Htop, orb_false_r. reflexivity. }
    exfalso. unfold Spec.votes in Hpos.
    rewrite votesFrom_absent in Hpos; [lra |].
    intros h Hin' He. apply Hne. rewrite <- He. apply Hall, Hin'.
  - destruct Hfold as [_ Hnone].
    destruct (inherited name) eqn:Hname; [rewrite orb_true_r; reflexivity |].
    exfalso. apply (Hnone name (Spec.votes history name)).
    + apply votes_entries; [exact Hname | lra].
    + rewrite Hvotes. replace (_ / _) with 1 by (field; lra). lra.
Qed.

(** A push keeps the newest entries ... *)
Lemma push_drop (history : list Opinion.t) (name : string) (c : R) :
  (length history <= WINDOW)%nat ->
  push history name c
  = drop (length history + 1 - WINDOW) (history ++ [Opinion.mk name c]).
Proof.
  intros Hlen. unfold push, WINDOW in *. rewrite length_app. cbn [length].
  destruct (Nat.ltb_spec 9 (length history + 1)) as [H | H].
  - replace (length history + 1 - 9)%nat with 1%nat by lia.
    destruct (history ++ [Opinion.mk name c]); reflexivity.
  - replace (length history + 1 - 9)%nat with 0%nat by lia. reflexivity.
Qed.

(** ... and the window never grows beyond its capacity. *)
Lemma push_length (history : list Opinion.t) (name : string) (c : R) :
  (length history <= WINDOW)%nat ->
  (length (push history name c) <= WINDOW)%nat.
Proof.
  intros Hlen. rewrite push_drop by exact Hlen.
  rewrite length_drop, length_app. cbn [length]. unfold WINDOW in *. lia.
Qed.

Lemma pushEach_drop (confidences : list R) (name : string) :
  forall history : list Opinion.t,
    (length history <= WINDOW)%nat ->
    pushEach history name confidences
    = drop (length history + length confidences - WINDOW)
        (history ++ map (Opinion.mk name) confidences).
Proof.
  induction confidences as [| c rest IH]; intros history Hlen.
  - cbn [pushEach fold_left map length]. rewrite app_nil_r.
    replace (length history + 0 - WINDOW)%nat with 0%nat by lia. reflexivity.
  - change (pushEach history name (c :: rest))
      with (pushEach (push history name c) name rest).
    rewrite IH by (apply push_length; exact Hlen).
    rewrite (push_drop history name c Hlen) at 2.
    assert (Hpush : length (push history name c)
                    = (length history + 1 - (length history + 1 - WINDOW))%nat).
    { rewrite (push_drop history name c Hlen), length_drop, length_app.
      cbn [length]. lia. }
    rewrite Hpush. set (d := (length history + 1 - WINDOW)%nat).
    rewrite <- drop_app_le by (rewrite length_app; cbn [length]; lia).
    rewrite drop_drop, <- app_assoc. cbn [length map app].
    f_equal. unfold WINDOW in *. lia.
Qed.

(** Nine pushes of one name fill the window with that name. *)
Lemma pushEach_nine (history : list Opinion.t) (name : string)
    (confidences : list R) :
  (length history <= WINDOW)%nat -> length confidences = 9%nat ->
  pushEach history name confidences = map (Opinion.mk name) confidences.
Proof.
  intros Hlen Hnine. rewrite pushEach_drop by exact Hlen. rewrite Hnine.
  replace (length history + 9 - WINDOW)%nat with (length history)
    by (unfold WINDOW; lia).
  apply drop_app_length.
Qed.

Lemma best_nine (history : list Opinion.t) (name : string)
    (confidences : list R) :
  (length history <= WINDOW)%nat -> length confidences = 9%nat ->
  best (pushEach history name confidences)
  = if String.eqb name "" || inherited name then None
    else Some (Opinion.mk name
                 (Rmin 1 (Spec.confSum (map (Opinion.mk name) confidences) name
                          / Spec.votes (map (Opinion.mk name) confidences)
                              name))).
Proof.
  intros Hlen Hnine. rewrite pushEach_nine by assumption.
  apply best_uniform.
  - rewrite length_map, Hnine. lia.
  - intros h [c [<- _]]%in_map_iff. reflexivity.
Qed.

(** Every window that pushes build from the empty one is within capacity. *)
Lemma pushAll_length (entries : list Opinion.t) :
  forall history : list Opinion.t,
    (length history <= WINDOW)%nat ->
    (length (pushAll history entries) <= WINDOW)%nat.
Proof.
  induction entries as [| e rest IH]; intros history Hlen; [exact Hlen |].
  apply IH, push_length, Hlen.
Qed.

(** What [best()] does with every name that is neither empty nor an
    inherited member's: it returns none when the window holds fewer than 2
    entries; otherwise, with entries weighted linearly by recency (oldest
    weight 1, newest weight n) and total weight n (n + 1) / 2, it returns a
    name only if that name's weighted vote sum divided by the total weight
    is at least 0.48, picking the eligible name with the largest vote sum,
    and the returned confidence is the vote-weighted average confidence of
    the winner capped at 1.0; after 9 pushes of one such name, whatever was
    pushed before, [best().name] is that name and
    [best().confidence <= 1.0]. *)
Lemma best_is_weighted_majority (history : list Opinion.t) :
  ((length history < 2)%nat -> best history = None)
  /\ (forall r, best history = Some r ->
        Opinion.name r <> "" /\ inherited (Opinion.name r) = false
        /\ Spec.eligible history (Opinion.name r)
        /\ (forall other, inherited other = false ->
              Spec.eligible history other ->
              Spec.votes history other
              <= Spec.votes history (Opinion.name r))
        /\ Opinion.confidence r
           = Rmin 1 (Spec.confSum history (Opinion.name r)
                     / Spec.votes history (Opinion.name r))
        /\ Opinion.confidence r <= 1)
  /\ (forall (earlier : list Opinion.t) (name : string)
             (confidences : list R),
        length confidences = 9%nat ->
        name <> "" -> inherited name = false ->
        exists r,
          best (pushEach (pushAll [] earlier) name confidences) = Some r
          /\ Opinion.name r = name
          /\ Opinion.confidence r <= 1).
Proof.
  split; [| split].
  - intros Hlen. unfold best.
    replace (length history <? 2)%nat with true
      by (symmetry; apply Nat.ltb_lt; exact Hlen).
    reflexivity.
  - intros r Hbest.
    destruct (best_Some history r Hbest)
      as (_ & Hne & Hown & He & Hmax & Hconf).
    split; [exact Hne |]. split; [exact Hown |].
    split; [exact He |]. split; [exact Hmax |]. split; [exact Hconf |].
    rewrite Hconf. apply Rmin_l.
  - intros earlier name confidences Hnine Hname Hown.
    rewrite best_nine;
      [| apply pushAll_length; cbn [length]; unfold WINDOW; lia | exact Hnine].
    destruct (String.eqb_spec name "") as [| _]; [contradiction |].
    rewrite Hown. cbn [orb].
    eexists. split; [reflexivity |]. cbn [Opinion.name Opinion.confidence].
    split; [reflexivity | apply Rmin_l].
Qed.

(** Nine entries named Z, each of confidence 0.9, give Z with 0.9. *)
Lemma best_nine_Z :
  best (pushEach [] "Z" (replicate 9 0.9)) = Some (Opinion.mk "Z" 0.9).
Proof.
  rewrite best_nine by (cbn; unfold WINDOW; lia).
  change (inherited "Z") with false. strings. cbn [orb]. do 2 f_equal.
  assert (Hv : Spec.votes (map (Opinion.mk "Z") (replicate 9 0.9)) "Z" = 45).
  { unfold Spec.votes.
    cbn [replicate map Spec.votesFrom Opinion.name]. strings.
    cbn [INR]. lra. }
  assert (Hc : Spec.confSum (map (Opinion.mk "Z") (replicate 9 0.9)) "Z"
               = 40.5).
  { unfold Spec.confSum.
    cbn [replicate map Spec.confFrom Opinion.name Opinion.confidence].
    strings. cbn [INR]. lra. }
  rewrite Hv, Hc. rewrite Rmin_right by lra. lra.
Qed.

(** C2: the claim fails where it says that after 9 pushes of one name
    [best().name] is that name.  After nine pushes of the empty string onto
    the empty window [topName] is the empty string, which the null check
    [!topName] takes for no name, and [best()] returns none although the
    name holds every vote; nine pushes of Z, for comparison, give Z.  The
    same happens for [constructor]: [votes[h.name] || 0] finds the
    inherited function, and the name never gets a number of votes. *)
Theorem best_of_empty_name_is_none :
  length (replicate 9 0.9) = 9%nat
  /\ best (pushEach [] "" (replicate 9 0.9)) = None
  /\ Spec.eligible (pushEach [] "" (replicate 9 0.9)) ""
  /\ best (pushEach [] "Z" (replicate 9 0.9)) = Some (Opinion.mk "Z" 0.9)
  /\ best (pushEach [] "constructor" (replicate 9 0.9)) = None.
Proof.
  split; [reflexivity |]. split; [| split; [| split]].
  - rewrite best_nine by (cbn; unfold WINDOW; lia). reflexivity.
  - rewrite pushEach_nine by (cbn; unfold WINDOW; lia).
    unfold Spec.eligible, Spec.votes, Spec.totalWeight.
    cbn [replicate map Spec.votesFrom Opinion.name length]. strings.
    cbn [INR]. lra.
  - exact best_nine_Z.
  - rewrite best_nine by (cbn; unfold WINDOW; lia). reflexivity.
Qed.

End Smoother.


(** ** GestureEngine *)

Section Engine.
Import GestureEngine.

(** A frame that shows the curled hand while the bank says Z with score 9:
    no rule of the resolver applies to Z, and geometry has no opinion. *)
Lemma curledHand_resolve_Z :
  ConflictResolver.resolve (Some [Candidate.mk "Z" 9.0]) (Some curledHand)
  = Some (Candidate.mk "Z" 9.0).
Proof.
  rewrite resolve_guarded by (cbn; lia). unfold ConflictResolver.resolveTop.
  rewrite curledHand_classify. cbn [Candidate.name Candidate.score].
  strings. reflexivity.
Qed.

(** Such a frame pushes Z with confidence 0.9 and changes nothing else, as
    long as the learner has no offset for Z. *)
Lemma detect_Z (st : State) :
  ready st = true ->
  OnlineLearner.adjust (stats st) "Z" 9.0 = Fin 9.0 ->
  step st (Detect (Some curledHand) (Some [Candidate.mk "Z" 9.0]))
  = mkState true (TemporalSmoother.push (history st) "Z" 0.9) (stats st).
Proof.
  intros Hready Hadjust. unfold step, detect. rewrite Hready.
  cbn [negb orb length curledHand Nat.ltb Nat.leb]. fold curledHand.
  cbn [sortByScore fold_left insertByScore take].
  rewrite curledHand_resolve_Z. cbn [Candidate.name Candidate.score].
  rewrite Hadjust. cbv beta iota.
  replace (Rmin 1.0 (Rmax 0 (9.0 / 10))) with 0.9
    by (rewrite Rmax_right by lra; rewrite Rmin_right by lra; lra).
  destruct (TemporalSmoother.best _); reflexivity.
Qed.

Lemma run_cons (st : State) (c : Call) (calls : list Call) :
  run st (c :: calls) = run (step st c) calls.
Proof. reflexivity. Qed.

Lemma detect_Z_repeated (k : nat) :
  forall st : State,
    ready st = true ->
    OnlineLearner.adjust (stats st) "Z" 9.0 = Fin 9.0 ->
    run st (replicate k
              (Detect (Some curledHand) (Some [Candidate.mk "Z" 9.0])))
    = mkState true
        (TemporalSmoother.pushEach (history st) "Z" (replicate k 0.9))
        (stats st).
Proof.
  induction k as [| k IH]; intros st Hready Hadjust.
  - destruct st as [r h s]. cbn in *. subst r. reflexivity.
  - cbn [replicate]. rewrite run_cons.
    rewrite detect_Z by assumption.
    rewrite IH; [reflexivity | reflexivity | exact Hadjust].
Qed.

(** Only [confirmSign] and [resetSession] touch the statistics. *)
Lemma detect_keeps_stats (st : State) (landmarks : option Hand)
    (gestures : option (list Candidate.t)) :
  stats (detect st landmarks gestures).1 = stats st.
Proof.
  unfold detect. destruct landmarks as [lm |]; [| reflexivity].
  destruct (negb (ready st) || (length lm <? 21)%nat); [reflexivity |].
  destruct (ConflictResolver.resolve _ _) as [r |].
  - cbn zeta. destruct (TemporalSmoother.best _); reflexivity.
  - destruct (GeometricAnalyzer.classify _) as [geo |]; [| reflexivity].
    cbn zeta. destruct (TemporalSmoother.best _); reflexivity.
Qed.

(** Whatever the calls, the window holds at most [WINDOW] entries. *)
Lemma window_is_bounded (calls : list Call) :
  forall st : State,
    (length (history st) <= TemporalSmoother.WINDOW)%nat ->
    (length (history (run st calls)) <= TemporalSmoother.WINDOW)%nat.
Proof.
  induction calls as [| c calls IH]; intros st Hlen; [exact Hlen |].
  rewrite run_cons. apply IH.
  destruct c as [built | landmarks gestures | name raw | |];
    cbn [step init confirmSign reset resetSession history
         TemporalSmoother.reset length];
    try exact Hlen; try (unfold TemporalSmoother.WINDOW; lia).
  unfold detect. destruct landmarks as [lm |]; [| exact Hlen].
  destruct (negb (ready st) || (length lm <? 21)%nat); [exact Hlen |].
  assert (Hpush : forall final : Candidate.t,
    (length (history
       (let adjustedScore :=
          OnlineLearner.adjust (stats st) (Candidate.name final)
            (Candidate.score final) in
        let rawConf :=
          match adjustedScore with
          | Fin a => Rmin 1.0 (Rmax 0 (a / 10))
          | NaN => 0%R
          end in
        let history' :=
          TemporalSmoother.push (history st) (Candidate.name final) rawConf in
        let st' := mkState (ready st) history' (stats st) in
        match TemporalSmoother.best history' with
        | None => (st', None)
        | Some smoothed =>
            (st', Some (Opinion.mk (Opinion.name smoothed)
                          (round (Opinion.confidence smoothed * 100))))
        end).1) <= TemporalSmoother.WINDOW)%nat).
  { intros final. cbn zeta.
    destruct (TemporalSmoother.best _); cbn [fst history];
      apply push_length; exact Hlen. }
  destruct (ConflictResolver.resolve _ _) as [r |]; [apply Hpush |].
  destruct (GeometricAnalyzer.classify _) as [geo |]; [apply Hpush |].
  cbn. unfold TemporalSmoother.WINDOW. lia.
Qed.

(** C9: [reset()] empties the window of the smoother and leaves the
    statistics of the learner unchanged, whatever calls came before; in
    particular after 9 consecutive detections of Z, each of confidence 0.9,
    [best()] gives Z, and after [reset()] it gives none, while the
    statistics of Z are the ones confirmed before. *)
Theorem reset_clears_window_only (st : State) (calls : list Call) :
  (history (reset (run st calls)) = []
   /\ TemporalSmoother.best (history (reset (run st calls))) = None
   /\ stats (reset (run st calls)) = stats (run st calls)
   /\ forall name : string,
        stats (reset (run st calls)) !! name = stats (run st calls) !! name)
  /\ (let nineZ :=
        run start
          (Init true :: ConfirmSign "Z" 9.0
           :: replicate 9
                (Detect (Some curledHand) (Some [Candidate.mk "Z" 9.0]))) in
      TemporalSmoother.best (history nineZ) = Some (Opinion.mk "Z" 0.9)
      /\ TemporalSmoother.best (history (reset nineZ)) = None
      /\ stats nineZ !! "Z" = Some (OnlineLearner.mkStat 9.0 1)
      /\ stats (reset nineZ) !! "Z" = Some (OnlineLearner.mkStat 9.0 1)).
Proof.
  split.
  - repeat split; reflexivity.
  - cbv zeta. rewrite !run_cons. cbn [step].
    assert (Hstat : stats (confirmSign (init start true) "Z" 9.0) !! "Z"
                    = Some (OnlineLearner.mkStat 9.0 1)).
    { cbn [confirmSign stats init start].
      rewrite observe_lookup, (find_absent ∅ "Z" (lookup_empty _) eq_refl).
      f_equal. f_equal. lra. }
    rewrite detect_Z_repeated.
    + cbn [history stats reset TemporalSmoother.reset confirmSign init start].
      split; [apply best_nine_Z |]. split; [reflexivity |].
      cbn [confirmSign stats init start] in Hstat. split; exact Hstat.
    + reflexivity.
    + unfold OnlineLearner.adjust. rewrite (find_own _ _ _ Hstat).
      reflexivity.
Qed.

End Engine.


(** * Further properties of the code *)

(** ** GeometricAnalyzer: measurements *)

Section Measurements.
Import Landmark GeometricAnalyzer.

(** X2: the angle at a vertex lies between 0 and 180 degrees, does not
    depend on the order of the two rays, and is 0 when a ray has no length
    (its end point is the vertex). *)
Theorem angle_is_bounded_and_symmetric (a b c : Landmark.t) :
  0 <= angleDeg a b c <= 180
  /\ angleDeg a b c = angleDeg c b a
  /\ angleDeg b b c = 0
  /\ angleDeg a b b = 0.
Proof.
  split; [| split; [| split]].
  - unfold angleDeg. cbv zeta.
    destruct (_ <? 1e-8); [lra |].
    pose proof PI_RGT_0 as Hpi.
    match goal with
    | |- 0 <= acos ?v * _ <= _ => pose proof (acos_bound v) as Hacos
    end.
    assert (Hk : 0 < 180 / PI) by (apply Rdiv_lt_0_compat; lra).
    split.
    + apply Rmult_le_pos; lra.
    + replace 180 with (PI * (180 / PI)) at 2 by (field; lra).
      apply Rmult_le_compat_r; lra.
  - unfold angleDeg. cbv zeta.
    rewrite (Rmult_comm (sqrt ((x a - x b) ^ 2 + (y a - y b) ^ 2
                               + (z a - z b) ^ 2))).
    replace ((x a - x b) * (x c - x b) + (y a - y b) * (y c - y b)
             + (z a - z b) * (z c - z b))
      with ((x c - x b) * (x a - x b) + (y c - y b) * (y a - y b)
            + (z c - z b) * (z a - z b)) by ring.
    reflexivity.
  - unfold angleDeg. cbv zeta.
    replace ((x b - x b) ^ 2 + (y b - y b) ^ 2 + (z b - z b) ^ 2) with 0
      by ring.
    rewrite sqrt_0. rewrite Rltb_true by lra. reflexivity.
  - unfold angleDeg. cbv zeta.
    replace ((x b - x b) ^ 2 + (y b - y b) ^ 2 + (z b - z b) ^ 2) with 0
      by ring.
    rewrite sqrt_0. rewrite Rltb_true by lra. reflexivity.
Qed.

End Measurements.


(** ** GeometricAnalyzer and ConflictResolver: what they read and return *)

Section Outputs.
Import Landmark GeometricAnalyzer ConflictResolver.

(** The names and confidences [classify] can return. *)
Lemma classify_returns (lm : option Hand) (g : Opinion.t) :
  classify lm = Some g ->
  In (Opinion.name g) geometricNames
  /\ 0.70 <= Opinion.confidence g <= 0.95.
Proof.
  destruct lm as [lm |]; [| discriminate]. unfold classify.
  destruct (length lm <? 21)%nat; [discriminate |].
  unfold classifyHand.
  destruct (fingerStates lm) as [[] [] [] [] []];
    cbn [thumb index middle ring pinky negb andb when returnIf orElse
         List.filter length Nat.eqb];
    repeat match goal with
      | |- context [if ?c then _ else _] => destruct c
      | |- context [returnIf ?c _] => destruct c; cbn [returnIf orElse]
      end;
    intros H; inversion H; subst;
    cbn [Opinion.name Opinion.confidence geometricNames In];
    (split; [repeat first [left; reflexivity | right] | lra]).
Qed.

Lemma classify_bounds (lm : option Hand) (g : Opinion.t) :
  classify lm = Some g -> 0.70 <= Opinion.confidence g <= 0.95.
Proof. intros H. apply (classify_returns lm g H). Qed.

(** X3: whatever the hand, an opinion of [classify] carries one of the
    thirteen names of [geometricNames] (never CALL ME) and a confidence
    between 0.70 and 0.95. *)
Theorem classify_names_and_confidences (lm : option Hand) (g : Opinion.t) :
  classify lm = Some g ->
  In (Opinion.name g) geometricNames
  /\ 0.70 <= Opinion.confidence g <= 0.95.
Proof. exact (classify_returns lm g). Qed.

Lemma classify_names_and_confidences_witness :
  In "STOP" geometricNames /\ 0.70 <= 0.85 <= 0.95.
Proof.
  apply (classify_names_and_confidences (Some openPalm)
           (Opinion.mk "STOP" 0.85)).
  apply openPalm_classify.
Defined.

(** The rules of [resolve] read the landmarks 0 to 20 and nothing else. *)
Lemma resolveTop_ext (top : Candidate.t) (lm lm' : Hand) :
  (21 <= length lm)%nat -> (21 <= length lm')%nat ->
  (forall i, (i <= 20)%nat -> pt lm i = pt lm' i) ->
  resolveTop top lm = resolveTop top lm'.
Proof.
  intros Hlen Hlen' H. unfold resolveTop.
  rewrite (classify_guarded lm Hlen), (classify_guarded lm' Hlen').
  rewrite (classifyHand_ext lm lm' H).
  unfold fingerStates, isExtended, handScale.
  rewrite !H by lia. reflexivity.
Qed.

Lemma pt_take (lm : Hand) (i : nat) :
  (i <= 20)%nat -> pt (take 21 lm) i = pt lm i.
Proof.
  intros Hi. unfold pt. rewrite nth_firstn.
  replace (i <? 21)%nat with true by (symmetry; apply Nat.ltb_lt; lia).
  reflexivity.
Qed.

(** X4: a hand of 21 landmarks or more is classified and resolved as its
    first 21 landmarks are: what follows them is never read. *)
Theorem only_first_21_landmarks_matter (lm : Hand)
    (candidates : option (list Candidate.t)) :
  (21 <= length lm)%nat ->
  classify (Some lm) = classify (Some (take 21 lm))
  /\ resolve candidates (Some lm) = resolve candidates (Some (take 21 lm)).
Proof.
  intros Hlen.
  assert (Hlen' : (21 <= length (take 21 lm))%nat)
    by (rewrite length_take; lia).
  assert (Hpt : forall i, (i <= 20)%nat -> pt lm i = pt (take 21 lm) i)
    by (intros i Hi; symmetry; apply pt_take; exact Hi).
  split.
  - rewrite !classify_guarded by assumption.
    apply classifyHand_ext. exact Hpt.
  - destruct candidates as [[| top rest] |]; try reflexivity.
    rewrite !resolve_guarded by assumption.
    apply resolveTop_ext; assumption.
Qed.

Lemma only_first_21_landmarks_matter_witness :
  classify (Some (openPalm ++ shaka)) = classify (Some (take 21 (openPalm ++ shaka)))
  /\ resolve (Some [Candidate.mk "HELLO" 7.2]) (Some (openPalm ++ shaka))
     = resolve (Some [Candidate.mk "HELLO" 7.2])
         (Some (take 21 (openPalm ++ shaka))).
Proof.
  apply (only_first_21_landmarks_matter (openPalm ++ shaka)
           (Some [Candidate.mk "HELLO" 7.2])).
  rewrite length_app. cbn [openPalm shaka length]. lia.
Defined.

(** Past its guards [resolve] always has an answer. *)
Lemma resolveTop_is_Some (top : Candidate.t) (lm : Hand) :
  exists r, resolveTop top lm = Some r.
Proof.
  unfold resolveTop. cbv zeta.
  repeat match goal with
    | |- exists r, (?a <|> ?b) = Some r =>
        destruct a as [r0 |]; [exists r0; reflexivity | cbn [orElse]]
    end.
  eexists. reflexivity.
Qed.

(** X5: [resolve] returns none exactly when the candidate list is absent
    or empty or the hand is absent or has fewer than 21 landmarks. *)
Theorem resolve_is_none_only_for_bad_input
    (candidates : option (list Candidate.t)) (lm : option Hand) :
  resolve candidates lm = None
  <-> (candidates = None \/ candidates = Some []
       \/ lm = None \/ exists h, lm = Some h /\ (length h < 21)%nat).
Proof.
  split.
  - intros Hnone. destruct candidates as [[| top rest] |]; [tauto | | tauto].
    destruct lm as [h |]; [| tauto].
    right. right. right. exists h. split; [reflexivity |].
    destruct (Nat.lt_ge_cases (length h) 21) as [Hlt | Hge]; [exact Hlt |].
    rewrite resolve_guarded in Hnone by exact Hge.
    destruct (resolveTop_is_Some top h) as [r Hr]. congruence.
  - intros [-> | [-> | [-> | (h & -> & Hlen)]]]; try reflexivity.
    + destruct candidates as [[| top rest] |]; reflexivity.
    + apply Nat.ltb_lt in Hlen. unfold resolve. rewrite Hlen.
      destruct candidates as [[| top rest] |]; reflexivity.
Qed.

End Outputs.


(** ** ConflictResolver: the score *)

Section Scores.
Import Landmark GeometricAnalyzer ConflictResolver.

Variable Q : Candidate.t -> Prop.

Lemma returnsOnly_orElse (a b : option Candidate.t) :
  returnsOnly Q a -> returnsOnly Q b -> returnsOnly Q (a <|> b).
Proof.
  intros Ha Hb r. destruct a as [v |]; cbn [orElse]; [apply Ha | apply Hb].
Qed.

Lemma returnsOnly_when (c : bool) (body : option Candidate.t) :
  returnsOnly Q body -> returnsOnly Q (when c body).
Proof. intros Hb r. destruct c; cbn [when]; [apply Hb | discriminate]. Qed.

Lemma returnsOnly_returnIf (c : bool) (v : Candidate.t) :
  Q v -> returnsOnly Q (returnIf c v).
Proof.
  intros Hv r. destruct c; cbn [returnIf]; [| discriminate].
  intros [= <-]. exact Hv.
Qed.

Lemma returnsOnly_Some (v : Candidate.t) : Q v -> returnsOnly Q (Some v).
Proof. intros Hv r [= <-]. exact Hv. Qed.

Lemma returnsOnly_None : returnsOnly Q None.
Proof. intros r. discriminate. Qed.

End Scores.

Section ScoreRange.
Import Landmark GeometricAnalyzer ConflictResolver.

(** A property of every candidate [resolve] can return: it is enough that
    the boosted candidate, the geometric candidate and the bank's score
    under any name have it. *)
Lemma resolveTop_returnsOnly (top : Candidate.t) (lm : Hand)
    (Q : Candidate.t -> Prop) :
  (forall g, classify (Some lm) = Some g ->
     Q (Candidate.mk (Candidate.name top)
          (Rmin 10 (Candidate.score top * 1.12)))) ->
  (forall g, classify (Some lm) = Some g ->
     Q (Candidate.mk (Opinion.name g) (Opinion.confidence g * 10))) ->
  (forall n, Q (Candidate.mk n (Candidate.score top))) ->
  returnsOnly Q (resolveTop top lm).
Proof.
  intros Hboost Hover Hkeep. unfold resolveTop. cbv zeta.
  destruct (classify (Some lm)) as [g |];
    [specialize (Hboost g eq_refl); specialize (Hover g eq_refl) |];
    repeat match goal with
      | |- returnsOnly _ (_ <|> _) => apply returnsOnly_orElse
      | |- returnsOnly _ (when _ _) => apply returnsOnly_when
      | |- returnsOnly _ (returnIf _ _) => apply returnsOnly_returnIf
      | |- returnsOnly _ (Some _) => apply returnsOnly_Some
      | |- returnsOnly _ None => apply returnsOnly_None
      end;
    first [assumption | apply Hkeep].
Qed.

(** X7: the score [resolve] returns is the bank's score whenever geometry
    has no opinion, and it lies between 0 and 10 whenever the bank's score
    does. *)
Theorem resolve_score_stays_in_range (top : Candidate.t)
    (rest : list Candidate.t) (lm : option Hand) (r : Candidate.t) :
  resolve (Some (top :: rest)) lm = Some r ->
  (classify lm = None -> Candidate.score r = Candidate.score top)
  /\ (0 <= Candidate.score top <= 10 -> 0 <= Candidate.score r <= 10).
Proof.
  intros Hres. destruct lm as [lm |]; [| discriminate].
  destruct (Nat.lt_ge_cases (length lm) 21) as [Hshort | Hlen].
  { unfold resolve in Hres.
    replace (length lm <? 21)%nat with true in Hres
      by (symmetry; apply Nat.ltb_lt; exact Hshort).
    discriminate. }
  rewrite resolve_guarded in Hres by exact Hlen. split.
  - intros Hgeo. revert r Hres.
    apply (resolveTop_returnsOnly top lm
             (fun r => Candidate.score r = Candidate.score top)).
    + intros g Hg. congruence.
    + intros g Hg. congruence.
    + reflexivity.
  - intros Htop. revert r Hres.
    apply (resolveTop_returnsOnly top lm
             (fun r => 0 <= Candidate.score r <= 10)).
    + intros g _. cbn [Candidate.score].
      split; [apply Rmin_glb; lra | apply Rmin_l].
    + intros g Hg. cbn [Candidate.score].
      destruct (classify_bounds (Some lm) g Hg) as [Hlo Hhi]. lra.
    + intros n. exact Htop.
Qed.

Lemma resolve_score_stays_in_range_witness :
  Candidate.score (Candidate.mk "O" 7.5)
  = Candidate.score (Candidate.mk "DRINK" 7.5)
  /\ 0 <= Candidate.score (Candidate.mk "O" 7.5) <= 10.
Proof.
  destruct (resolve_score_stays_in_range (Candidate.mk "DRINK" 7.5) []
              (Some curledHand) (Candidate.mk "O" 7.5) curledHand_drink)
    as [Hsilent Hrange].
  split.
  - apply Hsilent. apply curledHand_classify.
  - apply Hrange. cbn [Candidate.score]. lra.
Defined.

End ScoreRange.


(** ** OnlineLearner: counting and averaging *)

Section LearnerMore.
Import OnlineLearner.

Lemma observe_count (stats : gmap string Stat) (name : string) (raw : R) :
  find stats name <> Member ->
  getCount (observe stats name raw) name = (getCount stats name + 1)%nat
  /\ find (observe stats name raw) name <> Member.
Proof.
  intros Hfind.
  pose proof (observe_lookup stats name raw) as Hl.
  unfold getCount at 2. destruct (find stats name) as [s | |];
    [| contradiction |];
    unfold getCount; rewrite (find_own _ _ _ Hl);
    (split; [reflexivity | discriminate]).
Qed.

Lemma observeAll_cons (stats : gmap string Stat) (name : string) (s : R)
    (scores : list R) :
  observeAll stats name (s :: scores)
  = observeAll (observe stats name s) name scores.
Proof. reflexivity. Qed.

Lemma observeAll_count (scores : list R) (name : string) :
  forall stats : gmap string Stat,
    find stats name <> Member ->
    getCount (observeAll stats name scores) name
    = (getCount stats name + length scores)%nat.
Proof.
  induction scores as [| s rest IH]; intros stats Hfind.
  - cbn. lia.
  - destruct (observe_count stats name s Hfind) as [Hc Hf].
    rewrite observeAll_cons, IH, Hc by exact Hf. cbn [length]. lia.
Qed.

Lemma observeAll_other (scores : list R) (name other : string) :
  name <> other ->
  forall stats : gmap string Stat,
    observeAll stats name scores !! other = stats !! other.
Proof.
  intros Hne. induction scores as [| s rest IH]; intros stats;
    [reflexivity |].
  rewrite observeAll_cons, IH. apply observe_other. exact Hne.
Qed.

(** The confirmations of an inherited member's name are lost. *)
Lemma observeAll_member (scores : list R) (name : string)
    (stats : gmap string Stat) :
  find stats name = Member -> observeAll stats name scores = stats.
Proof.
  intros Hfind. induction scores as [| s rest IH]; [reflexivity |].
  rewrite observeAll_cons.
  replace (observe stats name s) with stats
    by (unfold observe; rewrite Hfind; reflexivity).
  exact IH.
Qed.

Lemma adjust_by_count (stats : gmap string Stat) (name : string) (raw : R) :
  find stats name <> Member ->
  (getCount stats name < 8)%nat -> adjust stats name raw = Fin raw.
Proof.
  unfold getCount, adjust, MIN_CONFIRM.
  destruct (find stats name) as [s | |]; [| contradiction | reflexivity].
  intros _ Hc. replace (count s <? 8)%nat with true
    by (symmetry; apply Nat.ltb_lt; exact Hc).
  reflexivity.
Qed.

(** X8: confirmations are counted one by one and per sign, for every name
    that has statistics of its own or is not the name of an inherited
    member: after a list of confirmations of one sign its count has grown
    by the length of the list, the statistics of every other sign are
    untouched, and scores are left unadjusted as long as the count stays
    below 8 - so a sign never seen before gets its first offset with its
    eighth confirmation.  The confirmations of the name of an inherited
    member are lost: the statistics stay as they were, the count stays 0
    and [adjust] gives NaN. *)
Theorem confirmations_are_counted_per_sign (stats : gmap string Stat)
    (name : string) (scores : list R) :
  (forall other, other <> name ->
     observeAll stats name scores !! other = stats !! other)
  /\ (find stats name <> Member ->
      getCount (observeAll stats name scores) name
      = (getCount stats name + length scores)%nat
      /\ (forall raw, (getCount stats name + length scores < 8)%nat ->
            adjust (observeAll stats name scores) name raw = Fin raw)
      /\ (forall raw, stats !! name = None -> (8 <= length scores)%nat ->
            exists s,
              observeAll stats name scores !! name = Some s
              /\ count s = length scores
              /\ adjust (observeAll stats name scores) name raw
                 = Fin (raw + offset s)))
  /\ (find stats name = Member ->
      observeAll stats name scores = stats
      /\ getCount (observeAll stats name scores) name = 0%nat
      /\ forall raw, adjust (observeAll stats name scores) name raw = NaN).
Proof.
  split.
  { intros other Hne. apply observeAll_other. congruence. }
  split.
  - intros Hfind.
    assert (Hafter : find (observeAll stats name scores) name <> Member).
    { clear - Hfind. revert stats Hfind.
      induction scores as [| s rest IH]; intros stats Hfind; [exact Hfind |].
      rewrite observeAll_cons. apply IH.
      apply (observe_count stats name s Hfind). }
    pose proof (observeAll_count scores name stats Hfind) as Hcount.
    split; [exact Hcount |]. split.
    { intros raw Hc. apply adjust_by_count; [exact Hafter |].
      rewrite Hcount. exact Hc. }
    intros raw Hfresh Hlen.
    assert (H0 : getCount stats name = 0%nat)
      by (unfold getCount, find; rewrite Hfresh;
          destruct (inherited name); reflexivity).
    rewrite H0 in Hcount. unfold getCount in Hcount. unfold adjust.
    unfold find in Hafter, Hcount |- *.
    destruct (observeAll stats name scores !! name) as [s |] eqn:Hs.
    + exists s. split; [reflexivity |]. split; [exact Hcount |].
      unfold MIN_CONFIRM.
      replace (count s <? 8)%nat with false
        by (symmetry; apply Nat.ltb_ge; lia).
      reflexivity.
    + destruct (inherited name); [contradiction | lia].
  - intros Hfind. rewrite (observeAll_member scores name stats Hfind).
    unfold getCount, adjust. rewrite Hfind. repeat split.
Qed.

Lemma confirmations_are_counted_per_sign_witness :
  (forall raw,
     adjust (observeAll ∅ "HELLO" [7.0; 7.2; 6.9]) "HELLO" raw = Fin raw)
  /\ (exists s,
        observeAll ∅ "HELLO" (replicate 8 7.0) !! "HELLO" = Some s
        /\ count s = 8%nat
        /\ adjust (observeAll ∅ "HELLO" (replicate 8 7.0)) "HELLO" 7.0
           = Fin (7.0 + offset s))
  /\ observeAll ∅ "toString" (replicate 8 7.0) = ∅
  /\ adjust (observeAll ∅ "toString" (replicate 8 7.0)) "toString" 7.0 = NaN.
Proof.
  assert (Hhello : find ∅ "HELLO" <> Member).
  { rewrite (find_absent ∅ "HELLO" (lookup_empty _) eq_refl). discriminate. }
  assert (Hmember : find ∅ "toString" = Member)
    by (apply find_member; [apply lookup_empty | reflexivity]).
  split; [| split; [| split]].
  - intros raw.
    apply (confirmations_are_counted_per_sign ∅ "HELLO" [7.0; 7.2; 6.9]).
    + exact Hhello.
    + unfold getCount. rewrite (find_absent ∅ "HELLO" (lookup_empty _) eq_refl).
      cbn [length]. lia.
  - apply (confirmations_are_counted_per_sign ∅ "HELLO" (replicate 8 7.0)).
    + exact Hhello.
    + apply lookup_empty.
    + cbn. lia.
  - apply (confirmations_are_counted_per_sign ∅ "toString"
             (replicate 8 7.0)).
    exact Hmember.
  - apply (confirmations_are_counted_per_sign ∅ "toString"
             (replicate 8 7.0)).
    exact Hmember.
Defined.

End LearnerMore.


(** ** TemporalSmoother: the window and the vote *)

Section SmootherMore.
Import TemporalSmoother.

Lemma pushAll_cons (history : list Opinion.t) (e : Opinion.t)
    (entries : list Opinion.t) :
  pushAll history (e :: entries)
  = pushAll (push history (Opinion.name e) (Opinion.confidence e)) entries.
Proof. reflexivity. Qed.

Lemma push_drop_entry (history : list Opinion.t) (e : Opinion.t) :
  (length history <= WINDOW)%nat ->
  push history (Opinion.name e) (Opinion.confidence e)
  = drop (length history + 1 - WINDOW) (history ++ [e]).
Proof.
  intros Hlen. rewrite push_drop by exact Hlen. destruct e. reflexivity.
Qed.

Lemma pushAll_drop (entries : list Opinion.t) :
  forall history : list Opinion.t,
    (length history <= WINDOW)%nat ->
    pushAll history entries
    = drop (length history + length entries - WINDOW) (history ++ entries).
Proof.
  induction entries as [| e rest IH]; intros history Hlen.
  - cbn [pushAll fold_left length]. rewrite app_nil_r.
    replace (length history + 0 - WINDOW)%nat with 0%nat by lia. reflexivity.
  - rewrite pushAll_cons.
    rewrite IH by (apply push_length; exact Hlen).
    assert (Hpush : length (push history (Opinion.name e)
                              (Opinion.confidence e))
                    = (length history + 1 - (length history + 1 - WINDOW))%nat).
    { rewrite push_drop_entry by exact Hlen.
      rewrite length_drop, length_app. cbn [length]. lia. }
    rewrite Hpush. rewrite push_drop_entry by exact Hlen.
    rewrite <- drop_app_le by (rewrite length_app; cbn [length]; lia).
    rewrite drop_drop, <- app_assoc. cbn [length app].
    f_equal. unfold WINDOW in *. lia.
Qed.

(** X10: the window is the last nine pushes: after any sequence of pushes
    onto the empty window, the window holds the last [min(n, 9)] pushed
    entries, in the order they were pushed. *)
Theorem window_holds_the_last_nine (entries : list Opinion.t) :
  pushAll [] entries = drop (length entries - WINDOW) entries
  /\ length (pushAll [] entries) = Nat.min (length entries) WINDOW.
Proof.
  assert (H : pushAll [] entries = drop (length entries - WINDOW) entries).
  { rewrite pushAll_drop by (cbn [length]; lia). reflexivity. }
  split; [exact H |]. rewrite H, length_drop. unfold WINDOW. lia.
Qed.

(** Votes are not negative, and two names share the total weight. *)
Lemma votesFrom_nonneg (history : list Opinion.t) (name : string) :
  forall i : nat, 0 <= Spec.votesFrom i history name.
Proof.
  induction history as [| h rest IH]; intros i; cbn [Spec.votesFrom];
    [lra |].
  specialize (IH (S i)). pose proof (pos_INR i).
  destruct (String.eqb _ _); lra.
Qed.

Lemma votesFrom_two (history : list Opinion.t) (a b : string) :
  a <> b ->
  forall i : nat,
    Spec.votesFrom i history a + Spec.votesFrom i history b
    <= INR (length history) * INR i + Spec.totalWeight history.
Proof.
  intros Hab. unfold Spec.totalWeight.
  induction history as [| h rest IH]; intros i;
    cbn [Spec.votesFrom length].
  - cbn. lra.
  - specialize (IH (S i)). rewrite !S_INR in *. pose proof (pos_INR i).
    destruct (String.eqb_spec (Opinion.name h) a) as [Ha | Ha];
      destruct (String.eqb_spec (Opinion.name h) b) as [Hb | Hb];
      [congruence | lra | lra | lra].
Qed.

(** X11: a name that is neither empty nor an inherited member's and holds
    more than half of the weight of a window of two entries or more is the
    answer of [best], with its weighted average confidence capped at 1. *)
Theorem weighted_majority_wins (history : list Opinion.t) (name : string) :
  (2 <= length history)%nat ->
  name <> "" ->
  inherited name = false ->
  Spec.totalWeight history / 2 < Spec.votes history name ->
  best history
  = Some (Opinion.mk name
            (Rmin 1 (Spec.confSum history name / Spec.votes history name))).
Proof.
  intros Hlen Hname Hown Hmajor. rewrite best_unfold by exact Hlen.
  pose proof (totalWeight_pos history Hlen) as HT.
  assert (Heligible : 0.48 <= Spec.votes history name
                              / Spec.totalWeight history).
  { apply (Rmult_le_reg_r (Spec.totalWeight history)); [exact HT |].
    replace (Spec.votes history name / Spec.totalWeight history
             * Spec.totalWeight history)
      with (Spec.votes history name) by (field; lra).
    lra. }
  pose proof (pick_fold (Spec.totalWeight history)
                (Obj.entries (tally history 0 ([], [])).1) HT) as Hfold.
  destruct (fold_left _ _ _) as [[top |] topVote].
  - destruct Hfold as (Hin & _ & Hmax).
    destruct (entries_votes history top topVote Hin) as [_ ->].
    assert (Hge : Spec.votes history name <= Spec.votes history top).
    { apply (Hmax name); [| exact Heligible].
      apply votes_entries; [exact Hown | lra]. }
    destruct (String.eqb_spec top name) as [-> | Hne].
    + destruct (String.eqb_spec name ""); [contradiction | reflexivity].
    + exfalso. pose proof (votesFrom_two history top name Hne 0) as Hsum.
      unfold Spec.votes in *. cbn [INR] in Hsum. lra.
  - destruct Hfold as [_ Hnone]. exfalso.
    apply (Hnone name (Spec.votes history name)); [| exact Heligible].
    apply votes_entries; [exact Hown | lra].
Qed.

Lemma weighted_majority_wins_witness :
  best [Opinion.mk "A" 0.6; Opinion.mk "B" 0.9; Opinion.mk "B" 0.7]
  = Some (Opinion.mk "B"
            (Rmin 1 (Spec.confSum
                       [Opinion.mk "A" 0.6; Opinion.mk "B" 0.9;
                        Opinion.mk "B" 0.7] "B"
                     / Spec.votes
                         [Opinion.mk "A" 0.6; Opinion.mk "B" 0.9;
                          Opinion.mk "B" 0.7] "B"))).
Proof.
  apply weighted_majority_wins.
  - cbn [length]. lia.
  - discriminate.
  - reflexivity.
  - unfold Spec.totalWeight, Spec.votes.
    cbn [length Spec.votesFrom Opinion.name]. strings. cbn [INR]. lra.
Defined.

(** A name with votes occurs in the window. *)
Lemma votesFrom_occurs (history : list Opinion.t) (name : string) :
  forall i : nat,
    Spec.votesFrom i history name <> 0 ->
    exists h, In h history /\ Opinion.name h = name.
Proof.
  induction history as [| h rest IH]; intros i Hne; cbn [Spec.votesFrom] in Hne;
    [contradiction |].
  destruct (String.eqb_spec (Opinion.name h) name) as [He | He].
  - exists h. split; [left; reflexivity | exact He].
  - destruct (IH (S i)) as (h' & Hin & Hn); [lra |].
    exists h'. split; [right; exact Hin | exact Hn].
Qed.

(** The weighted confidence of a name lies between the bounds of its
    entries, times its votes. *)
Lemma confFrom_between (history : list Opinion.t) (name : string) (lo hi : R) :
  (forall h, In h history -> Opinion.name h = name ->
             lo <= Opinion.confidence h <= hi) ->
  forall i : nat,
    lo * Spec.votesFrom i history name <= Spec.confFrom i history name
    <= hi * Spec.votesFrom i history name.
Proof.
  induction history as [| h rest IH]; intros Hb i;
    cbn [Spec.votesFrom Spec.confFrom]; [lra |].
  assert (Hrest : lo * Spec.votesFrom (S i) rest name
                  <= Spec.confFrom (S i) rest name
                  <= hi * Spec.votesFrom (S i) rest name)
    by (apply IH; intros h' Hin; apply Hb; right; exact Hin).
  pose proof (pos_INR i) as Hi.
  destruct (String.eqb_spec (Opinion.name h) name) as [He | He]; [| lra].
  pose proof (Hb h (or_introl eq_refl) He). nra.
Qed.

(** The name and the confidence of an answer of [best] come from the
    window. *)
Lemma best_within (history : list Opinion.t) (r : Opinion.t) (lo hi : R) :
  best history = Some r ->
  (forall h, In h history -> Opinion.name h = Opinion.name r ->
             lo <= Opinion.confidence h <= hi) ->
  (exists h, In h history /\ Opinion.name h = Opinion.name r)
  /\ Rmin 1 lo <= Opinion.confidence r <= Rmin 1 hi.
Proof.
  intros Hbest Hbounds.
  destruct (best_Some history r Hbest) as (Hlen & _ & _ & He & _ & Hconf).
  pose proof (totalWeight_pos history Hlen) as HT.
  pose proof (share_positive _ _ HT He) as Hpos.
  split.
  - apply (votesFrom_occurs history (Opinion.name r) 0).
    unfold Spec.votes in Hpos. lra.
  - pose proof (confFrom_between history (Opinion.name r) lo hi Hbounds 0)
      as [Hlo Hhi].
    fold (Spec.votes history (Opinion.name r)) in Hlo, Hhi.
    fold (Spec.confSum history (Opinion.name r)) in Hlo, Hhi.
    assert (Hq : lo <= Spec.confSum history (Opinion.name r)
                       / Spec.votes history (Opinion.name r) <= hi).
    { split.
      - apply (Rmult_le_reg_r (Spec.votes history (Opinion.name r)));
          [exact Hpos |].
        replace (Spec.confSum history (Opinion.name r)
                 / Spec.votes history (Opinion.name r)
                 * Spec.votes history (Opinion.name r))
          with (Spec.confSum history (Opinion.name r)) by (field; lra).
        exact Hlo.
      - apply (Rmult_le_reg_r (Spec.votes history (Opinion.name r)));
          [exact Hpos |].
        replace (Spec.confSum history (Opinion.name r)
                 / Spec.votes history (Opinion.name r)
                 * Spec.votes history (Opinion.name r))
          with (Spec.confSum history (Opinion.name r)) by (field; lra).
        exact Hhi. }
    rewrite Hconf. unfold Rmin.
    repeat destruct (Rle_dec _ _); lra.
Qed.

Lemma confFrom_nonneg (history : list Opinion.t) (name : string) :
  (forall h, In h history -> 0 <= Opinion.confidence h) ->
  forall i : nat, 0 <= Spec.confFrom i history name.
Proof.
  induction history as [| h rest IH]; intros Hpos i; cbn [Spec.confFrom];
    [lra |].
  assert (Hrest : 0 <= Spec.confFrom (S i) rest name)
    by (apply IH; intros h' Hin; apply Hpos; right; exact Hin).
  pose proof (pos_INR i) as Hi.
  pose proof (Hpos h (or_introl eq_refl)) as Hh.
  destruct (String.eqb _ _); [nra | lra].
Qed.

(** X12: [best] never invents a name: the name it returns is the name of
    an entry of the window, and it is neither empty nor the name of an
    inherited member; the confidence it returns is at most 1, and it is not
    negative when no confidence of the window is. *)
Theorem best_stays_within_the_window (history : list Opinion.t)
    (r : Opinion.t) :
  best history = Some r ->
  (exists h, In h history /\ Opinion.name h = Opinion.name r)
  /\ Opinion.name r <> ""
  /\ inherited (Opinion.name r) = false
  /\ Opinion.confidence r <= 1
  /\ ((forall h, In h history -> 0 <= Opinion.confidence h) ->
      0 <= Opinion.confidence r).
Proof.
  intros Hbest.
  destruct (best_Some history r Hbest)
    as (Hlen & Hne & Hown & He & _ & Hconf).
  pose proof (totalWeight_pos history Hlen) as HT.
  pose proof (share_positive _ _ HT He) as Hvotes.
  split.
  { apply (votesFrom_occurs history (Opinion.name r) 0).
    unfold Spec.votes in Hvotes. lra. }
  split; [exact Hne |]. split; [exact Hown |].
  split; [rewrite Hconf; apply Rmin_l |].
  intros Hpos. rewrite Hconf.
  pose proof (confFrom_nonneg history (Opinion.name r) Hpos 0) as Hsum.
  fold (Spec.confSum history (Opinion.name r)) in Hsum.
  assert (0 <= Spec.confSum history (Opinion.name r)
               / Spec.votes history (Opinion.name r)).
  { apply Rmult_le_pos; [exact Hsum |].
    apply Rlt_le, Rinv_0_lt_compat. exact Hvotes. }
  apply Rmin_glb; lra.
Qed.

Lemma best_stays_within_the_window_witness :
  (exists h,
     In h (pushEach [] "Z" (replicate 9 0.9)) /\ Opinion.name h = "Z")
  /\ "Z" <> ""
  /\ inherited "Z" = false
  /\ 0.9 <= 1
  /\ ((forall h, In h (pushEach [] "Z" (replicate 9 0.9)) ->
               0 <= Opinion.confidence h) ->
      0 <= 0.9).
Proof.
  apply (best_stays_within_the_window (pushEach [] "Z" (replicate 9 0.9))
           (Opinion.mk "Z" 0.9) best_nine_Z).
Defined.

End SmootherMore.


(** ** GestureEngine: one frame *)

Section EngineMore.
Import GestureEngine.

(** X13: a frame never touches the learner: [detect] leaves the statistics
    and the readiness flag as they are, whatever it returns; only
    [confirmSign] and [resetSession] change the statistics. *)
Theorem detect_leaves_the_learner_alone (st : State)
    (landmarks : option Hand) (gestures : option (list Candidate.t)) :
  stats (detect st landmarks gestures).1 = stats st
  /\ ready (detect st landmarks gestures).1 = ready st
  /\ (forall name raw,
        OnlineLearner.adjust (stats (detect st landmarks gestures).1) name raw
        = OnlineLearner.adjust (stats st) name raw)
  /\ stats (step st Reset) = stats st
  /\ (forall built, stats (step st (Init built)) = stats st).
Proof.
  assert (Hstats : stats (detect st landmarks gestures).1 = stats st)
    by apply detect_keeps_stats.
  split; [exact Hstats |]. split.
  - unfold detect. destruct landmarks as [lm |]; [| reflexivity].
    destruct (negb (ready st) || (length lm <? 21)%nat); [reflexivity |].
    destruct (ConflictResolver.resolve _ _) as [r |].
    + cbn zeta. destruct (TemporalSmoother.best _); reflexivity.
    + destruct (GeometricAnalyzer.classify _) as [geo |]; [| reflexivity].
      cbn zeta. destruct (TemporalSmoother.best _); reflexivity.
  - split; [intros name raw; rewrite Hstats; reflexivity |].
    split; reflexivity.
Qed.

(** Stable insertion keeps the elements and the descending order. *)
Lemma insertByScore_In (c x : Candidate.t) (l : list Candidate.t) :
  In x (insertByScore c l) <-> x = c \/ In x l.
Proof.
  induction l as [| c' rest IH]; cbn [insertByScore In].
  - intuition congruence.
  - destruct (Candidate.score c' >=? Candidate.score c); cbn [In];
      [rewrite IH |]; intuition congruence.
Qed.

Lemma insertByScore_length (c : Candidate.t) (l : list Candidate.t) :
  length (insertByScore c l) = S (length l).
Proof.
  induction l as [| c' rest IH]; cbn [insertByScore length]; [reflexivity |].
  destruct (Candidate.score c' >=? Candidate.score c); cbn [length];
    [rewrite IH |]; reflexivity.
Qed.

(** Descending by score: every element is at least every later one. *)
Lemma insertByScore_sorted (c : Candidate.t) (l : list Candidate.t) :
  descending l -> descending (insertByScore c l).
Proof.
  induction l as [| c' rest IH]; cbn [insertByScore descending].
  - intros _. split; [constructor | exact I].
  - intros [Hall Hrest]. unfold Rgeb.
    destruct (Rle_dec (Candidate.score c) (Candidate.score c')) as [Hle | Hgt].
    + rewrite (Rleb_true _ _ Hle). cbn [descending]. split.
      * apply List.Forall_forall. intros x Hx. apply insertByScore_In in Hx.
        destruct Hx as [-> | Hx]; [exact Hle |].
        rewrite List.Forall_forall in Hall. apply Hall, Hx.
      * apply IH, Hrest.
    + rewrite Rleb_false by lra. cbn [descending]. split; [| split; assumption].
      constructor; [lra |].
      rewrite List.Forall_forall in *. intros x Hx. specialize (Hall x Hx). lra.
Qed.

Lemma sortByScore_acc (l : list Candidate.t) :
  forall acc : list Candidate.t,
    descending acc ->
    let sorted := fold_left (fun acc c => insertByScore c acc) l acc in
    descending sorted
    /\ (forall x, In x sorted <-> In x l \/ In x acc)
    /\ length sorted = (length l + length acc)%nat.
Proof.
  induction l as [| c rest IH]; intros acc Hacc; cbn [fold_left].
  - cbn zeta. split; [exact Hacc |]. split; [cbn [In]; tauto | reflexivity].
  - destruct (IH (insertByScore c acc) (insertByScore_sorted c acc Hacc))
      as (Hs & Hin & Hlen).
    cbn zeta in *. split; [exact Hs |]. split.
    + intros x. rewrite Hin, insertByScore_In. cbn [In]. intuition congruence.
    + rewrite Hlen, insertByScore_length. cbn [length]. lia.
Qed.

Lemma In_take {A : Type} (x : A) (n : nat) (l : list A) :
  In x (take n l) -> In x l.
Proof.
  revert n. induction l as [| a rest IH]; intros [| n]; cbn [take In];
    try tauto.
  intros [-> | H]; [left; reflexivity | right; apply (IH n), H].
Qed.

(** X14: [detect] orders the gestures of the bank by descending score and
    keeps at most four: the candidate the resolver decides on is a gesture
    of the bank that no other gesture outscores, and nothing but gestures
    of the bank is passed on. *)
Theorem detect_consults_the_best_gesture (gestures : list Candidate.t) :
  gestures <> [] ->
  exists top rest,
    take 4 (sortByScore gestures) = top :: rest
    /\ In top gestures
    /\ (forall c, In c gestures -> Candidate.score c <= Candidate.score top)
    /\ (forall c, In c rest -> In c gestures)
    /\ length (top :: rest) = Nat.min 4 (length gestures).
Proof.
  intros Hne.
  destruct (sortByScore_acc gestures [] I) as (Hs & Hin & Hlen).
  cbn zeta in *. fold (sortByScore gestures) in *.
  rewrite Nat.add_0_r in Hlen.
  destruct (sortByScore gestures) as [| top sorted] eqn:Hsorted.
  { destruct gestures; [contradiction | discriminate]. }
  exists top, (take 3 sorted). split; [reflexivity |].
  cbn [descending] in Hs. destruct Hs as [Hall _].
  split; [| split; [| split]].
  - destruct (Hin top) as [H _]. destruct (H (or_introl eq_refl)) as [|[]].
    assumption.
  - intros c Hc. destruct (Hin c) as [_ H].
    destruct (H (or_introl Hc)) as [<- | Hc']; [lra |].
    rewrite List.Forall_forall in Hall. apply Hall, Hc'.
  - intros c Hc. destruct (Hin c) as [H _].
    destruct H as [|[]]; [| assumption].
    right. eapply In_take, Hc.
  - cbn [length] in *. rewrite length_take. lia.
Qed.

Lemma detect_consults_the_best_gesture_witness :
  exists top rest,
    take 4 (sortByScore [Candidate.mk "A" 7.1; Candidate.mk "S" 8.4])
    = top :: rest
    /\ In top [Candidate.mk "A" 7.1; Candidate.mk "S" 8.4]
    /\ (forall c, In c [Candidate.mk "A" 7.1; Candidate.mk "S" 8.4] ->
                  Candidate.score c <= Candidate.score top)
    /\ (forall c, In c rest ->
                  In c [Candidate.mk "A" 7.1; Candidate.mk "S" 8.4])
    /\ length (top :: rest)
       = Nat.min 4 (length [Candidate.mk "A" 7.1; Candidate.mk "S" 8.4]).
Proof.
  apply (detect_consults_the_best_gesture
           [Candidate.mk "A" 7.1; Candidate.mk "S" 8.4]).
  discriminate.
Defined.

End EngineMore.


(** ** GestureEngine: what a frame reports *)

Section EngineReport.
Import GestureEngine.

(** The three ways a frame can end: nothing happens; the window is
    emptied; one entry with a confidence between 0 and 1 is pushed and the
    answer of the smoother is reported as a rounded percentage. *)
Lemma detect_cases (st : State) (landmarks : option Hand)
    (gestures : option (list Candidate.t)) :
  detect st landmarks gestures = (st, None)
  \/ detect st landmarks gestures
     = (mkState (ready st) [] (stats st), None)
  \/ exists name c,
       0 <= c <= 1
       /\ detect st landmarks gestures
          = (mkState (ready st) (TemporalSmoother.push (history st) name c)
               (stats st),
             match TemporalSmoother.best
                     (TemporalSmoother.push (history st) name c) with
             | Some smoothed =>
                 Some (Opinion.mk (Opinion.name smoothed)
                         (round (Opinion.confidence smoothed * 100)))
             | None => None
             end).
Proof.
  assert (Hpush : forall final : Candidate.t,
    exists name c,
      0 <= c <= 1
      /\ (let adjustedScore :=
            OnlineLearner.adjust (stats st) (Candidate.name final)
              (Candidate.score final) in
          let rawConf :=
            match adjustedScore with
            | Fin a => Rmin 1.0 (Rmax 0 (a / 10))
            | NaN => 0
            end in
          let history' :=
            TemporalSmoother.push (history st) (Candidate.name final)
              rawConf in
          let st' := mkState (ready st) history' (stats st) in
          match TemporalSmoother.best history' with
          | None => (st', None)
          | Some smoothed =>
              (st', Some (Opinion.mk (Opinion.name smoothed)
                            (round (Opinion.confidence smoothed * 100))))
          end)
         = (mkState (ready st) (TemporalSmoother.push (history st) name c)
              (stats st),
            match TemporalSmoother.best
                    (TemporalSmoother.push (history st) name c) with
            | Some smoothed =>
                Some (Opinion.mk (Opinion.name smoothed)
                        (round (Opinion.confidence smoothed * 100)))
            | None => None
            end)).
  { intros final. exists (Candidate.name final).
    exists (match OnlineLearner.adjust (stats st) (Candidate.name final)
                    (Candidate.score final) with
            | Fin a => Rmin 1.0 (Rmax 0 (a / 10))
            | NaN => 0
            end).
    split.
    - destruct (OnlineLearner.adjust _ _ _) as [a |]; [| lra]. split.
      + apply Rmin_glb; [lra | apply Rmax_l].
      + pose proof (Rmin_l 1.0 (Rmax 0 (a / 10))). lra.
    - cbv zeta. destruct (TemporalSmoother.best _); reflexivity. }
  unfold detect. destruct landmarks as [lm |]; [| left; reflexivity].
  destruct (negb (ready st) || (length lm <? 21)%nat); [left; reflexivity |].
  destruct (ConflictResolver.resolve _ _) as [r |];
    [right; right; apply Hpush |].
  destruct (GeometricAnalyzer.classify _) as [geo |];
    [right; right; apply Hpush |].
  right. left. reflexivity.
Qed.

Lemma tail_Forall {A : Type} (P : A -> Prop) (l : list A) :
  Forall P l -> Forall P (tail l).
Proof. intros H. destruct H; [constructor | assumption]. Qed.

Lemma push_confidencesOk (history : list Opinion.t) (name : string) (c : R) :
  confidencesOk history -> 0 <= c <= 1 ->
  confidencesOk (TemporalSmoother.push history name c).
Proof.
  intros Hh Hc. unfold confidencesOk, TemporalSmoother.push in *.
  assert (Happ : Forall (fun e => 0 <= Opinion.confidence e <= 1)
                   (history ++ [Opinion.mk name c])).
  { apply Forall_app. split; [exact Hh |]. constructor; [exact Hc | constructor]. }
  destruct (_ <? _)%nat; [apply tail_Forall |]; exact Happ.
Qed.

Lemma step_confidencesOk (st : State) (c : Call) :
  confidencesOk (history st) -> confidencesOk (history (step st c)).
Proof.
  intros Hok.
  destruct c as [built | landmarks gestures | name raw | |];
    cbn [step init confirmSign reset resetSession history
         TemporalSmoother.reset];
    try exact Hok; try constructor.
  destruct (detect_cases st landmarks gestures)
    as [-> | [-> | (name & c & Hc & ->)]]; cbn [fst history].
  - exact Hok.
  - constructor.
  - apply push_confidencesOk; assumption.
Qed.

Lemma run_confidencesOk (calls : list Call) :
  forall st : State,
    confidencesOk (history st) -> confidencesOk (history (run st calls)).
Proof.
  induction calls as [| c calls IH]; intros st Hok; [exact Hok |].
  rewrite run_cons. apply IH, step_confidencesOk, Hok.
Qed.

(** Rounding a share to a percentage. *)
Lemma round_percentage (v : R) :
  0 <= v <= 1 -> exists k : Z, (0 <= k <= 100)%Z /\ round (v * 100) = IZR k.
Proof.
  intros Hv. unfold round. exists (Int_part (v * 100 + 0.5)).
  split; [| reflexivity].
  destruct (base_Int_part (v * 100 + 0.5)) as [Hle Hgt].
  split.
  - apply Z.lt_succ_r. apply lt_IZR. rewrite succ_IZR. lra.
  - apply Z.lt_succ_r. apply lt_IZR. rewrite succ_IZR. lra.
Qed.

(** X15: whatever calls came before, a label [detect] reports carries a
    whole percentage between 0 and 100, and its name is the name of an
    entry of the window. *)
Theorem detect_reports_a_percentage (calls : list Call)
    (landmarks : option Hand) (gestures : option (list Candidate.t))
    (r : Opinion.t) :
  (detect (run start calls) landmarks gestures).2 = Some r ->
  (exists k : Z, (0 <= k <= 100)%Z /\ Opinion.confidence r = IZR k)
  /\ (exists e,
        In e (history (detect (run start calls) landmarks gestures).1)
        /\ Opinion.name e = Opinion.name r).
Proof.
  intros Hr.
  assert (Hok : confidencesOk (history (run start calls)))
    by (apply run_confidencesOk; constructor).
  destruct (detect_cases (run start calls) landmarks gestures)
    as [H | [H | (name & c & Hc & H)]]; rewrite H in Hr |- *;
    cbn [fst snd history] in *; try discriminate.
  pose proof (push_confidencesOk _ name c Hok Hc) as Hok'.
  destruct (TemporalSmoother.best _) as [smoothed |] eqn:Hbest;
    [| discriminate].
  injection Hr as <-. cbn [Opinion.name Opinion.confidence].
  destruct (best_within _ smoothed 0 1 Hbest) as [Hocc [Hlo Hhi]].
  { intros h Hin _. unfold confidencesOk in Hok'.
    rewrite List.Forall_forall in Hok'. apply Hok', Hin. }
  split; [| exact Hocc].
  apply round_percentage.
  rewrite Rmin_right in Hlo by lra. rewrite Rmin_left in Hhi by lra. lra.
Qed.

Lemma detect_reports_a_percentage_witness :
  (exists k : Z, (0 <= k <= 100)%Z /\ round (0.9 * 100) = IZR k)
  /\ (exists e,
        In e (history
                (detect
                   (run start
                      (Init true
                       :: replicate 8
                            (Detect (Some curledHand)
                               (Some [Candidate.mk "Z" 9.0]))))
                   (Some curledHand) (Some [Candidate.mk "Z" 9.0])).1)
        /\ Opinion.name e = "Z").
Proof.
  apply (detect_reports_a_percentage
           (Init true
            :: replicate 8
                 (Detect (Some curledHand) (Some [Candidate.mk "Z" 9.0])))
           (Some curledHand) (Some [Candidate.mk "Z" 9.0])
           (Opinion.mk "Z" (round (0.9 * 100)))).
  rewrite run_cons. cbn [step].
  rewrite detect_Z_repeated; [| reflexivity | reflexivity].
  cbn [init start history stats].
  unfold detect. cbn [ready negb orb length curledHand Nat.ltb Nat.leb].
  fold curledHand. cbn [sortByScore fold_left insertByScore take].
  rewrite curledHand_resolve_Z. cbn [Candidate.name Candidate.score history stats].
  change (OnlineLearner.adjust ∅ "Z" 9.0) with (Fin 9.0). cbv beta iota.
  replace (Rmin 1.0 (Rmax 0 (9.0 / 10))) with 0.9
    by (rewrite Rmax_right by lra; rewrite Rmin_right by lra; lra).
  change (TemporalSmoother.push
            (TemporalSmoother.pushEach [] "Z" (replicate 8 0.9)) "Z" 0.9)
    with (TemporalSmoother.pushEach [] "Z" (replicate 9 0.9)).
  rewrite best_nine_Z. reflexivity.
Defined.

End EngineReport.




(** ** Calibration: the guided sequence *)

Section CalibrationSequence.
Import Calibration.

Lemma sequence_length : length CALIB_SEQUENCE = 10%nat.
Proof. reflexivity. Qed.

Lemma initial_invariant (read : Stored) : invariant (initial read).
Proof.
  unfold invariant, initial, SAMPLES_NEEDED.
  destruct read; cbn; (split; [discriminate | split; [lia | constructor]]).
Qed.

Lemma commitStep_invariant (st : State) :
  (stepIndex st < length CALIB_SEQUENCE)%nat ->
  exists st' events,
    commitStep st = Some (st', events) /\ invariant st'
    /\ progress st' = (SAMPLES_NEEDED * S (stepIndex st))%nat
    /\ (isRunning st' = false \/ isRunning st' = isRunning st).
Proof.
  intros Hstep. unfold commitStep.
  destruct (nth_error CALIB_SEQUENCE (stepIndex st)) as [[sign hint] |] eqn:E.
  2: { apply nth_error_None in E. lia. }
  destruct (Nat.leb_spec (length CALIB_SEQUENCE) (S (stepIndex st))) as [H | H].
  - eexists _, _. split; [reflexivity |].
    unfold invariant, progress, SAMPLES_NEEDED. cbn.
    split; [| split; [lia | left; reflexivity]].
    split; [discriminate | split; [lia | constructor]].
  - eexists _, _. split; [reflexivity |].
    unfold invariant, progress, SAMPLES_NEEDED. cbn.
    split; [| split; [lia | right; reflexivity]].
    split; [| split; [lia | constructor]].
    intros _. rewrite sequence_length in H. lia.
Qed.

Lemma feedSample_invariant (st : State) (detectedName : string)
    (rawScore : R) :
  invariant st ->
  exists st' events,
    feedSample st detectedName rawScore = Some (st', events) /\ invariant st'.
Proof.
  intros (Hstep & Hlen & Hall). unfold feedSample.
  destruct (isRunning st) eqn:Hrun; cbn [negb].
  2: { exists st, []. split; [reflexivity |].
       split; [rewrite Hrun; discriminate | split; assumption]. }
  specialize (Hstep eq_refl).
  destruct (nth_error CALIB_SEQUENCE (stepIndex st)) as [[expected hint] |] eqn:E.
  2: { apply nth_error_None in E. lia. }
  destruct (String.eqb detectedName expected); cbn [andb].
  2: { exists st, []. split; [reflexivity |].
       split; [intros _; exact Hstep | split; assumption]. }
  unfold Rgtb. destruct (Rlt_dec 5 rawScore) as [Hs | Hs].
  2: { rewrite Rltb_false by lra. exists st, []. split; [reflexivity |].
       split; [intros _; exact Hstep | split; assumption]. }
  rewrite Rltb_true by exact Hs. cbn [sampleBuf].
  destruct (Nat.leb_spec SAMPLES_NEEDED (length (sampleBuf st ++ [rawScore])))
    as [H | H].
  - destruct (commitStep_invariant
                (mkState (data st) true (stepIndex st)
                   (sampleBuf st ++ [rawScore]) (onUpdate st) (onComplete st)))
      as (st2 & ev2 & Hc & Hinv & _); [exact Hstep |].
    rewrite Hc. eexists _, _. split; [reflexivity | exact Hinv].
  - eexists _, _. split; [reflexivity |].
    split; [intros _; exact Hstep | split; [exact H |]].
    cbn [sampleBuf]. apply Forall_app. split; [exact Hall |].
    constructor; [exact Hs | constructor].
Qed.

Lemma step_invariant (st : State) (c : Call) :
  invariant st ->
  exists st' events, step st c = Some (st', events) /\ invariant st'.
Proof.
  intros Hinv. destruct c as [read u k | | name score |]; cbn [step].
  - unfold startCalibration. destruct (isRunning st) eqn:Hrun.
    + eexists _, _. split; [reflexivity | exact Hinv].
    + eexists _, _. split; [reflexivity |].
      unfold invariant, SAMPLES_NEEDED. cbn.
      split; [intros _; lia | split; [lia | constructor]].
  - eexists _, _. split; [reflexivity |].
    unfold invariant, stopCalibration, SAMPLES_NEEDED. cbn.
    split; [discriminate | split; [lia | constructor]].
  - apply feedSample_invariant. exact Hinv.
  - eexists _, _. split; [reflexivity |]. exact Hinv.
Qed.

Lemma run_invariant (calls : list Call) :
  forall st, invariant st ->
    exists st', run st calls = Some st' /\ invariant st'.
Proof.
  induction calls as [| c rest IH]; intros st Hinv; cbn [run].
  - exists st. split; [reflexivity | exact Hinv].
  - destruct (step_invariant st c Hinv) as (st1 & ev & Hs & Hinv1).
    rewrite Hs. apply IH. exact Hinv1.
Qed.

(** X16: when the storage holds, each time it is read, no item, text that
    does not parse, or a dictionary of entries as [save] writes it, then
    whatever sequence of start, stop, feed and reset calls follows the
    loading of the module, no call raises (the step looked up in the
    sequence always exists), and afterwards fewer than fifteen samples are
    buffered and, while the sequence runs, the expected sign is one of the
    ten signs of the sequence. *)
Theorem calibration_never_runs_off_the_sequence (read : Stored)
    (calls : list Call) :
  exists st,
    run (initial read) calls = Some st
    /\ (length (sampleBuf st) < SAMPLES_NEEDED)%nat
    /\ (isRunning st = true ->
        exists sign, currentSign st = Some sign
                     /\ In sign (map fst CALIB_SEQUENCE)).
Proof.
  destruct (run_invariant calls (initial read) (initial_invariant read))
    as (st & Hrun & Hstep & Hlen & _).
  exists st. split; [exact Hrun | split; [exact Hlen |]].
  intros Hr. specialize (Hstep Hr). unfold currentSign. rewrite Hr.
  destruct (nth_error CALIB_SEQUENCE (stepIndex st)) as [[sign hint] |] eqn:E.
  2: { apply nth_error_None in E. lia. }
  exists sign. split; [reflexivity |].
  apply nth_error_In in E. apply (in_map fst) in E. exact E.
Qed.

End CalibrationSequence.




(** ** Calibration: what a finished step stores *)

Section CalibrationEntries.
Import Calibration.

Lemma total_from (l : list R) (a : R) :
  fold_left Rplus l a = a + total l.
Proof.
  unfold total. revert a.
  induction l as [| s l IH]; intros a; cbn [fold_left].
  - lra.
  - rewrite (IH (a + s)), (IH (0 + s)). lra.
Qed.

Lemma total_snoc (l : list R) (s : R) : total (l ++ [s]) = total l + s.
Proof.
  unfold total. rewrite fold_left_app. cbn [fold_left]. reflexivity.
Qed.

Lemma total_above (l : list R) :
  Forall (fun s => 5 < s) l -> 5 * INR (length l) <= total l.
Proof.
  induction 1 as [| s l Hs _ IH].
  - unfold total. cbn. lra.
  - unfold total. cbn [fold_left]. rewrite total_from.
    change (length (s :: l)) with (S (length l)). rewrite S_INR. lra.
Qed.

Lemma clamp_bounds (v : R) : -1.5 <= Rmax (-1.5) (Rmin 1.5 v) <= 1.5.
Proof.
  unfold Rmax, Rmin. repeat destruct (Rle_dec _ _); lra.
Qed.

Lemma feed_buffered (st : State) (sign hint : string) (score : R) :
  isRunning st = true ->
  nth_error CALIB_SEQUENCE (stepIndex st) = Some (sign, hint) ->
  5 < score ->
  (S (length (sampleBuf st)) < SAMPLES_NEEDED)%nat ->
  exists events,
    feedSample st sign score
    = Some (mkState (data st) true (stepIndex st) (sampleBuf st ++ [score])
              (onUpdate st) (onComplete st), events).
Proof.
  intros Hrun Hnth Hs Hlen. unfold feedSample.
  rewrite Hrun, Hnth. cbn [negb]. rewrite String.eqb_refl.
  unfold Rgtb. rewrite Rltb_true by exact Hs. cbn [andb sampleBuf].
  rewrite length_app. cbn [length].
  destruct (Nat.leb_spec SAMPLES_NEEDED (length (sampleBuf st) + 1)) as [H | H];
    [lia |].
  eexists. reflexivity.
Qed.

Lemma feed_commits (st : State) (sign hint : string) (score : R) :
  isRunning st = true ->
  nth_error CALIB_SEQUENCE (stepIndex st) = Some (sign, hint) ->
  5 < score ->
  S (length (sampleBuf st)) = SAMPLES_NEEDED ->
  exists events,
    feedSample st sign score
    = Some (mkState
              (<[sign := mkEntry
                           (Rmax (-1.5)
                              (Rmin 1.5
                                 (8.5 - (total (sampleBuf st) + score) / 15)))
                           ((total (sampleBuf st) + score) / 15)
                           15]> (data st))
              (negb (length CALIB_SEQUENCE <=? S (stepIndex st))%nat)
              (S (stepIndex st)) [] (onUpdate st) (onComplete st), events).
Proof.
  intros Hrun Hnth Hs Hlen. unfold feedSample.
  rewrite Hrun, Hnth. cbn [negb]. rewrite String.eqb_refl.
  unfold Rgtb. rewrite Rltb_true by exact Hs. cbn [andb sampleBuf].
  assert (Hl : length (sampleBuf st ++ [score]) = 15%nat).
  { rewrite length_app. cbn [length]. unfold SAMPLES_NEEDED in Hlen. lia. }
  rewrite Hl. change (SAMPLES_NEEDED <=? 15)%nat with true. cbn match.
  unfold commitStep. cbn [stepIndex sampleBuf data onUpdate onComplete
                          isRunning].
  rewrite Hnth, Hl, total_snoc.
  replace (INR 15) with 15 by (cbn; lra).
  destruct (length CALIB_SEQUENCE <=? S (stepIndex st))%nat; cbn [negb];
    eexists; reflexivity.
Qed.

Lemma commitStep_bounded (st st' : State) (events : list Event) :
  boundedData (data st) ->
  commitStep st = Some (st', events) ->
  boundedData (data st').
Proof.
  intros Hb. unfold commitStep.
  destruct (nth_error CALIB_SEQUENCE (stepIndex st)) as [[sign hint] |];
    [| discriminate].
  assert (Hins : boundedData
            (<[sign := mkEntry
                 (Rmax (-1.5)
                    (Rmin 1.5
                       (8.5 - total (sampleBuf st)
                              / INR (length (sampleBuf st)))))
                 (total (sampleBuf st) / INR (length (sampleBuf st)))
                 (length (sampleBuf st))]> (data st))).
  { intros k e. rewrite lookup_insert_Some.
    intros [[_ <-] | [_ Hk]]; [apply clamp_bounds | exact (Hb k e Hk)]. }
  destruct (length CALIB_SEQUENCE <=? S (stepIndex st))%nat;
    intros [= <- _]; exact Hins.
Qed.

Lemma feedSample_bounded (st st' : State) (name : string) (score : R)
    (events : list Event) :
  boundedData (data st) ->
  feedSample st name score = Some (st', events) ->
  boundedData (data st').
Proof.
  intros Hb. unfold feedSample.
  destruct (negb (isRunning st)); [intros [= <- _]; exact Hb |].
  destruct (nth_error CALIB_SEQUENCE (stepIndex st)) as [[expected hint] |];
    [| discriminate].
  destruct (String.eqb name expected && (score >? 5));
    [| intros [= <- _]; exact Hb].
  destruct (SAMPLES_NEEDED <=? _)%nat; [| intros [= <- _]; exact Hb].
  destruct (commitStep _) as [[st2 ev2] |] eqn:Hc; [| discriminate].
  intros [= <- _]. refine (commitStep_bounded _ _ _ _ Hc). exact Hb.
Qed.

Lemma step_bounded (st st' : State) (c : Call) (events : list Event) :
  boundedData (data st) -> boundedCall c ->
  step st c = Some (st', events) ->
  boundedData (data st').
Proof.
  intros Hb Hc. destruct c as [read u k | | name score |]; cbn [step].
  - unfold startCalibration. destruct (isRunning st).
    + intros [= <- _]. exact Hb.
    + intros [= <- _]. cbn [data]. destruct read; cbn; try exact Hb.
      * exact Hc.
      * intros k0 e. rewrite lookup_empty. discriminate.
  - intros [= <- _]. exact Hb.
  - apply feedSample_bounded. exact Hb.
  - intros [= <- _]. cbn. intros k0 e. rewrite lookup_empty. discriminate.
Qed.

Lemma run_bounded (calls : list Call) :
  forall st st',
    boundedData (data st) -> Forall boundedCall calls ->
    run st calls = Some st' ->
    boundedData (data st').
Proof.
  induction calls as [| c rest IH]; intros st st' Hb Hall; cbn [run].
  - intros [= <-]. exact Hb.
  - destruct (step st c) as [[st1 ev] |] eqn:Hs; [| discriminate].
    inversion Hall as [| ? ? Hc Hrest]; subst.
    apply (IH st1 st' (step_bounded _ _ _ _ Hb Hc Hs) Hrest).
Qed.

(** X17: when whatever was read from the storage holds bonuses between -1.5
    and 1.5 (as everything [_commitStep] stores does), then after any
    sequence of calls the bonus of every sign lies between -1.5 and 1.5, so
    [applyBonus] moves a score by at most 1.5. *)
Theorem calibration_bonus_is_bounded (read : Stored) (calls : list Call)
    (st : State) (sign : string) (rawScore : R) :
  boundedStored read ->
  Forall boundedCall calls ->
  run (initial read) calls = Some st ->
  -1.5 <= getBonusFor st sign <= 1.5
  /\ rawScore - 1.5 <= applyBonus st sign rawScore <= rawScore + 1.5.
Proof.
  intros Hread Hcalls Hrun.
  assert (Hinit : boundedData (data (initial read))).
  { unfold initial. destruct read; cbn; try exact Hread;
      intros k e; rewrite lookup_empty; discriminate. }
  pose proof (run_bounded calls _ _ Hinit Hcalls Hrun) as Hb.
  assert (Hg : -1.5 <= getBonusFor st sign <= 1.5).
  { unfold getBonusFor. destruct (data st !! sign) as [e |] eqn:E.
    - exact (Hb sign e E).
    - lra. }
  split; [exact Hg |]. unfold applyBonus. lra.
Qed.

Lemma calibration_bonus_is_bounded_witness :
  -1.5 <= getBonusFor
            (mkState {["A" := mkEntry 1 7.5 15]} false 0 [] true true) "A"
       <= 1.5
  /\ 8 - 1.5
     <= applyBonus
          (mkState {["A" := mkEntry 1 7.5 15]} false 0 [] true true) "A" 8
     <= 8 + 1.5.
Proof.
  apply (calibration_bonus_is_bounded Missing
           [Start (Parsed {["A" := mkEntry 1 7.5 15]}) true true; Stop]).
  - exact I.
  - constructor; [| constructor; [exact I | constructor]].
    intros k e0 Hk.
    apply lookup_singleton_Some in Hk as [_ <-]. cbn. lra.
  - reflexivity.
Defined.

(** X18: while the sequence runs, a detection of another sign, or one whose
    score is not above 5, changes nothing and announces nothing; a
    detection of the expected sign with a score above 5 adds exactly one to
    the number of accepted samples, and the sequence stops running exactly
    when that number reaches 150. *)
Theorem only_accepted_samples_advance (st : State) (name expected : string)
    (score : R) :
  invariant st ->
  currentSign st = Some expected ->
  exists st' events,
    feedSample st name score = Some (st', events)
    /\ (name = expected -> 5 < score ->
        progress st' = S (progress st)
        /\ (isRunning st' = false <-> progress st' = 150%nat))
    /\ (name <> expected \/ score <= 5 -> st' = st /\ events = []).
Proof.
  intros (Hstep & Hlen & Hall) Hcur. unfold currentSign in Hcur.
  destruct (isRunning st) eqn:Hrun; [| discriminate].
  specialize (Hstep eq_refl). rewrite sequence_length in Hstep.
  destruct (nth_error CALIB_SEQUENCE (stepIndex st)) as [[sign hint] |] eqn:E;
    [| discriminate].
  cbn in Hcur. injection Hcur as ->.
  destruct (String.eqb_spec name expected) as [-> | Hne].
  2: { exists st, []. unfold feedSample. rewrite Hrun, E. cbn [negb].
       replace (name =? expected)%string with false
         by (symmetry; apply String.eqb_neq; exact Hne).
       cbn [andb]. split; [reflexivity |].
       split; [intros Heq; contradiction | auto]. }
  destruct (Rlt_dec 5 score) as [Hs | Hs].
  2: { exists st, []. unfold feedSample. rewrite Hrun, E. cbn [negb].
       unfold Rgtb. rewrite Rltb_false by lra.
       rewrite andb_false_r. split; [reflexivity |].
       split; [intros _ H5; lra | auto]. }
  unfold SAMPLES_NEEDED in Hlen.
  destruct (Nat.eq_dec (S (length (sampleBuf st))) SAMPLES_NEEDED) as [H15 | H15].
  - destruct (feed_commits st expected hint score Hrun E Hs H15) as (ev & ->).
    eexists _, _. split; [reflexivity |]. split.
    + intros _ _. unfold progress, SAMPLES_NEEDED in *.
      cbn [stepIndex sampleBuf isRunning length].
      split; [lia |]. rewrite sequence_length.
      destruct (Nat.leb_spec 10 (S (stepIndex st))); cbn [negb]; split;
        try discriminate; try reflexivity; lia.
    + intros [Hn | H5]; [contradiction | lra].
  - assert (Hlt : (S (length (sampleBuf st)) < SAMPLES_NEEDED)%nat)
      by (unfold SAMPLES_NEEDED in *; lia).
    destruct (feed_buffered st expected hint score Hrun E Hs Hlt) as (ev & ->).
    eexists _, _. split; [reflexivity |]. split.
    + intros _ _. unfold progress, SAMPLES_NEEDED in *.
      cbn [stepIndex sampleBuf isRunning].
      rewrite length_app. cbn [length].
      split; [lia |]. split; [discriminate | lia].
    + intros [Hn | H5]; [contradiction | lra].
Qed.

Lemma only_accepted_samples_advance_witness :
  exists st' events,
    feedSample (mkState ∅ true 0 [] false false) "A" 8 = Some (st', events)
    /\ ("A" = "A" -> 5 < 8 ->
        progress st' = S (progress (mkState ∅ true 0 [] false false))
        /\ (isRunning st' = false <-> progress st' = 150%nat))
    /\ ("A" <> "A" \/ 8 <= 5 ->
        st' = mkState ∅ true 0 [] false false /\ events = []).
Proof.
  apply (only_accepted_samples_advance
           (mkState ∅ true 0 [] false false) "A" "A" 8).
  - unfold invariant, SAMPLES_NEEDED. cbn.
    split; [intros _; lia | split; [lia | constructor]].
  - reflexivity.
Defined.

(** X19: the fifteenth accepted sample of a step stores, under the step's
    sign, the mean of the fifteen samples (which is above 5), the count 15
    and a bonus between -1.5 and 1.5; for a mean between 7 and 10 the
    bonus lifts that mean to exactly 8.5.  The entries of the other signs
    stay as they were and the buffer is emptied. *)
Theorem finished_step_records_the_mean (st : State) (sign : string)
    (score : R) :
  invariant st ->
  currentSign st = Some sign ->
  length (sampleBuf st) = 14%nat ->
  5 < score ->
  exists st' events e,
    feedSample st sign score = Some (st', events)
    /\ data st' !! sign = Some e
    /\ samples e = 15%nat
    /\ avg e = (total (sampleBuf st) + score) / 15
    /\ 5 < avg e
    /\ -1.5 <= bonus e <= 1.5
    /\ (7 <= avg e <= 10 -> avg e + bonus e = 8.5)
    /\ (forall other, other <> sign -> data st' !! other = data st !! other)
    /\ sampleBuf st' = []
    /\ stepIndex st' = S (stepIndex st).
Proof.
  intros (Hstep & Hlen & Hall) Hcur Hbuf Hs. unfold currentSign in Hcur.
  destruct (isRunning st) eqn:Hrun; [| discriminate].
  destruct (nth_error CALIB_SEQUENCE (stepIndex st)) as [[sign' hint] |] eqn:E;
    [| discriminate].
  cbn in Hcur. injection Hcur as ->.
  assert (H15 : S (length (sampleBuf st)) = SAMPLES_NEEDED)
    by (unfold SAMPLES_NEEDED; lia).
  destruct (feed_commits st sign hint score Hrun E Hs H15) as (ev & ->).
  pose proof (total_above _ Hall) as Hsum. rewrite Hbuf in Hsum.
  replace (INR 14) with 14 in Hsum by (cbn; lra).
  eexists _, _, _. split; [reflexivity |]. cbn [data sampleBuf stepIndex].
  split; [apply lookup_insert_eq |]. cbn [samples avg bonus].
  split; [reflexivity |]. split; [reflexivity |].
  split; [lra |]. split; [apply clamp_bounds |].
  split.
  { intros [H7 H10]. unfold Rmax, Rmin.
    repeat destruct (Rle_dec _ _); lra. }
  split; [| split; reflexivity].
  intros other Hother. apply lookup_insert_ne. congruence.
Qed.

Lemma finished_step_records_the_mean_witness :
  exists st' events e,
    feedSample (mkState ∅ true 0 (replicate 14 8) false false) "A" 8
    = Some (st', events)
    /\ data st' !! "A" = Some e
    /\ samples e = 15%nat
    /\ avg e = (total (replicate 14 8) + 8) / 15
    /\ 5 < avg e
    /\ -1.5 <= bonus e <= 1.5
    /\ (7 <= avg e <= 10 -> avg e + bonus e = 8.5)
    /\ (forall other, other <> "A" ->
        data st' !! other = (∅ : Data) !! other)
    /\ sampleBuf st' = []
    /\ stepIndex st' = 1%nat.
Proof.
  apply (finished_step_records_the_mean
           (mkState ∅ true 0 (replicate 14 8) false false) "A" 8).
  - unfold invariant, SAMPLES_NEEDED. cbn.
    split; [intros _; lia | split; [lia |]].
    repeat constructor; lra.
  - reflexivity.
  - reflexivity.
  - lra.
Defined.

End CalibrationEntries.




(** ** Calibration: a whole course *)

Section CalibrationCourse.
Import Calibration.







End CalibrationCourse.




(** ** Analytics: what the session records *)

Section AnalyticsRecords.
Import Analytics.

Lemma dict_get_set_eq {V : Type} (d : list (string * V)) (k : string)
    (v : V) :
  Dict.get (Dict.set d k v) k = Some v.
Proof.
  induction d as [| [k' v'] d IH]; cbn [Dict.set Dict.get].
  - rewrite String.eqb_refl. reflexivity.
  - destruct (String.eqb k' k) eqn:E; cbn [Dict.get]; rewrite E;
      [reflexivity | exact IH].
Qed.

Lemma dict_get_set_ne {V : Type} (d : list (string * V)) (k k' : string)
    (v : V) :
  k' <> k -> Dict.get (Dict.set d k v) k' = Dict.get d k'.
Proof.
  intros Hne. induction d as [| [k0 v0] d IH]; cbn [Dict.set Dict.get].
  - replace (k =? k')%string with false
      by (symmetry; apply String.eqb_neq; congruence).
    reflexivity.
  - destruct (String.eqb_spec k0 k) as [-> | Hk]; cbn [Dict.get].
    + replace (k =? k')%string with false
        by (symmetry; apply String.eqb_neq; congruence).
      reflexivity.
    + rewrite IH. reflexivity.
Qed.

Lemma dict_get_map {V : Type} (g : V -> V) (name : string)
    (d : list (string * V)) (n : string) :
  Dict.get
    (map (fun e : string * V =>
            if String.eqb e.1 name then e else (e.1, g e.2)) d) n
  = if String.eqb n name then Dict.get d n
    else option_map g (Dict.get d n).
Proof.
  induction d as [| [k v] d IH]; cbn [map Dict.get fst snd].
  - destruct (String.eqb n name); reflexivity.
  - destruct (String.eqb_spec k name) as [-> | Hk]; cbn [Dict.get].
    + destruct (String.eqb_spec name n) as [<- | Hn].
      * rewrite String.eqb_refl. reflexivity.
      * exact IH.
    + destruct (String.eqb_spec k n) as [<- | Hn].
      * replace (k =? name)%string with false
          by (symmetry; apply String.eqb_neq; exact Hk).
        reflexivity.
      * exact IH.
Qed.

(** The entry of every sign after [recordSign]. *)
Lemma recordSign_get (session : Session) (name : string) (confidence : R)
    (ts : Z) (n : string) :
  Dict.get (signs (recordSign session name confidence ts)) n
  = if String.eqb n name then
      match Dict.get (signs session) name with
      | Some s =>
          Some (Sign.mk (S (Sign.count s)) (Sign.totalConf s + confidence)
                  (Rmax (Sign.bestConf s) confidence) (S (Sign.streak s))
                  (Sign.firstSeen s))
      | None =>
          if inherited name then None
          else Some (Sign.mk 1 (0 + confidence) (Rmax 0 confidence) 1 ts)
      end
    else
      option_map
        (fun s => Sign.mk (Sign.count s) (Sign.totalConf s) (Sign.bestConf s)
                    0 (Sign.firstSeen s))
        (Dict.get (signs session) n).
Proof.
  unfold recordSign. cbn [signs].
  match goal with
  | |- Dict.get (map _ ?d) _ = _ =>
      pose proof (dict_get_map
                    (fun s => Sign.mk (Sign.count s) (Sign.totalConf s)
                                (Sign.bestConf s) 0 (Sign.firstSeen s))
                    name d n) as Hmap
  end.
  cbn beta in Hmap. rewrite Hmap. clear Hmap.
  destruct (String.eqb_spec n name) as [-> | Hne].
  - destruct (Dict.get (signs session) name) as [s |] eqn:E.
    + rewrite E, dict_get_set_eq. reflexivity.
    + destruct (inherited name).
      * rewrite E. exact E.
      * rewrite !dict_get_set_eq. reflexivity.
  - destruct (Dict.get (signs session) name) as [s |] eqn:E.
    + rewrite E, dict_get_set_ne by exact Hne. reflexivity.
    + destruct (inherited name).
      * rewrite E. reflexivity.
      * rewrite dict_get_set_eq, !dict_get_set_ne by exact Hne. reflexivity.
Qed.

Lemma recordSign_streak (session : Session) (name : string) (confidence : R)
    (ts : Z) (n : string) :
  inherited n = false ->
  getStreak (recordSign session name confidence ts) n
  = if String.eqb name n then S (getStreak session n) else 0%nat.
Proof.
  intros Hn. unfold getStreak. rewrite recordSign_get.
  rewrite (String.eqb_sym name n).
  destruct (String.eqb_spec n name) as [<- | Hne].
  - rewrite Hn. destruct (Dict.get (signs session) n); reflexivity.
  - destruct (Dict.get (signs session) n); reflexivity.
Qed.

Lemma recordSign_count (session : Session) (name : string) (confidence : R)
    (ts : Z) (n : string) :
  inherited n = false ->
  countOf (recordSign session name confidence ts) n
  = if String.eqb name n then S (countOf session n) else countOf session n.
Proof.
  intros Hn. unfold countOf. rewrite recordSign_get.
  rewrite (String.eqb_sym name n).
  destruct (String.eqb_spec n name) as [<- | Hne].
  - rewrite Hn. destruct (Dict.get (signs session) n); reflexivity.
  - destruct (Dict.get (signs session) n); reflexivity.
Qed.

Lemma run_streak_count (calls : list Call) (name : string) :
  inherited name = false ->
  forall session,
    getStreak (run session calls) name
    = recentRun name calls (getStreak session name)
    /\ countOf (run session calls) name
       = recorded name calls (countOf session name).
Proof.
  intros Hname. unfold run.
  induction calls as [| c rest IH]; intros session;
    cbn [fold_left recentRun recorded].
  - split; reflexivity.
  - destruct (IH (step session c)) as [Hs Hc]. rewrite Hs, Hc.
    destruct c as [n conf ts | sentence ts | now]; cbn [step].
    + rewrite recordSign_streak, recordSign_count by exact Hname.
      split; reflexivity.
    + split; reflexivity.
    + split; reflexivity.
Qed.

(** The name of an inherited member never gets an entry. *)
Lemma run_no_member (calls : list Call) (name : string) :
  inherited name = true ->
  forall session,
    Dict.get (signs session) name = None ->
    Dict.get (signs (run session calls)) name = None.
Proof.
  intros Hname. unfold run.
  induction calls as [| c rest IH]; intros session Hget; cbn [fold_left];
    [exact Hget |].
  apply IH. destruct c as [n conf ts | sentence ts | now]; cbn [step].
  - rewrite recordSign_get.
    destruct (String.eqb_spec name n) as [<- | Hne].
    + rewrite Hget, Hname. reflexivity.
    + rewrite Hget. reflexivity.
  - exact Hget.
  - reflexivity.
Qed.

Lemma recentRun_le_recorded (name : string) (calls : list Call) :
  forall a b, (a <= b)%nat ->
    (recentRun name calls a <= recorded name calls b)%nat.
Proof.
  induction calls as [| c rest IH]; intros a b Hab;
    cbn [recentRun recorded].
  - exact Hab.
  - destruct c as [n conf ts | sentence ts | now].
    + apply IH. destruct (String.eqb n name); lia.
    + apply IH. exact Hab.
    + apply IH. lia.
Qed.

(** X21: in a session that any sequence of calls has led to, the streak
    of a sign whose name is not an inherited member's is the number of
    times it was recorded in a row most recently (0 when the last recorded
    sign is another one, or after a reset); its count is the number of
    times it was recorded since the last reset; the streak never exceeds
    the count.  The name of an inherited member has no entry, whatever was
    recorded: its streak and its count are 0. *)
Theorem streak_is_the_recent_run (now : Z) (calls : list Call)
    (name : string) :
  (inherited name = false ->
   getStreak (run (initial now) calls) name = recentRun name calls 0
   /\ countOf (run (initial now) calls) name = recorded name calls 0
   /\ (getStreak (run (initial now) calls) name
       <= countOf (run (initial now) calls) name)%nat)
  /\ (inherited name = true ->
      Dict.get (signs (run (initial now) calls)) name = None
      /\ getStreak (run (initial now) calls) name = 0%nat
      /\ countOf (run (initial now) calls) name = 0%nat).
Proof.
  split.
  - intros Hname.
    destruct (run_streak_count calls name Hname (initial now)) as [Hs Hc].
    rewrite Hs, Hc. change (getStreak (initial now) name) with 0%nat.
    change (countOf (initial now) name) with 0%nat.
    split; [reflexivity | split; [reflexivity |]].
    apply recentRun_le_recorded. lia.
  - intros Hname.
    pose proof (run_no_member calls name Hname (initial now) eq_refl) as Hget.
    unfold getStreak, countOf. rewrite Hget. repeat split.
Qed.

Lemma streak_is_the_recent_run_witness :
  (getStreak
     (run (initial 0)
        [RecordSign "A" 90 1; RecordSign "B" 80 2; RecordSign "B" 85 3]) "B"
   = 2%nat
   /\ countOf
        (run (initial 0)
           [RecordSign "A" 90 1; RecordSign "B" 80 2; RecordSign "B" 85 3])
        "B"
      = 2%nat
   /\ (getStreak
         (run (initial 0)
            [RecordSign "A" 90 1; RecordSign "B" 80 2; RecordSign "B" 85 3])
         "B"
       <= countOf
            (run (initial 0)
               [RecordSign "A" 90 1; RecordSign "B" 80 2;
                RecordSign "B" 85 3]) "B")%nat)
  /\ (Dict.get
        (signs (run (initial 0)
                  [RecordSign "constructor" 90 1; RecordSign "B" 80 2]))
        "constructor" = None
      /\ getStreak
           (run (initial 0)
              [RecordSign "constructor" 90 1; RecordSign "B" 80 2])
           "constructor" = 0%nat
      /\ countOf
           (run (initial 0)
              [RecordSign "constructor" 90 1; RecordSign "B" 80 2])
           "constructor" = 0%nat).
Proof.
  split.
  - apply (streak_is_the_recent_run 0
             [RecordSign "A" 90 1; RecordSign "B" 80 2; RecordSign "B" 85 3]
             "B").
    reflexivity.
  - apply (streak_is_the_recent_run 0
             [RecordSign "constructor" 90 1; RecordSign "B" 80 2]
             "constructor").
    reflexivity.
Defined.

End AnalyticsRecords.




(** ** Analytics: totals and the most used sign *)

Section AnalyticsTotals.
Import Analytics.

Lemma dict_get_None_keys {V : Type} (d : list (string * V)) (k : string) :
  Dict.get d k = None <-> ~ In k (map fst d).
Proof.
  induction d as [| [k' v'] d IH]; cbn [Dict.get map In fst].
  - tauto.
  - destruct (String.eqb_spec k' k) as [-> | Hne].
    + split; [discriminate | intros H; exfalso; apply H; left; reflexivity].
    + rewrite IH. tauto.
Qed.

Lemma dict_get_In {V : Type} (d : list (string * V)) (k : string) (v : V) :
  Dict.get d k = Some v -> In (k, v) d.
Proof.
  induction d as [| [k' v'] d IH]; cbn [Dict.get In]; [discriminate |].
  destruct (String.eqb_spec k' k) as [-> | Hne].
  - intros [= ->]. left; reflexivity.
  - intros H. right. exact (IH H).
Qed.

Lemma dict_In_get {V : Type} (d : list (string * V)) (k : string) (v : V) :
  NoDup (map fst d) -> In (k, v) d -> Dict.get d k = Some v.
Proof.
  induction d as [| [k' v'] d IH]; cbn [map fst Dict.get In]; [tauto |].
  intros Hnd [Heq | Hin].
  - injection Heq as -> ->. rewrite String.eqb_refl. reflexivity.
  - apply NoDup_cons in Hnd as [Hnot Hnd].
    destruct (String.eqb_spec k' k) as [-> | Hne].
    + exfalso. apply Hnot. apply list_elem_of_In.
      apply (in_map fst) in Hin. exact Hin.
    + exact (IH Hnd Hin).
Qed.

Lemma dict_set_keys {V : Type} (d : list (string * V)) (k : string) (v : V) :
  map fst (Dict.set d k v)
  = match Dict.get d k with
    | Some _ => map fst d
    | None => map fst d ++ [k]
    end.
Proof.
  induction d as [| [k' v'] d IH]; cbn [Dict.set Dict.get map fst app].
  - reflexivity.
  - destruct (String.eqb k' k); cbn [map fst].
    + reflexivity.
    + rewrite IH. destruct (Dict.get d k); reflexivity.
Qed.

Lemma dict_set_Forall {V : Type} (P : V -> Prop) (d : list (string * V))
    (k : string) (v : V) :
  Forall (fun e : string * V => P e.2) d -> P v ->
  Forall (fun e : string * V => P e.2) (Dict.set d k v).
Proof.
  intros Hd Hv. induction Hd as [| [k' v'] d Hx Hd IH]; cbn [Dict.set].
  - constructor; [exact Hv | constructor].
  - destruct (String.eqb k' k); constructor; assumption.
Qed.

Lemma dict_set_set {V : Type} (d : list (string * V)) (k : string)
    (v0 v : V) :
  Dict.set (Dict.set d k v0) k v = Dict.set d k v.
Proof.
  induction d as [| [k' v'] d IH]; cbn [Dict.set].
  - rewrite String.eqb_refl. reflexivity.
  - destruct (String.eqb k' k) eqn:E; cbn [Dict.set]; rewrite E.
    + reflexivity.
    + rewrite IH. reflexivity.
Qed.

Lemma countSum_set (d : list (string * Sign.t)) (k : string) (v : Sign.t) :
  (countSum (Dict.set d k v)
   + match Dict.get d k with Some old => Sign.count old | None => 0 end
   = countSum d + Sign.count v)%nat.
Proof.
  induction d as [| [k' v'] d IH];
    cbn [Dict.set Dict.get countSum fold_right snd].
  - lia.
  - destruct (String.eqb k' k); cbn [countSum fold_right snd].
    + lia.
    + fold (countSum (Dict.set d k v)). fold (countSum d). lia.
Qed.

Lemma confSumOf_set (d : list (string * Sign.t)) (k : string) (v : Sign.t) :
  confSumOf (Dict.set d k v)
  + match Dict.get d k with Some old => Sign.totalConf old | None => 0 end
  = confSumOf d + Sign.totalConf v.
Proof.
  induction d as [| [k' v'] d IH];
    cbn [Dict.set Dict.get confSumOf fold_right snd].
  - lra.
  - destruct (String.eqb k' k); cbn [confSumOf fold_right snd].
    + lra.
    + fold (confSumOf (Dict.set d k v)). fold (confSumOf d). lra.
Qed.

(** The loop of [recordSign] that clears the other streaks keeps keys,
    counts and confidence sums. *)
Lemma clear_streaks (name : string) (d : list (string * Sign.t)) :
  let d' :=
    map (fun e : string * Sign.t =>
           if String.eqb e.1 name then e
           else (e.1, Sign.mk (Sign.count e.2) (Sign.totalConf e.2)
                        (Sign.bestConf e.2) 0 (Sign.firstSeen e.2))) d in
  map fst d' = map fst d
  /\ countSum d' = countSum d
  /\ confSumOf d' = confSumOf d
  /\ (Forall (fun e : string * Sign.t => (1 <= Sign.count e.2)%nat) d ->
      Forall (fun e : string * Sign.t => (1 <= Sign.count e.2)%nat) d').
Proof.
  induction d as [| [k v] d (Hk & Hc & Hf & Hall)]; cbn zeta.
  - repeat split. intros _. constructor.
  - cbn zeta in Hk, Hc, Hf, Hall.
    cbn [map fst snd countSum confSumOf fold_right].
    fold (countSum d). fold (confSumOf d).
    destruct (String.eqb k name); cbn [fst snd Sign.count Sign.totalConf].
    + rewrite Hk. repeat split.
      * f_equal. exact Hc.
      * f_equal. exact Hf.
      * intros H. inversion H; subst. constructor; [assumption | auto].
    + rewrite Hk. repeat split.
      * f_equal. exact Hc.
      * f_equal. exact Hf.
      * intros H. inversion H; subst. constructor; [assumption | auto].
Qed.

Lemma filter_length_le {A : Type} (f : A -> bool) (l : list A) :
  (length (List.filter f l) <= length l)%nat.
Proof.
  induction l as [| x l IH]; cbn [List.filter length]; [lia |].
  destruct (f x); cbn [length]; lia.
Qed.

Lemma signEvents_snoc (events : list Event) (e : Event) :
  signEvents (events ++ [e])
  = (signEvents events
     + match e with SignEvent _ _ _ => 1 | _ => 0 end)%nat.
Proof.
  unfold signEvents. rewrite List.filter_app, length_app.
  destruct e; reflexivity.
Qed.

(** What [recordSign] does to the entries: the sign it counts has an entry
    before the call or gets one, unless its name is an inherited member's,
    and then nothing is counted in the entries. *)
Lemma recordSign_signs (session : Session) (name : string)
    (confidence : R) (ts : Z) :
  NoDup (map fst (signs session)) ->
  Forall (fun e : string * Sign.t => (1 <= Sign.count e.2)%nat)
    (signs session) ->
  let signs' := signs (recordSign session name confidence ts) in
  NoDup (map fst signs')
  /\ Forall (fun e : string * Sign.t => (1 <= Sign.count e.2)%nat) signs'
  /\ (inherited name = false ->
      countSum signs' = S (countSum (signs session))
      /\ confSumOf signs' = confSumOf (signs session) + confidence)
  /\ (countSum signs' <= S (countSum (signs session)))%nat.
Proof.
  intros Hnd Hpos. cbn zeta. unfold recordSign. cbn [signs].
  set (signs1 := match Dict.get (signs session) name with
                 | Some _ => signs session
                 | None =>
                     if inherited name then signs session
                     else Dict.set (signs session) name (Sign.mk 0 0 0 0 ts)
                 end).
  assert (H1 : (exists s,
                   Dict.get signs1 name = Some s
                   /\ NoDup (map fst signs1)
                   /\ countSum signs1 = countSum (signs session)
                   /\ confSumOf signs1 = confSumOf (signs session)
                   /\ forall v, (1 <= Sign.count v)%nat ->
                        Forall (fun e : string * Sign.t =>
                                  (1 <= Sign.count e.2)%nat)
                          (Dict.set signs1 name v))
               \/ (Dict.get signs1 name = None /\ signs1 = signs session
                   /\ inherited name = true)).
  { subst signs1. destruct (Dict.get (signs session) name) as [s |] eqn:E.
    - left. exists s. repeat split; try assumption.
      intros v Hv.
      apply (dict_set_Forall (fun s => (1 <= Sign.count s)%nat)); assumption.
    - destruct (inherited name) eqn:Einh.
      { right. repeat split. exact E. }
      left. exists (Sign.mk 0 0 0 0 ts). split; [apply dict_get_set_eq |].
      split.
      { rewrite dict_set_keys, E. apply NoDup_app. split; [exact Hnd |].
        split; [| apply NoDup_singleton].
        intros k Hk Hk'. apply list_elem_of_singleton in Hk'. subst k.
        apply dict_get_None_keys in E. apply E. apply list_elem_of_In.
        exact Hk. }
      split.
      { pose proof (countSum_set (signs session) name (Sign.mk 0 0 0 0 ts))
          as H. rewrite E in H. cbn [Sign.count] in H. lia. }
      split.
      { pose proof (confSumOf_set (signs session) name (Sign.mk 0 0 0 0 ts))
          as H. rewrite E in H. cbn [Sign.totalConf] in H. lra. }
      intros v Hv. rewrite dict_set_set.
      apply (dict_set_Forall (fun s => (1 <= Sign.count s)%nat)); assumption. }
  destruct H1 as [(s & Hget & Hnd1 & Hc1 & Hf1 & Hall1) | (Hget & H1 & Hinh)];
    rewrite Hget.
  - set (v := Sign.mk (S (Sign.count s)) (Sign.totalConf s + confidence)
                (Rmax (Sign.bestConf s) confidence) (S (Sign.streak s))
                (Sign.firstSeen s)).
    destruct (clear_streaks name (Dict.set signs1 name v))
      as (Hk & Hc & Hf & Hall).
    cbn zeta in Hk, Hc, Hf, Hall.
    rewrite Hk, Hc, Hf.
    pose proof (countSum_set signs1 name v) as Hcs. rewrite Hget in Hcs.
    pose proof (confSumOf_set signs1 name v) as Hfs. rewrite Hget in Hfs.
    subst v. cbn [Sign.count Sign.totalConf] in Hcs, Hfs.
    split. { rewrite dict_set_keys, Hget. exact Hnd1. }
    split. { apply Hall. apply Hall1. cbn [Sign.count]. lia. }
    split. { intros _. split; [lia | lra]. }
    lia.
  - destruct (clear_streaks name signs1) as (Hk & Hc & Hf & Hall).
    cbn zeta in Hk, Hc, Hf, Hall.
    rewrite Hk, Hc, Hf, H1.
    split; [exact Hnd |]. split; [rewrite H1 in Hall; exact (Hall Hpos) |].
    split; [intros Hown; rewrite Hown in Hinh; discriminate | lia].
Qed.

Lemma recordSign_consistent (session : Session) (name : string)
    (confidence : R) (ts : Z) :
  inherited name = false ->
  consistent session -> consistent (recordSign session name confidence ts).
Proof.
  intros Hown (Hnd & Hpos & Htot & Hconf & Hev & Hwpm).
  destruct (recordSign_signs session name confidence ts Hnd Hpos)
    as (Hnd' & Hpos' & Hsum & _).
  cbn zeta in Hnd', Hpos', Hsum. destruct (Hsum Hown) as [Hc Hf].
  unfold consistent. split; [exact Hnd' |]. split; [exact Hpos' |].
  rewrite Hc, Hf. unfold recordSign.
  cbn [signs totalDetected totalConf events wpmSamples].
  split. { lia. }
  split. { lra. }
  split. { rewrite signEvents_snoc, Hev. lia. }
  pose proof (filter_length_le (fun t => (ts - 60000 <? t)%Z)
                (wpmSamples session ++ [ts])) as Hlen.
  rewrite length_app in Hlen. cbn [length] in Hlen. lia.
Qed.

Lemma run_consistent (calls : list Call) :
  Forall recordsOwnName calls ->
  forall session, consistent session -> consistent (run session calls).
Proof.
  unfold run.
  induction 1 as [| c rest Hc Hrest IH]; intros session Hs; cbn [fold_left].
  - exact Hs.
  - apply IH. destruct c as [n conf ts | sentence ts | now]; cbn [step].
    + apply recordSign_consistent; [exact Hc | exact Hs].
    + destruct Hs as (Hnd & Hpos & Htot & Hconf & Hev & Hwpm).
      unfold consistent, recordSpeech.
      cbn [signs totalDetected totalConf events wpmSamples].
      rewrite signEvents_snoc. repeat split; try assumption. lia.
    + unfold consistent, resetSession. cbn.
      repeat split; try constructor.
Qed.

Lemma initial_consistent (now : Z) : consistent (initial now).
Proof.
  unfold consistent, initial. cbn. repeat split; try constructor.
Qed.

(** What holds of the entries whatever names were recorded. *)
Lemma run_entries (calls : list Call) :
  forall session,
    NoDup (map fst (signs session)) ->
    Forall (fun e : string * Sign.t => (1 <= Sign.count e.2)%nat)
      (signs session) ->
    (countSum (signs session) <= totalDetected session)%nat ->
    signEvents (events session) = totalDetected session ->
    (length (wpmSamples session) <= totalDetected session)%nat ->
    let session' := run session calls in
    NoDup (map fst (signs session'))
    /\ Forall (fun e : string * Sign.t => (1 <= Sign.count e.2)%nat)
         (signs session')
    /\ (countSum (signs session') <= totalDetected session')%nat
    /\ signEvents (events session') = totalDetected session'
    /\ (length (wpmSamples session') <= totalDetected session')%nat.
Proof.
  unfold run.
  induction calls as [| c rest IH]; intros session Hnd Hpos Hsum Hev Hwpm;
    cbn zeta; cbn [fold_left].
  - repeat split; assumption.
  - destruct c as [n conf ts | sentence ts | now]; cbn [step].
    + destruct (recordSign_signs session n conf ts Hnd Hpos)
        as (Hnd' & Hpos' & _ & Hle).
      cbn zeta in Hnd', Hpos', Hle.
      apply IH; try assumption.
      * unfold recordSign at 2. cbn [totalDetected]. lia.
      * unfold recordSign. cbn [events totalDetected].
        rewrite signEvents_snoc, Hev. lia.
      * unfold recordSign. cbn [wpmSamples totalDetected].
        pose proof (filter_length_le (fun t => (ts - 60000 <? t)%Z)
                      (wpmSamples session ++ [ts])) as Hlen.
        rewrite length_app in Hlen. cbn [length] in Hlen. lia.
    + apply IH; unfold recordSpeech;
        cbn [signs totalDetected events wpmSamples]; try assumption.
      rewrite signEvents_snoc, Hev. lia.
    + apply IH; unfold resetSession; cbn; try constructor.
Qed.

Lemma initial_entries (now : Z) (calls : list Call) :
  let session := run (initial now) calls in
  NoDup (map fst (signs session))
  /\ Forall (fun e : string * Sign.t => (1 <= Sign.count e.2)%nat)
       (signs session)
  /\ (countSum (signs session) <= totalDetected session)%nat
  /\ signEvents (events session) = totalDetected session
  /\ (length (wpmSamples session) <= totalDetected session)%nat.
Proof.
  apply run_entries; cbn; try constructor.
Qed.



End AnalyticsTotals.




(** ** Analytics: rankings *)

Section AnalyticsRankings.
Import Analytics.

Lemma insertByIndex_perm {V : Type} (e : string * V)
    (l : list (string * V)) :
  Permutation (Dict.insertByIndex e l) (e :: l).
Proof.
  induction l as [| e' l IH]; cbn [Dict.insertByIndex].
  - reflexivity.
  - destruct (Dict.indexOf e <? Dict.indexOf e')%N; [reflexivity |].
    rewrite IH. apply perm_swap.
Qed.

Lemma entries_perm {V : Type} (d : list (string * V)) :
  Permutation (Dict.entries d) d.
Proof.
  unfold Dict.entries.
  assert (Hsorted : forall l : list (string * V),
             Permutation (foldr Dict.insertByIndex [] l) l).
  { induction l as [| e l IH]; cbn [foldr]; [reflexivity |].
    rewrite insertByIndex_perm, IH. reflexivity. }
  rewrite Hsorted. clear Hsorted.
  induction d as [| e d IH]; cbn [List.filter]; [reflexivity |].
  destruct (Dict.isIndex e); cbn [negb app].
  - rewrite IH. reflexivity.
  - rewrite <- Permutation_middle, IH. reflexivity.
Qed.

Lemma mostUsed_fold (l : list (string * Sign.t)) :
  forall acc : option string * nat,
    let r :=
      fold_left
        (fun (acc : option string * nat) (e : string * Sign.t) =>
           if (acc.2 <? Sign.count e.2)%nat then (Some e.1, Sign.count e.2)
           else acc) l acc in
    (acc.2 <= r.2)%nat
    /\ (forall e, In e l -> (Sign.count e.2 <= r.2)%nat)
    /\ (r = acc \/ exists e, In e l /\ r = (Some e.1, Sign.count e.2)).
Proof.
  induction l as [| x l IH]; intros acc; cbn zeta; cbn [fold_left].
  - split; [lia |]. split; [intros e [] | left; reflexivity].
  - destruct (Nat.ltb_spec acc.2 (Sign.count x.2)) as [Hlt | Hge].
    + destruct (IH (Some x.1, Sign.count x.2)) as (Hle & Hall & Hor).
      cbn zeta in Hle, Hall, Hor. cbn [snd] in Hle.
      split; [lia |]. split.
      * intros e [<- | Hin]; [exact Hle | exact (Hall e Hin)].
      * right. destruct Hor as [-> | (e & Hin & ->)].
        -- exists x. split; [left; reflexivity | reflexivity].
        -- exists e. split; [right; exact Hin | reflexivity].
    + destruct (IH acc) as (Hle & Hall & Hor).
      cbn zeta in Hle, Hall, Hor.
      split; [exact Hle |]. split.
      * intros e [<- | Hin]; [lia | exact (Hall e Hin)].
      * destruct Hor as [-> | (e & Hin & ->)]; [left; reflexivity |].
        right. exists e. split; [right; exact Hin | reflexivity].
Qed.

(** X23: in a session that any sequence of calls has led to,
    [getMostUsed] answers [null] exactly when no sign has an entry, which,
    when no recorded name is an inherited member's, is exactly when nothing
    has been recorded since the last reset; otherwise it answers a sign
    whose count is at least one and at least the count of every other
    sign. *)
Theorem most_used_has_the_highest_count (now : Z) (calls : list Call) :
  let session := run (initial now) calls in
  (getMostUsed session = None <-> signs session = [])
  /\ (Forall recordsOwnName calls ->
      (getMostUsed session = None <-> totalDetected session = 0%nat))
  /\ forall top,
       getMostUsed session = Some top ->
       (1 <= countOf session top)%nat
       /\ forall name, (countOf session name <= countOf session top)%nat.
Proof.
  cbn zeta.
  destruct (initial_entries now calls) as (Hnd & Hpos & _).
  cbn zeta in Hnd, Hpos.
  assert (Hstrong : Forall recordsOwnName calls ->
                    totalDetected (run (initial now) calls)
                    = countSum (signs (run (initial now) calls))).
  { intros Hown.
    destruct (run_consistent calls Hown _ (initial_consistent now))
      as (_ & _ & Htot & _). exact Htot. }
  set (session := run (initial now) calls) in *.
  pose proof (entries_perm (signs session)) as Hperm.
  rewrite List.Forall_forall in Hpos.
  unfold getMostUsed.
  destruct (mostUsed_fold (Dict.entries (signs session)) (None, 0%nat))
    as (_ & Hall & Hor).
  cbn zeta in Hall, Hor.
  set (r := fold_left _ (Dict.entries (signs session)) (None, 0%nat)) in *.
  assert (Hempty : r.1 = None <-> signs session = []).
  { split.
    - intros Hnone.
      destruct (signs session) as [| e rest] eqn:Es; [reflexivity |].
      exfalso.
      assert (Hin : In e (Dict.entries (e :: rest))).
      { apply (Permutation_in e (Permutation_sym Hperm)). left; reflexivity. }
      pose proof (Hall e Hin) as Hle.
      pose proof (Hpos e (or_introl eq_refl)) as H1.
      destruct Hor as [Hr | (e' & _ & Hr)]; rewrite Hr in *;
        cbn [fst snd] in *; [lia | discriminate].
    - intros Hnil. subst r. rewrite Hnil. reflexivity. }
  split; [exact Hempty |]. split.
  - intros Hown. rewrite Hempty, (Hstrong Hown).
    destruct (signs session) as [| e rest] eqn:Es.
    + split; reflexivity.
    + pose proof (Hpos e (or_introl eq_refl)) as H1.
      cbn [countSum fold_right]. split; [discriminate | lia].
  - intros top Htop.
    destruct Hor as [Hr | (e & Hin & Hr)]; rewrite Hr in *;
      cbn [fst snd] in *; [discriminate |].
    injection Htop as <-.
    assert (Hget : Dict.get (signs session) e.1 = Some e.2).
    { apply dict_In_get; [exact Hnd |].
      apply (Permutation_in _ Hperm) in Hin. destruct e; exact Hin. }
    unfold countOf. rewrite Hget. split.
    + apply Hpos. apply (Permutation_in _ Hperm). exact Hin.
    + intros name. destruct (Dict.get (signs session) name) as [v |] eqn:E;
        [| lia].
      apply dict_get_In in E.
      apply (Permutation_in _ (Permutation_sym Hperm)) in E.
      exact (Hall _ E).
Qed.

Lemma most_used_has_the_highest_count_witness :
  let session :=
    run (initial 0)
      [RecordSign "A" 90 1; RecordSign "B" 80 2; RecordSign "A" 70 3] in
  (getMostUsed session = None <-> totalDetected session = 0%nat)
  /\ (getMostUsed session = Some "A" ->
      (1 <= countOf session "A")%nat
      /\ forall name, (countOf session name <= countOf session "A")%nat).
Proof.
  cbn zeta.
  pose proof (most_used_has_the_highest_count 0
                [RecordSign "A" 90 1; RecordSign "B" 80 2;
                 RecordSign "A" 70 3]) as (_ & Hnone & Htop).
  split.
  - apply Hnone. repeat constructor.
  - apply Htop.
Defined.

Lemma insertByCount_perm {A : Type} (count : A -> nat) (x : A)
    (l : list A) :
  Permutation (insertByCount count x l) (x :: l).
Proof.
  induction l as [| y l IH]; cbn [insertByCount].
  - reflexivity.
  - destruct (count x <=? count y)%nat; [| reflexivity].
    rewrite IH. apply perm_swap.
Qed.

Lemma sortByCount_perm {A : Type} (count : A -> nat) (l : list A) :
  Permutation (sortByCount count l) l.
Proof.
  unfold sortByCount.
  assert (H : forall acc,
             Permutation
               (fold_left (fun acc x => insertByCount count x acc) l acc)
               (acc ++ l)).
  { induction l as [| x l IH]; intros acc; cbn [fold_left].
    - rewrite app_nil_r. reflexivity.
    - rewrite IH, insertByCount_perm. apply Permutation_middle. }
  exact (H []).
Qed.

Lemma insertByCount_desc {A : Type} (count : A -> nat) (x : A)
    (l : list A) :
  descendingCounts (map count l) ->
  descendingCounts (map count (insertByCount count x l)).
Proof.
  induction l as [| y l IH]; cbn [insertByCount map descendingCounts].
  - intros _. split; [constructor | exact I].
  - intros [Hall Hdesc].
    destruct (Nat.leb_spec (count x) (count y)) as [Hle | Hgt];
      cbn [map descendingCounts].
    + split; [| exact (IH Hdesc)].
      assert (Hp : Permutation (map count (insertByCount count x l))
                     (count x :: map count l)).
      { rewrite insertByCount_perm. reflexivity. }
      rewrite Hp. constructor; assumption.
    + split; [| split; assumption].
      constructor; [lia |].
      eapply Forall_impl; [exact Hall |]. cbn beta. intros m Hm. lia.
Qed.

Lemma sortByCount_desc {A : Type} (count : A -> nat) (l : list A) :
  descendingCounts (map count (sortByCount count l)).
Proof.
  unfold sortByCount.
  assert (H : forall acc,
             descendingCounts (map count acc) ->
             descendingCounts
               (map count
                  (fold_left (fun acc x => insertByCount count x acc) l acc))).
  { induction l as [| x l IH]; intros acc Hacc; cbn [fold_left].
    - exact Hacc.
    - apply IH. apply insertByCount_desc. exact Hacc. }
  apply H. exact I.
Qed.

Lemma sortByCount_map {A B : Type} (f : A -> B) (countA : A -> nat)
    (countB : B -> nat) (l : list A) :
  (forall a, countB (f a) = countA a) ->
  sortByCount countB (map f l) = map f (sortByCount countA l).
Proof.
  intros Hc. unfold sortByCount.
  assert (Hins : forall x acc,
             insertByCount countB (f x) (map f acc)
             = map f (insertByCount countA x acc)).
  { intros x acc. induction acc as [| y acc IH]; cbn [insertByCount map].
    - reflexivity.
    - rewrite !Hc. destruct (countA x <=? countA y)%nat; cbn [map].
      + rewrite IH. reflexivity.
      + reflexivity. }
  assert (H : forall acc,
             fold_left (fun acc x => insertByCount countB x acc) (map f l)
               (map f acc)
             = map f (fold_left (fun acc x => insertByCount countA x acc)
                        l acc)).
  { induction l as [| x l IH]; intros acc; cbn [fold_left map].
    - reflexivity.
    - rewrite Hins. apply IH. }
  exact (H []).
Qed.

(** X24: in a session that any sequence of calls has led to, the
    leaderboard has exactly one row for every sign that has an entry, in
    descending order of count; every row shows the sign's count, which is at
    least one; a name that is not an inherited member's has a row exactly
    when it was recorded since the last reset, and the name of an inherited
    member has none; and [getTopSigns(n)] is, streaks apart, the first [n]
    rows of the leaderboard. *)
Theorem leaderboard_ranks_every_sign (now : Z) (calls : list Call) :
  let session := run (initial now) calls in
  descendingCounts (map Row.count (getLeaderboard session))
  /\ Permutation (map Row.name (getLeaderboard session))
       (map fst (signs session))
  /\ NoDup (map Row.name (getLeaderboard session))
  /\ Forall (fun r => Row.count r = countOf session (Row.name r)
                      /\ (1 <= Row.count r)%nat)
       (getLeaderboard session)
  /\ (forall name,
        inherited name = false ->
        (In name (map Row.name (getLeaderboard session))
         <-> (1 <= recorded name calls 0)%nat))
  /\ (forall name,
        inherited name = true ->
        ~ In name (map Row.name (getLeaderboard session)))
  /\ forall n,
       map withoutStreak (getTopSigns session n)
       = take n (getLeaderboard session).
Proof.
  cbn zeta.
  destruct (initial_entries now calls) as (Hnd & Hpos & _).
  cbn zeta in Hnd, Hpos.
  pose proof (fun name H => run_streak_count calls name H (initial now))
    as Hcount.
  pose proof (fun name H => run_no_member calls name H (initial now) eq_refl)
    as Hmember.
  set (session := run (initial now) calls) in *.
  pose proof (entries_perm (signs session)) as Hperm.
  rewrite List.Forall_forall in Hpos.
  set (row := fun e : string * Sign.t =>
                Row.mk e.1 (Sign.count e.2)
                  (GestureEngine.round
                     (Sign.totalConf e.2 / INR (Sign.count e.2)))
                  (Sign.bestConf e.2) None).
  assert (Hboard : getLeaderboard session
                   = map row
                       (sortByCount
                          (fun e : string * Sign.t => Sign.count e.2)
                          (Dict.entries (signs session)))).
  { unfold getLeaderboard. apply sortByCount_map. reflexivity. }
  assert (Hnames : Permutation (map Row.name (getLeaderboard session))
                     (map fst (signs session))).
  { rewrite Hboard, map_map. cbn [row Row.name].
    rewrite sortByCount_perm, Hperm. reflexivity. }
  assert (Hrow : forall name,
             In name (map Row.name (getLeaderboard session))
             <-> Dict.get (signs session) name <> None).
  { intros name. rewrite dict_get_None_keys. split.
    - intros Hin Hnot. apply Hnot. exact (Permutation_in _ Hnames Hin).
    - intros Hin.
      destruct (in_dec String.string_dec name (map fst (signs session)))
        as [Hyes | Hno]; [| contradiction].
      exact (Permutation_in _ (Permutation_sym Hnames) Hyes). }
  split; [unfold getLeaderboard; apply sortByCount_desc |].
  split; [exact Hnames |].
  split; [rewrite Hnames; exact Hnd |].
  split.
  { rewrite Hboard. apply List.Forall_forall. intros r Hr.
    apply in_map_iff in Hr as (e & <- & He).
    apply (Permutation_in _ (sortByCount_perm _ _)) in He.
    apply (Permutation_in _ Hperm) in He.
    cbn [row Row.count Row.name]. unfold countOf.
    rewrite (dict_In_get (signs session) e.1 e.2 Hnd)
      by (destruct e; exact He).
    split; [reflexivity | exact (Hpos e He)]. }
  split.
  { intros name Hown. rewrite Hrow.
    destruct (Hcount name Hown) as [_ Hc].
    change (countOf (initial now) name) with 0%nat in Hc. rewrite <- Hc.
    unfold countOf.
    destruct (Dict.get (signs session) name) as [v |] eqn:E.
    - apply dict_get_In in E. pose proof (Hpos _ E) as H1. cbn [snd] in H1.
      split; [intros _; exact H1 | discriminate].
    - split; [intros H; contradiction | lia]. }
  split.
  { intros name Hinh. rewrite Hrow, (Hmember name Hinh). intros H.
    apply H. reflexivity. }
  intros n. rewrite Hboard. unfold getTopSigns.
  rewrite map_map, firstn_map.
  apply map_ext. intros e. reflexivity.
Qed.

Lemma leaderboard_ranks_every_sign_witness :
  let session :=
    run (initial 0)
      [RecordSign "A" 90 1; RecordSign "constructor" 80 2;
       RecordSign "A" 70 3] in
  In "A" (map Row.name (getLeaderboard session))
  /\ ~ In "B" (map Row.name (getLeaderboard session))
  /\ ~ In "constructor" (map Row.name (getLeaderboard session)).
Proof.
  cbn zeta.
  pose proof (leaderboard_ranks_every_sign 0
                [RecordSign "A" 90 1; RecordSign "constructor" 80 2;
                 RecordSign "A" 70 3]) as (_ & _ & _ & _ & Hown & Hinh & _).
  split; [| split].
  - apply (Hown "A" eq_refl). cbn. lia.
  - intros H. apply (Hown "B" eq_refl) in H. cbn in H. lia.
  - apply (Hinh "constructor" eq_refl).
Defined.

End AnalyticsRankings.




(** ** The sentence and the strip of recent signs *)

Section SentenceBuilder.
Import App.

Lemma wellFormed_snoc_word (w : string) (sentence : list string) :
  forall b,
    wellFormed b sentence ->
    w <> "" -> w <> "—" -> w <> "·" ->
    wellFormed b (sentence ++ [w]).
Proof.
  induction sentence as [| x rest IH]; intros b Hwf H1 H2 H3;
    cbn [app wellFormed] in *.
  - repeat split; try assumption. intros Heq. contradiction.
  - destruct Hwf as (Hx1 & Hx2 & Hx3 & Hrest).
    repeat split; try assumption. apply IH; assumption.
Qed.

Lemma wellFormed_snoc_space (sentence : list string) :
  forall b,
    wellFormed b sentence ->
    (0 < length sentence)%nat ->
    List.last sentence "" <> "·" ->
    wellFormed b (sentence ++ ["·"]).
Proof.
  induction sentence as [| x rest IH]; intros b Hwf Hlen Hlast.
  - cbn in Hlen. lia.
  - cbn [app wellFormed] in *. destruct Hwf as (Hx1 & Hx2 & Hx3 & Hrest).
    repeat split; try assumption.
    destruct rest as [| y rest'].
    + cbn [app wellFormed]. cbn [List.last] in Hlast.
      repeat split; try discriminate.
      intros _. apply negb_true_iff. apply String.eqb_neq. exact Hlast.
    + apply IH; [exact Hrest | cbn [length]; lia | exact Hlast].
Qed.

Lemma wellFormed_removelast (sentence : list string) :
  forall b, wellFormed b sentence -> wellFormed b (removelast sentence).
Proof.
  induction sentence as [| x rest IH]; intros b Hwf; [exact I |].
  destruct rest as [| y rest']; [exact I |].
  change (removelast (x :: y :: rest')) with (x :: removelast (y :: rest')).
  cbn [wellFormed] in Hwf |- *. destruct Hwf as (Hx1 & Hx2 & Hx3 & Hrest).
  repeat split; try assumption. apply IH. exact Hrest.
Qed.

Lemma edit_wellFormed (sentence : list string) (e : Edit) :
  wellFormed false sentence -> e <> AddWord "·" ->
  wellFormed false (edit sentence e).
Proof.
  intros Hwf He. destruct e as [w | | |]; cbn [edit].
  - unfold addWord.
    destruct (String.eqb_spec w "") as [-> | H1]; [exact Hwf |].
    destruct (String.eqb_spec w "—") as [-> | H2]; [exact Hwf |].
    cbn [orb]. apply wellFormed_snoc_word; try assumption. congruence.
  - unfold addSpace.
    destruct (Nat.ltb_spec 0 (length sentence)) as [Hpos | Hzero];
      [| exact Hwf].
    destruct (String.eqb_spec (List.last sentence "") "·") as [Hl | Hl];
      [exact Hwf |].
    cbn [negb andb]. apply wellFormed_snoc_space; assumption.
  - apply wellFormed_removelast. exact Hwf.
  - exact I.
Qed.

(** X25: whatever sequence of added words, added separators, removed last
    entries and clearings the sentence has gone through, as long as no
    added word is the separator itself: the sentence holds no empty word
    and no dash, does not start with a separator and has no two separators
    in a row. *)
Theorem sentence_stays_well_formed (edits : list Edit) :
  Forall (fun e => e <> AddWord "·") edits ->
  wellFormed false (fold_left edit edits []).
Proof.
  assert (H : forall sentence,
             wellFormed false sentence ->
             Forall (fun e => e <> AddWord "·") edits ->
             wellFormed false (fold_left edit edits sentence)).
  { induction edits as [| e rest IH]; intros sentence Hwf Hall;
      cbn [fold_left]; [exact Hwf |].
    inversion Hall as [| ? ? He Hrest]; subst.
    apply IH; [apply edit_wellFormed; assumption | exact Hrest]. }
  apply H. exact I.
Qed.

Lemma sentence_stays_well_formed_witness :
  wellFormed false
    (fold_left edit
       [AddWord "A"; AddSpace; AddSpace; AddWord "—"; AddWord "B"; Backspace;
        AddSpace] []).
Proof.
  apply (sentence_stays_well_formed
           [AddWord "A"; AddSpace; AddSpace; AddWord "—"; AddWord "B";
            Backspace; AddSpace]).
  repeat (constructor; [discriminate |]). constructor.
Defined.

Lemma addChip_take (recent : list string) (sign : string) :
  addChip (take MAX_CHIPS recent) sign = take MAX_CHIPS (sign :: recent).
Proof.
  unfold addChip, MAX_CHIPS.
  destruct recent as [| a [| b [| c [| d [| e [| f rest]]]]]]; reflexivity.
Qed.

(** X26: after any sequence of confirmed signs the strip of recent signs
    holds the last six of them, the newest first (all of them while there
    are fewer than six). *)
Theorem chips_are_the_last_six (signs : list string) :
  fold_left addChip signs [] = take MAX_CHIPS (rev signs)
  /\ (length (fold_left addChip signs []) <= MAX_CHIPS)%nat.
Proof.
  assert (H : forall recent,
             fold_left addChip signs (take MAX_CHIPS recent)
             = take MAX_CHIPS (rev signs ++ recent)).
  { induction signs as [| s rest IH]; intros recent; cbn [fold_left rev].
    - reflexivity.
    - rewrite addChip_take, IH, <- app_assoc. reflexivity. }
  specialize (H []). rewrite app_nil_r in H.
  change (take MAX_CHIPS []) with (@nil string) in H.
  rewrite H. split; [reflexivity |]. rewrite length_take. lia.
Qed.

End SentenceBuilder.




(** ** The detection pipeline *)

Section Pipeline.
Import App.






Ltac app_fields :=
  cbn [setEngine setLastDetectionTs setCalibration setLastRawFpScore
       setCurrentDisplaySign setPending setLastConfirmed setAnalytics
       setSentence setRecentSigns updateSignDisplay engine calibration
       analytics pendingSign pendingSignTime lastConfirmedSign
       lastConfirmedTime lastRawFpScore currentDisplaySign autoSpeak
       calibrating sentence recentSigns lastDetectionTs debounceMs fst snd].


(** The sample engine is the one after [init] and eight frames. *)
Lemma heldEngine_eq :
  heldEngine
  = GestureEngine.mkState true
      (TemporalSmoother.pushEach [] "Z" (replicate 8 0.9)) ∅.
Proof.
  unfold heldEngine. rewrite run_cons. cbn [GestureEngine.step].
  rewrite detect_Z_repeated; reflexivity.
Qed.

Lemma round_90 : GestureEngine.round (0.9 * 100) = 90.
Proof.
  unfold GestureEngine.round. f_equal.
  destruct (base_Int_part (0.9 * 100 + 0.5)) as [Hle Hgt].
  assert (H1 : (Int_part (0.9 * 100 + 0.5) < 91)%Z)
    by (apply lt_IZR; lra).
  assert (H2 : (89 < Int_part (0.9 * 100 + 0.5))%Z)
    by (apply lt_IZR; lra).
  lia.
Qed.

Lemma round_0 : GestureEngine.round (0 * 10) = 0.
Proof.
  unfold GestureEngine.round. f_equal.
  destruct (base_Int_part (0 * 10 + 0.5)) as [Hle Hgt].
  assert (H1 : (Int_part (0 * 10 + 0.5) < 1)%Z) by (apply lt_IZR; lra).
  assert (H2 : (-1 < Int_part (0 * 10 + 0.5))%Z) by (apply lt_IZR; lra).
  lia.
Qed.

(** The ninth frame reports Z with 90. *)
Lemma heldEngine_detect :
  GestureEngine.detect heldEngine (Some curledHand)
    (Some [Candidate.mk "Z" 9.0])
  = (GestureEngine.mkState true
       (TemporalSmoother.pushEach [] "Z" (replicate 9 0.9)) ∅,
     Some (Opinion.mk "Z" 90)).
Proof.
  rewrite heldEngine_eq. unfold GestureEngine.detect.
  cbn [GestureEngine.ready negb orb length curledHand Nat.ltb Nat.leb].
  fold curledHand.
  cbn [GestureEngine.sortByScore fold_left GestureEngine.insertByScore take].
  rewrite curledHand_resolve_Z.
  cbn [Candidate.name Candidate.score GestureEngine.history
       GestureEngine.stats].
  change (OnlineLearner.adjust ∅ "Z" 9.0) with (Fin 9.0). cbv beta iota.
  replace (Rmin 1.0 (Rmax 0 (9.0 / 10))) with 0.9
    by (rewrite Rmax_right by lra; rewrite Rmin_right by lra; lra).
  change (TemporalSmoother.push
            (TemporalSmoother.pushEach [] "Z" (replicate 8 0.9)) "Z" 0.9)
    with (TemporalSmoother.pushEach [] "Z" (replicate 9 0.9)).
  rewrite best_nine_Z. cbn [Opinion.name Opinion.confidence].
  rewrite round_90. reflexivity.
Qed.

(** The sample frame confirms Z. *)
Lemma heldState_frame :
  runDetection heldState (Some curledHand) (Some [Candidate.mk "Z" 9.0])
    1400 1400 1400
  = Some (heldResult, heldOutput).
Proof.
  unfold runDetection, heldState. app_fields.
  change (1400 - 1000 <? DETECTION_INTERVAL)%Z with false. cbv iota.
  rewrite heldEngine_detect. app_fields.
  cbn [Opinion.name Opinion.confidence].
  change (Calibration.getBonusFor (Calibration.initial Calibration.Missing)
            "Z") with 0.
  rewrite round_0. replace (Rmin 100 (90 + 0)) with 90
    by (rewrite Rmin_right by lra; lra).
  change (String.eqb "Z" "Z") with true. cbv iota.
  change (380 <=? 1400 - 1000)%Z with true. cbv iota.
  unfold onSignConfirmed. app_fields.
  change (String.eqb "Z" "") with false. cbn [andb negb]. app_fields.
  reflexivity.
Qed.



(** A frame either confirms the sign it reports, which is then held, or
    leaves everything as it was, and then no reported sign is held. *)
Lemma runDetection_cases (st st' : State) (landmarks : option Hand)
    (gestures : option (list Candidate.t)) (now confirmedAt recordedAt : Z)
    (out : list Output) :
  runDetection st landmarks gestures now confirmedAt recordedAt
  = Some (st', out) ->
  (untouched st st'
   /\ forall r,
        (GestureEngine.detect (engine st) landmarks gestures).2 = Some r ->
        ~ held st r now confirmedAt)
  \/ exists r,
       (GestureEngine.detect (engine st) landmarks gestures).2 = Some r
       /\ held st r now confirmedAt
       /\ confirmed st st' r confirmedAt.
Proof.
  unfold runDetection.
  destruct (Z.ltb_spec (now - lastDetectionTs st) DETECTION_INTERVAL)
    as [Hearly | Hdue].
  { intros [= <- _]. left. split; [repeat split |].
    intros r _ (_ & Hi & _). lia. }
  app_fields.
  pose proof (detect_keeps_stats (engine st) landmarks gestures) as Hstats.
  destruct (GestureEngine.detect (engine st) landmarks gestures)
    as [engine' result].
  cbn [fst snd] in Hstats |- *.
  destruct result as [r |].
  2: { intros [= <- _]. left. split; [| intros r H; discriminate].
       unfold untouched. app_fields. repeat split. exact Hstats. }
  assert (Hfed : forall (st2 : State) (out2 : list Output),
             engine st2 = engine' -> sentence st2 = sentence st ->
             recentSigns st2 = recentSigns st -> analytics st2 = analytics st ->
             pendingSign st2 = pendingSign st ->
             pendingSignTime st2 = pendingSignTime st ->
             lastConfirmedSign st2 = lastConfirmedSign st ->
             lastConfirmedTime st2 = lastConfirmedTime st ->
             debounceMs st2 = debounceMs st ->
             (let calibBonus :=
                Calibration.getBonusFor (calibration st2) (Opinion.name r) in
              let adjConf :=
                Rmin 100
                  (Opinion.confidence r
                   + GestureEngine.round (calibBonus * 10)) in
              let st3 := setLastRawFpScore st2 (Opinion.confidence r / 10) in
              let (st4, out4) :=
                updateSignDisplay st3 (Opinion.name r) adjConf false in
              if String.eqb (Opinion.name r) (pendingSign st4) then
                if (debounceMs st4 <=? now - pendingSignTime st4)%Z then
                  let (st5, out5) :=
                    updateSignDisplay st4 (Opinion.name r) adjConf true in
                  let (st6, out6) :=
                    onSignConfirmed st5 (Opinion.name r) adjConf false
                      confirmedAt recordedAt in
                  Some (setPending st6 "" 0, out2 ++ out4 ++ out5 ++ out6)
                else Some (st4, out2 ++ out4)
              else
                Some (setPending st4 (Opinion.name r) now, out2 ++ out4))
             = Some (st', out) ->
             (untouched st st'
              /\ forall r0, Some r = Some r0 -> ~ held st r0 now confirmedAt)
             \/ exists r0,
                  Some r = Some r0
                  /\ held st r0 now confirmedAt
                  /\ confirmed st st' r0 confirmedAt).
  { intros st2 out2 He Hs Hr Ha Hp Hpt Hl Hlt Hd. cbn zeta. app_fields.
    rewrite Hp, Hpt, Hd. unfold untouched, held, confirmed.
    destruct (String.eqb_spec (Opinion.name r) (pendingSign st))
      as [Hname | Hname].
    2: { intros [= <- _]. left. app_fields.
         rewrite He, Hs, Hr, Ha.
         split; [repeat split; exact Hstats |].
         intros r0 [= <-] (Hn & _). contradiction. }
    destruct (Z.leb_spec (debounceMs st) (now - pendingSignTime st))
      as [Hheld | Hshort].
    2: { intros [= <- _]. left. app_fields.
         rewrite He, Hs, Hr, Ha.
         split; [repeat split; exact Hstats |].
         intros r0 [= <-] (_ & _ & Hlong & _). lia. }
    unfold onSignConfirmed. app_fields. rewrite Hl, Hlt.
    destruct (String.eqb_spec (Opinion.name r) (lastConfirmedSign st))
      as [Hsame | Hother]; cbn [andb].
    - destruct (Z.ltb_spec (confirmedAt - lastConfirmedTime st)
                  addCooldownMs) as [Hcool | Hwarm].
      + intros [= <- _]. left. app_fields.
        rewrite He, Hs, Hr, Ha.
        split; [repeat split; exact Hstats |].
        intros r0 [= <-] (_ & _ & _ & Hc). specialize (Hc Hsame). lia.
      + intros [= <- _]. right. exists r. app_fields. cbn [negb].
        app_fields. rewrite He, Hs, Hr, Ha.
        cbn [GestureEngine.confirmSign GestureEngine.stats]. rewrite Hstats.
        repeat split; try assumption; try reflexivity.
        intros _. exact Hwarm.
    - intros [= <- _]. right. exists r. app_fields. cbn [negb].
      app_fields. rewrite He, Hs, Hr, Ha.
        cbn [GestureEngine.confirmSign GestureEngine.stats]. rewrite Hstats.
      repeat split; try assumption; try reflexivity.
      intros Heq. contradiction. }
  destruct (calibrating st).
  - destruct (Calibration.feedSample (calibration st) (Opinion.name r)
                (Opinion.confidence r / 10)) as [[c events] |];
      [| discriminate].
    intros H. refine (Hfed _ _ _ _ _ _ _ _ _ _ _ H); reflexivity.
  - intros H. refine (Hfed _ _ _ _ _ _ _ _ _ _ _ H); reflexivity.
Qed.

(** X28: of a frame that [runDetection] returns from.  When [detect]
    reports the very sign that is pending, the frame comes at least 80 ms
    after the previous detection and at least the debounce time (380 ms
    unless the slider has changed it) after the sign became pending, and the
    sign is not the last confirmed one or that confirmation is at least
    1400 ms old, then the sign is added as a word and as a chip, one
    detection is recorded, the pending sign is cleared, the sign becomes the
    last confirmed one, and the learner observes the reported confidence
    divided by ten - not the displayed confidence, which includes the
    calibration bonus.  When [detect] reports nothing or one of these
    conditions fails, the frame leaves the sentence, the strip of recent
    signs, the analytics session and the learner's statistics as they
    were. *)
Theorem a_word_needs_a_held_sign (st st' : State) (landmarks : option Hand)
    (gestures : option (list Candidate.t)) (now confirmedAt recordedAt : Z)
    (out : list Output) :
  runDetection st landmarks gestures now confirmedAt recordedAt
  = Some (st', out) ->
  (forall r,
     (GestureEngine.detect (engine st) landmarks gestures).2 = Some r ->
     held st r now confirmedAt ->
     confirmed st st' r confirmedAt)
  /\ ((forall r,
        (GestureEngine.detect (engine st) landmarks gestures).2 = Some r ->
        ~ held st r now confirmedAt) ->
      untouched st st').
Proof.
  intros Hrun.
  destruct (runDetection_cases _ _ _ _ _ _ _ _ Hrun)
    as [[Hsame Hnot] | (r0 & Hr0 & Hheld & Hdone)].
  - split; [| intros _; exact Hsame].
    intros r Hr Hheld. exfalso. exact (Hnot r Hr Hheld).
  - split.
    + intros r Hr _. rewrite Hr0 in Hr. injection Hr as <-. exact Hdone.
    + intros Hnot. exfalso. exact (Hnot r0 Hr0 Hheld).
Qed.

Lemma a_word_needs_a_held_sign_witness :
  runDetection heldState (Some curledHand) (Some [Candidate.mk "Z" 9.0])
    1400 1400 1400
  = Some (heldResult, heldOutput)
  /\ held heldState (Opinion.mk "Z" 90) 1400 1400
  /\ confirmed heldState heldResult (Opinion.mk "Z" 90) 1400.
Proof.
  assert (Hheld : held heldState (Opinion.mk "Z" 90) 1400 1400).
  { unfold held, heldState. app_fields. cbn [Opinion.name].
    unfold DETECTION_INTERVAL, addCooldownMs.
    repeat split; try lia. }
  split; [exact heldState_frame |]. split; [exact Hheld |].
  refine (proj1 (a_word_needs_a_held_sign heldState heldResult
                   (Some curledHand) (Some [Candidate.mk "Z" 9.0])
                   1400 1400 1400 heldOutput heldState_frame)
            (Opinion.mk "Z" 90) _ Hheld).
  unfold heldState. app_fields. rewrite heldEngine_detect. reflexivity.
Defined.

End Pipeline.
